(** * Data-logger admin panel: the auth-aware request client and the page
      view-models, embedded shallowly and checked against their specification.

    Layout of the development:
    - [JS]: the fragment of JavaScript values the front-end manipulates
      (JSON bodies, truthiness, [||], property access with and without [?.]);
    - [Api]: [utils/api] -- the axios instance with its request and response
      interceptors, the cookie jar, and [handleApiError];
    - [Users], [Roles], [Companies], [Devices], [EditDevice]: the page
      view-models (fetch, normalisation, submit and delete handlers);
    - [Guard]: the request-time middleware and the dashboard's mount effect;
    - [Scenario]: concrete servers, sessions and entities for the examples.

    The network is a deterministic oracle: the answer to a request is a
    function of the requests sent before it and of the request itself.  Calls
    through the client may re-enter the client, so [Api.request] is defined
    with a fuel argument, one unit per level of re-entry; the outcome
    [Pending] means the promise has not settled within the given fuel.  The
    requests put on the wire are logged in the browser state whether or not
    the promise settles. *)

From Stdlib Require Import ZArith String List Bool Ascii Lia.
From stdpp Require Import base option list gmap strings pretty.

Import ListNotations.
Set Warnings "-register-all".
Local Open Scope string_scope.
Local Open Scope Z_scope.

(* ===================================================================== *)
(** ** JavaScript values *)
(* ===================================================================== *)

Module JS.

(** JSON-like runtime values.  Numbers are the integers (the front-end only
    handles identifiers, status codes and push intervals); strings are
    sequences of one-byte characters; an object is an association list in
    insertion order, the first binding of a key being the live one. *)
Inductive value : Type :=
| VUndefined
| VNull
| VBool (b : bool)
| VNum (n : Z)
| VStr (s : string)
| VArr (items : list value)
| VObj (props : list (string * value)).

(** What a JavaScript expression evaluates to: a value, or a thrown
    exception of type [E]. *)
Inductive completion (E A : Type) : Type :=
| Normal (a : A)
| Throw (e : E).
Arguments Normal {E A} a.
Arguments Throw {E A} e.

Definition bind {E A B} (c : completion E A) (k : A -> completion E B)
  : completion E B :=
  match c with
  | Normal a => k a
  | Throw e => Throw e
  end.

Notation "x <- c ;; k" := (bind c (fun x => k))
  (at level 100, c at next level, right associativity, only parsing).

(** [ToBoolean]. *)
Definition truthy (v : value) : bool :=
  match v with
  | VUndefined | VNull => false
  | VBool b => b
  | VNum n => negb (n =? 0)
  | VStr s => negb (String.eqb s "")
  | VArr _ | VObj _ => true
  end.

Definition truthy_string (s : string) : bool := negb (String.eqb s "").

(** [a || b]. *)
Definition or (a b : value) : value := if truthy a then a else b.

Definition is_nullish (v : value) : bool :=
  match v with
  | VUndefined | VNull => true
  | _ => false
  end.

Fixpoint lookup_prop (k : string) (ps : list (string * value)) : value :=
  match ps with
  | [] => VUndefined
  | (k', v) :: ps' => if String.eqb k k' then v else lookup_prop k ps'
  end.

Fixpoint has_prop (k : string) (ps : list (string * value)) : bool :=
  match ps with
  | [] => false
  | (k', _) :: ps' => String.eqb k k' || has_prop k ps'
  end.

(** [delete o.k] on the property list. *)
Fixpoint delete_prop (k : string) (ps : list (string * value))
  : list (string * value) :=
  match ps with
  | [] => []
  | (k', v) :: ps' =>
      if String.eqb k k' then delete_prop k ps' else (k', v) :: delete_prop k ps'
  end.

(** The only exception the language itself raises in this code base:
    reading a property of [null] or [undefined]. *)
Inductive type_error : Type := TypeError.

(** [v.k]: throws on [null] and [undefined]; primitives and arrays have none
    of the named properties the front-end asks for. *)
Definition member (v : value) (k : string) : completion type_error value :=
  match v with
  | VUndefined | VNull => Throw TypeError
  | VObj ps => Normal (lookup_prop k ps)
  | _ => Normal VUndefined
  end.

(** [v?.k]. *)
Definition opt_member (v : value) (k : string) : value :=
  match v with
  | VObj ps => lookup_prop k ps
  | _ => VUndefined
  end.

Definition isArray (v : value) : bool :=
  match v with
  | VArr _ => true
  | _ => false
  end.

(** [ToString], as used by template literals and by the cookie writer. *)
Fixpoint toString (v : value) : string :=
  match v with
  | VUndefined => "undefined"
  | VNull => "null"
  | VBool true => "true"
  | VBool false => "false"
  | VNum n => pretty n
  | VStr s => s
  | VArr items =>
      String.concat ","
        (List.map (fun x => if is_nullish x then "" else toString x) items)
  | VObj _ => "[object Object]"
  end.

(** [a === s] for a string [s]. *)
Definition strict_eq_string (a : value) (s : string) : bool :=
  match a with
  | VStr s' => String.eqb s' s
  | _ => false
  end.

End JS.

(* ===================================================================== *)
(** ** The auth-aware request client ([utils/api]) *)
(* ===================================================================== *)

Module Api.
Import JS.

Inductive Method : Type := GET | POST | PUT | DELETE | PATCH.

Definition Method_eqb (a b : Method) : bool :=
  match a, b with
  | GET, GET | POST, POST | PUT, PUT | DELETE, DELETE | PATCH, PATCH => true
  | _, _ => false
  end.

(** The part of an axios request configuration the client reads or writes.
    [payload] is axios' [data] field of a request; [_retry] is the marker
    the response interceptor puts on a request it has already retried. *)
Record AxiosRequestConfig : Type := mkConfig {
  method : Method;
  url : string;
  payload : value;
  headers : gmap string string;
  _retry : bool
}.

Record AxiosResponse : Type := mkResponse {
  status : Z;
  data : value
}.

(** Values a promise of the client rejects with. *)
Inductive failure : Type :=
| AxiosError (config : AxiosRequestConfig) (response : option AxiosResponse)
| Error (message : string)
| ThrownTypeError.

(** How a promise of the client stands when the fuel is used up: settled
    one way or the other, or still pending. *)
Inductive outcome : Type :=
| Resolved (response : AxiosResponse)
| Rejected (error : failure)
| Pending.

(** What the transport gets back for one request. *)
Inductive net_result : Type :=
| Answer (status : Z) (body : value)
| NetworkError.

(** *** Cookie jar ([js-cookie]) *)

Record cookie : Type := mkCookie {
  cookie_value : string;
  expires : Z   (* days *)
}.

Module Cookies.
Definition get (name : string) (jar : gmap string cookie) : option string :=
  cookie_value <$> jar !! name.
Definition set (name : string) (v : string) (days : Z)
           (jar : gmap string cookie) : gmap string cookie :=
  <[name := mkCookie v days]> jar.
Definition remove (name : string) (jar : gmap string cookie)
  : gmap string cookie :=
  delete name jar.
End Cookies.

(** The browser state the client touches, and the requests put on the wire
    so far (oldest first). *)
Record World : Type := mkWorld {
  cookies : gmap string cookie;
  href : string;          (* window.location.href *)
  page_loads : nat;       (* full page loads caused by assigning to it *)
  log : list AxiosRequestConfig
}.

Definition with_cookies (jar : gmap string cookie) (w : World) : World :=
  mkWorld jar (href w) (page_loads w) (log w).
(** [window.location.href = h] *)
Definition with_href (h : string) (w : World) : World :=
  mkWorld (cookies w) h (S (page_loads w)) (log w).
Definition with_log (l : list AxiosRequestConfig) (w : World) : World :=
  mkWorld (cookies w) (href w) (page_loads w) l.

Definition set_header (k v : string) (c : AxiosRequestConfig)
  : AxiosRequestConfig :=
  mkConfig (method c) (url c) (payload c) (<[k := v]> (headers c)) (_retry c).

Definition set_retry (b : bool) (c : AxiosRequestConfig) : AxiosRequestConfig :=
  mkConfig (method c) (url c) (payload c) (headers c) b.

(** [axios.create({ headers: { 'Content-Type': 'application/json' }, ... })] *)
Definition default_headers : gmap string string :=
  {[ "Content-Type" := "application/json" ]}.

Definition get_config (u : string) : AxiosRequestConfig :=
  mkConfig GET u VUndefined default_headers false.
Definition post_config (u : string) (d : value) : AxiosRequestConfig :=
  mkConfig POST u d default_headers false.
Definition put_config (u : string) (d : value) : AxiosRequestConfig :=
  mkConfig PUT u d default_headers false.
Definition delete_config (u : string) : AxiosRequestConfig :=
  mkConfig DELETE u VUndefined default_headers false.

Definition is_refresh_call (c : AxiosRequestConfig) : bool :=
  Method_eqb (method c) POST && String.eqb (url c) "/auth/refresh".

(** axios' default [validateStatus]. *)
Definition validateStatus (st : Z) : bool := (200 <=? st) && (st <? 300).

Definition response_status (r : option AxiosResponse) : option Z :=
  status <$> r.

Definition is_401 (r : option AxiosResponse) : bool :=
  match response_status r with
  | Some st => st =? 401
  | None => false
  end.

(** A usable token is stored under [name]: the cookie exists and its value
    is a non-empty string (what [if (token)] tests). *)
Definition has_token (name : string) (w : World) : bool :=
  match Cookies.get name (cookies w) with
  | Some token => truthy_string token
  | None => false
  end.

(** Two configurations address the same endpoint. *)
Definition same_target (a b : AxiosRequestConfig) : bool :=
  Method_eqb (method a) (method b) && String.eqb (url a) (url b).

Section Client.

(** The server: its answer to a request, given the requests it has
    received before. *)
Variable server : list AxiosRequestConfig -> AxiosRequestConfig -> net_result.

(** Request interceptor: attach the stored access token, if any. *)
Definition request_interceptor (w : World) (config : AxiosRequestConfig)
  : AxiosRequestConfig :=
  match Cookies.get "accessToken" (cookies w) with
  | Some token =>
      if truthy_string token
      then set_header "Authorization" ("Bearer " +:+ token) config
      else config
  | None => config
  end.

(** The transport: the request goes on the wire, and the promise settles
    according to the status of the answer. *)
Definition adapter (config : AxiosRequestConfig) (w : World)
  : World * (AxiosResponse + failure) :=
  let w' := with_log (log w ++ [config]) w in
  match server (log w) config with
  | Answer st body =>
      if validateStatus st
      then (w', inl (mkResponse st body))
      else (w', inr (AxiosError config (Some (mkResponse st body))))
  | NetworkError => (w', inr (AxiosError config None))
  end.

Definition refresh_request (refreshToken : string) : AxiosRequestConfig :=
  post_config "/auth/refresh" (VObj [("refreshToken", VStr refreshToken)]).

(** The [try] block of the response interceptor.  [api] is the client
    itself.  The block either throws (and the [catch] block runs), or
    returns the promise of the resubmitted request, whose later rejection
    the [catch] block does not see. *)
Definition try_block
    (api : AxiosRequestConfig -> World -> World * outcome)
    (originalRequest : AxiosRequestConfig) (w : World)
  : World * completion failure outcome :=
  match Cookies.get "refreshToken" (cookies w) with
  | Some refreshToken =>
      if truthy_string refreshToken then
        match api (refresh_request refreshToken) w with
        | (w1, Pending) => (w1, Normal Pending)
        | (w1, Rejected e) => (w1, Throw e)
        | (w1, Resolved response) =>
            match member (data response) "accessToken",
                  member (data response) "refreshToken" with
            | Normal accessToken, Normal newRefreshToken =>
                let jar1 :=
                  Cookies.set "accessToken" (toString accessToken) 1
                    (cookies w1) in
                let jar2 :=
                  Cookies.set "refreshToken" (toString newRefreshToken) 7
                    jar1 in
                let w2 := with_cookies jar2 w1 in
                let originalRequest :=
                  set_header "Authorization"
                    ("Bearer " +:+ toString accessToken) originalRequest in
                match api originalRequest w2 with
                | (w3, o) => (w3, Normal o)
                end
            | _, _ => (w1, Throw ThrownTypeError)
            end
        end
      else (w, Throw (Error "No refresh token available"))
  | None => (w, Throw (Error "No refresh token available"))
  end.

(** The [catch] block: clear both tokens, go to the login page. *)
Definition catch_block (w : World) : World :=
  let jar1 := Cookies.remove "accessToken" (cookies w) in
  let jar2 := Cookies.remove "refreshToken" jar1 in
  with_href "/login" (with_cookies jar2 w).

(** Response interceptor, rejection handler. *)
Definition on_rejected
    (api : AxiosRequestConfig -> World -> World * outcome)
    (error : failure) (w : World) : World * outcome :=
  match error with
  | AxiosError config response =>
      let originalRequest := config in
      if is_401 response && negb (_retry originalRequest) then
        let originalRequest := set_retry true originalRequest in
        match try_block api originalRequest w with
        | (w', Normal o) => (w', o)
        | (w', Throw refreshError) => (catch_block w', Rejected refreshError)
        end
      else (w, Rejected error)
  | _ => (w, Rejected error)
  end.

(** [api(config)]: request interceptor, transport, response interceptor.
    Each level of re-entry into the client costs one unit of fuel. *)
Fixpoint request (fuel : nat) (config : AxiosRequestConfig) (w : World)
  : World * outcome :=
  match fuel with
  | O => (w, Pending)
  | S fuel' =>
      let config := request_interceptor w config in
      match adapter config w with
      | (w1, inl response) => (w1, Resolved response)
      | (w1, inr error) => on_rejected (request fuel') error w1
      end
  end.

End Client.

(** *** Error message extraction *)

(** [axios.isAxiosError]: an object whose [isAxiosError] property is [true]. *)
Definition isAxiosError (p : value) : bool :=
  match p with
  | VObj ps =>
      match lookup_prop "isAxiosError" ps with
      | VBool true => true
      | _ => false
      end
  | _ => false
  end.

Definition handleApiError (error : value) : completion type_error value :=
  if isAxiosError error then
    response <- member error "response";;
    Normal (JS.or (opt_member (opt_member response "data") "message")
                  (VStr "An error occurred"))
  else Normal (VStr "An unexpected error occurred").

(** The JavaScript object a rejection value is, as [handleApiError] and the
    call sites see it. *)
Definition response_value (r : AxiosResponse) : value :=
  VObj [("status", VNum (status r)); ("data", data r)].

Definition failure_value (e : failure) : value :=
  match e with
  | AxiosError _ response =>
      VObj [("isAxiosError", VBool true);
            ("name", VStr "AxiosError");
            ("response", match response with
                         | Some r => response_value r
                         | None => VUndefined
                         end)]
  | Error message => VObj [("name", VStr "Error"); ("message", VStr message)]
  | ThrownTypeError => VObj [("name", VStr "TypeError")]
  end.

End Api.

(* ===================================================================== *)
(** ** Shared pieces of the page view-models *)
(* ===================================================================== *)

Module Page.
Import JS Api.

(** A language-level [TypeError] seen as a rejection value. *)
Definition lift {A} (c : completion type_error A) : completion failure A :=
  match c with
  | Normal a => Normal a
  | Throw TypeError => Throw ThrownTypeError
  end.

(** [o.k1 || o.k2] *)
Definition coalesce (o : value) (k1 k2 : string) : completion type_error value :=
  a <- member o k1;;
  if truthy a then Normal a else member o k2.

(** [items.map(f)] for a callback that may throw. *)
Fixpoint map_throwing {E A B} (f : A -> completion E B) (items : list A)
  : completion E (list B) :=
  match items with
  | [] => Normal []
  | x :: rest =>
      y <- f x;;
      ys <- map_throwing f rest;;
      Normal (y :: ys)
  end.

(** [items.filter(keep)] for a callback that may throw. *)
Fixpoint filter_throwing {E A} (keep : A -> completion E bool) (items : list A)
  : completion E (list A) :=
  match items with
  | [] => Normal []
  | x :: rest =>
      b <- keep x;;
      ys <- filter_throwing keep rest;;
      Normal (if b then x :: ys else ys)
  end.

(** What an [await] on a client promise gives a handler that has a
    [try]/[catch] around it; [None] while the promise is pending. *)
Definition await (o : outcome) : option (completion failure AxiosResponse) :=
  match o with
  | Resolved response => Some (Normal response)
  | Rejected e => Some (Throw e)
  | Pending => None
  end.

(** The two shapes a list endpoint answers with: the envelope
    [{ success: true, data: [...] }] and the bare array. *)
Definition envelope (items : list value) : value :=
  VObj [("success", VBool true); ("data", VArr items)].

Definition list_body (wrapped : bool) (items : list value) : value :=
  if wrapped then envelope items else VArr items.

End Page.

(* ===================================================================== *)
(** ** Users page *)
(* ===================================================================== *)

Module Users.
Import JS Api Page.

(** A row of the grid, as [fetchUsers] builds it. *)
Module User.
Record t : Type := mk {
  id : value;
  email : value;
  firstName : value;
  lastName : value;
  role : value;
  status : value;
  companyId : value;
  createdAt : value;
  updatedAt : value
}.
End User.

(** The values held by the dialog form. *)
Module Form.
Record t : Type := mk {
  email : value;
  firstName : value;
  lastName : value;
  role : value;
  status : value;
  password : value;
  companyId : value
}.
End Form.

Inductive UserRole : Type := admin | manager | viewer.
Inductive UserStatus : Type := active | inactive.

Definition UserRole_name (r : UserRole) : string :=
  match r with
  | admin => "admin"
  | manager => "manager"
  | viewer => "viewer"
  end.

Definition UserStatus_name (s : UserStatus) : string :=
  match s with
  | active => "active"
  | inactive => "inactive"
  end.

(** [UserFormData]: what the schema lets through to [onSubmit]. *)
Module UserFormData.
Record t : Type := mk {
  email : string;
  firstName : string;
  lastName : string;
  role : UserRole;
  status : UserStatus;
  password : option string;
  companyId : string
}.
End UserFormData.

Record State : Type := mkState {
  users : list User.t;
  loading : bool;
  error : value;
  openDialog : bool;
  selectedUser : option User.t;
  companies : list value;
  form : Form.t
}.

Definition setUsers (x : list User.t) (s : State) : State :=
  mkState x (loading s) (error s) (openDialog s) (selectedUser s) (companies s) (form s).
Definition setLoading (x : bool) (s : State) : State :=
  mkState (users s) x (error s) (openDialog s) (selectedUser s) (companies s) (form s).
Definition setError (x : value) (s : State) : State :=
  mkState (users s) (loading s) x (openDialog s) (selectedUser s) (companies s) (form s).
Definition setOpenDialog (x : bool) (s : State) : State :=
  mkState (users s) (loading s) (error s) x (selectedUser s) (companies s) (form s).
Definition setSelectedUser (x : option User.t) (s : State) : State :=
  mkState (users s) (loading s) (error s) (openDialog s) x (companies s) (form s).
Definition setCompanies (x : list value) (s : State) : State :=
  mkState (users s) (loading s) (error s) (openDialog s) (selectedUser s) x (form s).
Definition setForm (x : Form.t) (s : State) : State :=
  mkState (users s) (loading s) (error s) (openDialog s) (selectedUser s) (companies s) x.

(** [defaultValues] of [useForm]. *)
Definition defaultValues : Form.t :=
  Form.mk (VStr "") (VStr "") (VStr "") (VStr "viewer") (VStr "active")
          VUndefined (VStr "").

(** The callback of [response.data.data.map]. *)
Definition normalize (user : value) : completion type_error User.t :=
  id <- coalesce user "id" "_id";;
  email <- member user "email";;
  firstName <- coalesce user "first_name" "firstName";;
  lastName <- coalesce user "last_name" "lastName";;
  role <- member user "role";;
  status <- member user "status";;
  companyId <- coalesce user "company_id" "companyId";;
  createdAt <- coalesce user "created_at" "createdAt";;
  updatedAt <- coalesce user "updated_at" "updatedAt";;
  Normal (User.mk id email firstName lastName role status companyId
                  createdAt updatedAt).

(** The statements of [fetchUsers] between the [await] and [setUsers]. *)
Definition usersWithIds (response : AxiosResponse)
  : completion failure (list User.t) :=
  success <- lift (member (data response) "success");;
  if negb (truthy success) then
    Throw (Error "Invalid response format: expected success and data array")
  else
    match opt_member (data response) "data" with
    | VArr items => lift (map_throwing normalize items)
    | _ =>
        Throw (Error "Invalid response format: expected success and data array")
    end.

(** The statements of the users page's [fetchCompanies] after the [await]. *)
Definition formattedCompanies (response : AxiosResponse)
  : completion failure (list value) :=
  match data response with
  | VArr items =>
      lift (map_throwing
              (fun company =>
                 id <- member company "id";;
                 name <- member company "name";;
                 Normal (VObj [("id", id); ("name", name)]))
              items)
  | _ => Throw (Error "Invalid companies response format")
  end.

(** The JSON object a validated form serialises to. *)
Definition encode (d : UserFormData.t) : list (string * value) :=
  [("email", VStr (UserFormData.email d));
   ("firstName", VStr (UserFormData.firstName d));
   ("lastName", VStr (UserFormData.lastName d));
   ("role", VStr (UserRole_name (UserFormData.role d)));
   ("status", VStr (UserStatus_name (UserFormData.status d)))]
  ++ match UserFormData.password d with
     | Some p => [("password", VStr p)]
     | None => []
     end
  ++ [("companyId", VStr (UserFormData.companyId d))].

(** [!data.password] *)
Definition blank (p : option string) : bool :=
  match p with
  | Some s => negb (truthy_string s)
  | None => true
  end.

(** [const updateData = { ...data }; if (!updateData.password) delete
    updateData.password;] *)
Definition updateData (d : UserFormData.t) : list (string * value) :=
  let copy := encode d in
  if blank (UserFormData.password d) then delete_prop "password" copy else copy.

Section Handlers.

Variable server : list AxiosRequestConfig -> AxiosRequestConfig -> net_result.
Variable fuel : nat.
(** The schema's [email()] and [uuid()] checks. *)
Variable is_email : string -> bool.
Variable is_uuid : string -> bool.

Definition api := request server fuel.

Definition fetchUsers (s : State) (w : World)
  : World * completion type_error State :=
  let s := setLoading true s in
  let '(w1, o) := api (get_config "/users") w in
  match await o with
  | None => (w1, Normal s)
  | Some awaited =>
      match (response <- awaited;; usersWithIds response) with
      | Normal rows =>
          (w1, Normal (setLoading false (setError VNull (setUsers rows s))))
      | Throw err =>
          (w1, errorMessage <- handleApiError (failure_value err);;
               Normal (setLoading false (setUsers [] (setError errorMessage s))))
      end
  end.

Definition fetchCompanies (s : State) (w : World)
  : World * completion type_error State :=
  let '(w1, o) := api (get_config "/companies") w in
  match await o with
  | None => (w1, Normal s)
  | Some awaited =>
      match (response <- awaited;; formattedCompanies response) with
      | Normal cs => (w1, Normal (setCompanies cs s))
      | Throw err =>
          (w1, errorMessage <- handleApiError (failure_value err);;
               Normal (setError errorMessage s))
      end
  end.

Definition handleEdit (user : User.t) (s : State) : State :=
  let s := setSelectedUser (Some user) s in
  let f := form s in
  let f := Form.mk (User.email user) (User.firstName user) (User.lastName user)
                   (User.role user) (User.status user) (Form.password f)
                   (User.companyId user) in
  setOpenDialog true (setForm f s).

(** [userSchema], field by field. *)
Definition string_min (n : nat) (v : value) : option string :=
  match v with
  | VStr s => if (n <=? String.length s)%nat then Some s else None
  | _ => None
  end.

Definition parse_role (v : value) : option UserRole :=
  match v with
  | VStr s =>
      if String.eqb s "admin" then Some admin
      else if String.eqb s "manager" then Some manager
      else if String.eqb s "viewer" then Some viewer
      else None
  | _ => None
  end.

Definition parse_status (v : value) : option UserStatus :=
  match v with
  | VStr s =>
      if String.eqb s "active" then Some active
      else if String.eqb s "inactive" then Some inactive
      else None
  | _ => None
  end.

Definition parse_password (v : value) : option (option string) :=
  match v with
  | VUndefined => Some None
  | _ => Some <$> string_min 8 v
  end.

Definition userSchema (f : Form.t) : option UserFormData.t :=
  email ← (match Form.email f with
           | VStr s => if is_email s then Some s else None
           | _ => None
           end);
  firstName ← string_min 2 (Form.firstName f);
  lastName ← string_min 2 (Form.lastName f);
  role ← parse_role (Form.role f);
  status ← parse_status (Form.status f);
  password ← parse_password (Form.password f);
  companyId ← (match Form.companyId f with
               | VStr s => if is_uuid s then Some s else None
               | _ => None
               end);
  Some (UserFormData.mk email firstName lastName role status password companyId).

(** After a successful call the dialog is closed, [reset()] puts the default
    values back into the form, and the list is fetched again. *)
Definition onSubmit (d : UserFormData.t) (s : State) (w : World)
  : World * completion type_error State :=
  let after (w1 : World) (o : outcome) :=
    match await o with
    | None => (w1, Normal s)
    | Some (Normal _) =>
        let s := setForm defaultValues (setOpenDialog false s) in
        fetchUsers s w1
    | Some (Throw err) =>
        (w1, errorMessage <- handleApiError (failure_value err);;
             Normal (setError errorMessage s))
    end in
  match selectedUser s with
  | Some u =>
      let '(w1, o) :=
        api (put_config ("/users/" +:+ toString (User.id u))
                        (VObj (updateData d))) w in
      after w1 o
  | None =>
      if blank (UserFormData.password d) then
        (w, Normal (setError (VStr "Password is required for new users") s))
      else
        let '(w1, o) := api (post_config "/users" (VObj (encode d))) w in
        after w1 o
  end.

(** [handleSubmit(onSubmit)]: the resolver runs first; the handler is only
    called with what the schema accepts. *)
Definition handleSubmit (s : State) (w : World)
  : World * completion type_error State :=
  match userSchema (form s) with
  | Some d => onSubmit d s w
  | None => (w, Normal s)
  end.

(** [confirmed] is the user's answer to the [confirm] dialog; [id] is the
    [id] of the row. *)
Definition handleDelete (confirmed : bool) (id : value) (s : State) (w : World)
  : World * completion type_error State :=
  if negb confirmed then (w, Normal s)
  else
    let '(w1, o) := api (delete_config ("/users/" +:+ toString id)) w in
    match await o with
    | None => (w1, Normal s)
    | Some (Normal _) => fetchUsers s w1
    | Some (Throw err) =>
        (w1, errorMessage <- handleApiError (failure_value err);;
             Normal (setError errorMessage s))
    end.

Definition handleCloseDialog (s : State) : State :=
  setForm defaultValues (setSelectedUser None (setOpenDialog false s)).

End Handlers.
End Users.

(* ===================================================================== *)
(** ** Roles page *)
(* ===================================================================== *)

Module Roles.
Import JS Api Page.

Record State : Type := mkState {
  roles : list value;
  loading : bool;
  error : value
}.

(** The statements of [fetchRoles] between the [await] and [setRoles]. *)
Definition checked_roles (response : AxiosResponse)
  : completion failure (list value) :=
  success <- lift (member (data response) "success");;
  if negb (truthy success) then
    Throw (Error "Invalid response format: expected success and data array")
  else
    match opt_member (data response) "data" with
    | VArr items => Normal items
    | _ =>
        Throw (Error "Invalid response format: expected success and data array")
    end.

Section Handlers.

Variable server : list AxiosRequestConfig -> AxiosRequestConfig -> net_result.
Variable fuel : nat.

Definition fetchRoles (s : State) (w : World)
  : World * completion type_error State :=
  let s := mkState (roles s) true (error s) in
  let '(w1, o) := request server fuel (get_config "/roles") w in
  match await o with
  | None => (w1, Normal s)
  | Some awaited =>
      match (response <- awaited;; checked_roles response) with
      | Normal rows => (w1, Normal (mkState rows false VNull))
      | Throw err =>
          (w1, errorMessage <- handleApiError (failure_value err);;
               Normal (mkState [] false errorMessage))
      end
  end.

End Handlers.

(** The dialog of the roles page: whether it is open, the role being
    edited, and the values held by the form. *)
Record Dialog : Type := mkDialog {
  open : bool;
  editingRole : value;     (* [null] when a role is being created *)
  form : value;
  defaults : value         (* what [reset()] goes back to *)
}.

Record Capabilities : Type := mkCapabilities {
  view : bool;
  create : bool;
  edit : bool;
  delete : bool
}.

Record Permissions : Type := mkPermissions {
  devices : Capabilities;
  companies : Capabilities;
  users : Capabilities
}.

(** [RoleFormData]: what [roleSchema] lets through to [onSubmit]. *)
Record RoleFormData : Type := mkRoleFormData {
  name : string;
  description : string;
  permissions : Permissions
}.

Definition no_capability : value :=
  VObj [("view", VBool false); ("create", VBool false);
        ("edit", VBool false); ("delete", VBool false)].

Definition no_permission : value :=
  VObj [("devices", no_capability); ("companies", no_capability);
        ("users", no_capability)].

(** [roleSchema], level by level; [z.object] wants an object and keeps the
    declared keys only. *)
Definition parse_boolean (v : value) : option bool :=
  match v with
  | VBool b => Some b
  | _ => None
  end.

Definition parse_capabilities (v : value) : option Capabilities :=
  match v with
  | VObj ps =>
      a ← parse_boolean (lookup_prop "view" ps);
      b ← parse_boolean (lookup_prop "create" ps);
      c ← parse_boolean (lookup_prop "edit" ps);
      d ← parse_boolean (lookup_prop "delete" ps);
      Some (mkCapabilities a b c d)
  | _ => None
  end.

Definition parse_permissions (v : value) : option Permissions :=
  match v with
  | VObj ps =>
      a ← parse_capabilities (lookup_prop "devices" ps);
      b ← parse_capabilities (lookup_prop "companies" ps);
      c ← parse_capabilities (lookup_prop "users" ps);
      Some (mkPermissions a b c)
  | _ => None
  end.

Definition string_min (n : nat) (v : value) : option string :=
  match v with
  | VStr s => if (n <=? String.length s)%nat then Some s else None
  | _ => None
  end.

Definition roleSchema (f : value) : option RoleFormData :=
  match f with
  | VObj ps =>
      a ← string_min 1 (lookup_prop "name" ps);
      b ← string_min 1 (lookup_prop "description" ps);
      c ← parse_permissions (lookup_prop "permissions" ps);
      Some (mkRoleFormData a b c)
  | _ => None
  end.

(** The JSON objects a validated form serialises to. *)
Definition encode_capabilities (c : Capabilities) : value :=
  VObj [("view", VBool (view c)); ("create", VBool (create c));
        ("edit", VBool (edit c)); ("delete", VBool (delete c))].

Definition encode_permissions (p : Permissions) : value :=
  VObj [("devices", encode_capabilities (devices p));
        ("companies", encode_capabilities (companies p));
        ("users", encode_capabilities (users p))].

Definition encode (d : RoleFormData) : value :=
  VObj [("name", VStr (name d)); ("description", VStr (description d));
        ("permissions", encode_permissions (permissions d))].

(** [reset(values)] installs the values and makes them the defaults;
    [reset()] goes back to the defaults. *)
Definition reset (values : option value) (d : Dialog) : Dialog :=
  match values with
  | Some v => mkDialog (open d) (editingRole d) v v
  | None => mkDialog (open d) (editingRole d) (defaults d) (defaults d)
  end.

(** The dialog before its first use: [defaultValues] only name the
    permissions. *)
Definition closed : Dialog :=
  mkDialog false VNull (VObj [("permissions", no_permission)])
           (VObj [("permissions", no_permission)]).

(** [handleOpen(role)]; [handleOpen()] is [handleOpen VUndefined]. *)
Definition handleOpen (role : value) (d : Dialog) : Dialog :=
  let d :=
    if truthy role then
      reset (Some (VObj [("name", opt_member role "name");
                         ("description", opt_member role "description");
                         ("permissions", opt_member role "permissions")]))
            (mkDialog (open d) role (form d) (defaults d))
    else
      reset (Some (VObj [("name", VStr ""); ("description", VStr "");
                         ("permissions", no_permission)]))
            (mkDialog (open d) VNull (form d) (defaults d)) in
  mkDialog true (editingRole d) (form d) (defaults d).

Definition handleClose (d : Dialog) : Dialog :=
  reset None (mkDialog false VNull (form d) (defaults d)).

Section DialogHandlers.

Variable server : list AxiosRequestConfig -> AxiosRequestConfig -> net_result.
Variable fuel : nat.

Definition onSubmit (data : RoleFormData) (s : State) (d : Dialog) (w : World)
  : World * completion type_error (State * Dialog) :=
  let call :=
    if truthy (editingRole d)
    then put_config ("/roles/" +:+ toString (opt_member (editingRole d) "id"))
                    (encode data)
    else post_config "/roles" (encode data) in
  let '(w1, o) := request server fuel call w in
  match await o with
  | None => (w1, Normal (s, d))
  | Some (Normal _) =>
      let '(w2, fetched) := fetchRoles server fuel s w1 in
      (w2, s' <- fetched;; Normal (s', handleClose d))
  | Some (Throw err) =>
      (w1, errorMessage <- handleApiError (failure_value err);;
           Normal (mkState (roles s) (loading s) errorMessage, d))
  end.

Definition handleSubmit (s : State) (d : Dialog) (w : World)
  : World * completion type_error (State * Dialog) :=
  match roleSchema (form d) with
  | Some data => onSubmit data s d w
  | None => (w, Normal (s, d))
  end.

Definition handleDelete (confirmed : bool) (id : value) (s : State) (w : World)
  : World * completion type_error State :=
  if negb confirmed then (w, Normal s)
  else
    let '(w1, o) :=
      request server fuel (delete_config ("/roles/" +:+ toString id)) w in
    match await o with
    | None => (w1, Normal s)
    | Some (Normal _) => fetchRoles server fuel s w1
    | Some (Throw err) =>
        (w1, errorMessage <- handleApiError (failure_value err);;
             Normal (mkState (roles s) (loading s) errorMessage))
    end.

End DialogHandlers.
End Roles.

(* ===================================================================== *)
(** ** Companies page *)
(* ===================================================================== *)

Module Companies.
Import JS Api Page.

(** [companies] holds whatever the response body was. *)
Record State : Type := mkState {
  companies : value;
  open : bool;
  loading : bool
}.

Section Handlers.

Variable server : list AxiosRequestConfig -> AxiosRequestConfig -> net_result.
Variable fuel : nat.

Definition fetchCompanies (s : State) (w : World) : World * State :=
  let '(w1, o) := request server fuel (get_config "/companies") w in
  match o with
  | Pending => (w1, s)
  | Resolved response => (w1, mkState (data response) (open s) false)
  | Rejected _ => (w1, mkState (companies s) (open s) false)
  end.

(** [CompanyFormData]: what [companySchema] lets through to [onSubmit]. *)
Record CompanyFormData : Type := mkCompanyFormData {
  name : string;
  address : string;
  contactPerson : string;
  active : bool      (* [status]: ['active'] or ['inactive'] *)
}.

Definition encode (d : CompanyFormData) : value :=
  VObj [("name", VStr (name d)); ("address", VStr (address d));
        ("contactPerson", VStr (contactPerson d));
        ("status", VStr (if active d then "active" else "inactive"))].

(** A failed create is only written to the console. *)
Definition onSubmit (d : CompanyFormData) (s : State) (w : World)
  : World * State :=
  let '(w1, o) := request server fuel (post_config "/companies" (encode d)) w in
  match o with
  | Resolved _ =>
      fetchCompanies (mkState (companies s) false (loading s)) w1
  | Rejected _ => (w1, s)
  | Pending => (w1, s)
  end.

End Handlers.
End Companies.

(* ===================================================================== *)
(** ** Devices page *)
(* ===================================================================== *)

Module Devices.
Import JS Api Page.

(** [devices] and [companies] hold whatever the response bodies were. *)
Record State : Type := mkState {
  devices : value;
  companies : value;
  loading : bool;
  error : value;
  searchTerm : string;
  page : nat;
  rowsPerPage : nat
}.

Definition setDevices (x : value) (s : State) : State :=
  mkState x (companies s) (loading s) (error s) (searchTerm s) (page s)
          (rowsPerPage s).
Definition setCompanies (x : value) (s : State) : State :=
  mkState (devices s) x (loading s) (error s) (searchTerm s) (page s)
          (rowsPerPage s).
Definition setLoading (x : bool) (s : State) : State :=
  mkState (devices s) (companies s) x (error s) (searchTerm s) (page s)
          (rowsPerPage s).
Definition setError (x : value) (s : State) : State :=
  mkState (devices s) (companies s) (loading s) x (searchTerm s) (page s)
          (rowsPerPage s).

(** [devices.filter(device => device.id !== id)]; calling [filter] on
    anything but an array throws. *)
Definition without_id (id : string) (devices : value)
  : completion type_error (list value) :=
  match devices with
  | VArr items =>
      filter_throwing
        (fun device =>
           device_id <- member device "id";;
           Normal (negb (strict_eq_string device_id id)))
        items
  | _ => Throw TypeError
  end.

Section Handlers.

Variable server : list AxiosRequestConfig -> AxiosRequestConfig -> net_result.
Variable fuel : nat.

Definition fetchDevices (s : State) (w : World)
  : World * completion type_error State :=
  let '(w1, o) := request server fuel (get_config "/devices") w in
  match o with
  | Pending => (w1, Normal s)
  | Resolved response =>
      (w1, Normal (setLoading false (setError VNull
                     (setDevices (data response) s))))
  | Rejected err =>
      (w1, errorMessage <- handleApiError (failure_value err);;
           Normal (setLoading false (setError errorMessage s)))
  end.

Definition fetchCompanies (s : State) (w : World) : World * State :=
  let '(w1, o) := request server fuel (get_config "/companies") w in
  match o with
  | Pending => (w1, s)
  | Resolved response => (w1, setCompanies (data response) s)
  | Rejected _ => (w1, setError (VStr "Failed to fetch companies") s)
  end.

(** [confirmed] is the user's answer to the [confirm] dialog. *)
Definition handleDelete (confirmed : bool) (id : string) (s : State) (w : World)
  : World * completion type_error State :=
  if negb confirmed then (w, Normal s)
  else
    let '(w1, o) := request server fuel (delete_config ("/devices/" +:+ id)) w in
    match await o with
    | None => (w1, Normal s)
    | Some awaited =>
        match (_ <- awaited;; lift (without_id id (devices s))) with
        | Normal rest =>
            (w1, Normal (setError VNull (setDevices (VArr rest) s)))
        | Throw err =>
            (w1, errorMessage <- handleApiError (failure_value err);;
                 Normal (setError errorMessage s))
        end
    end.

End Handlers.

(** What the table shows: the search filter, then the current page.
    [toLowerCase] is given on the ASCII letters. *)
Fixpoint toLowerCase (s : string) : string :=
  match s with
  | EmptyString => EmptyString
  | String c rest =>
      let n := Ascii.nat_of_ascii c in
      String (if ((65 <=? n) && (n <=? 90))%nat
              then Ascii.ascii_of_nat (n + 32) else c)
             (toLowerCase rest)
  end.

Fixpoint includes (needle hay : string) : bool :=
  String.prefix needle hay
  || match hay with
     | EmptyString => false
     | String _ rest => includes needle rest
     end.

(** [device.k.toLowerCase().includes(term.toLowerCase())]; only a string
    has [toLowerCase]. *)
Definition field_includes (term : string) (device : value) (k : string)
  : completion type_error bool :=
  field <- member device k;;
  match field with
  | VStr text => Normal (includes (toLowerCase term) (toLowerCase text))
  | _ => Throw TypeError
  end.

Definition matches (term : string) (device : value)
  : completion type_error bool :=
  by_type <- field_includes term device "type";;
  if by_type : bool then Normal true else
  by_location <- field_includes term device "location";;
  if by_location : bool then Normal true else
  field_includes term device "physical_address".

Definition filteredDevices (s : State) : completion type_error (list value) :=
  match devices s with
  | VArr items => filter_throwing (matches (searchTerm s)) items
  | _ => Throw TypeError
  end.

Definition paginatedDevices (s : State) : completion type_error (list value) :=
  rows <- filteredDevices s;;
  Normal (take (rowsPerPage s) (drop (page s * rowsPerPage s) rows)).

Definition handleChangePage (newPage : nat) (s : State) : State :=
  mkState (devices s) (companies s) (loading s) (error s) (searchTerm s)
          newPage (rowsPerPage s).

(** The [onChange] of the search field. *)
Definition setSearchTerm (term : string) (s : State) : State :=
  mkState (devices s) (companies s) (loading s) (error s) term (page s)
          (rowsPerPage s).

End Devices.

(* ===================================================================== *)
(** ** Edit-device page *)
(* ===================================================================== *)

Module EditDevice.
Import JS Api Page.

(** The values held by the form; [reset(formData)] installs them. *)
Module Form.
Record t : Type := mk {
  type : value;
  company_id : value;
  status : value;
  location : value;
  physical_address : value;
  payload_schema : value;
  push_interval : value;
  enabled : value
}.
End Form.

Inductive DeviceStatus : Type := online | offline | maintenance.

Definition DeviceStatus_name (s : DeviceStatus) : string :=
  match s with
  | online => "online"
  | offline => "offline"
  | maintenance => "maintenance"
  end.

(** [DeviceFormData]: what [deviceSchema] lets through to [onSubmit]. *)
Module DeviceFormData.
Record t : Type := mk {
  type : string;
  company_id : string;
  status : DeviceStatus;
  location : string;
  physical_address : string;
  payload_schema : list (string * value);
  push_interval : Z;
  enabled : bool
}.
End DeviceFormData.

Record State : Type := mkState {
  companies : value;
  loading : bool;
  error : value;
  form : Form.t;
  route : string       (* where [router.push] last went *)
}.

Definition setLoading (x : bool) (s : State) : State :=
  mkState (companies s) x (error s) (form s) (route s).
Definition setError (x : value) (s : State) : State :=
  mkState (companies s) (loading s) x (form s) (route s).
Definition reset (x : Form.t) (s : State) : State :=
  mkState (companies s) (loading s) (error s) x (route s).
Definition push (x : string) (s : State) : State :=
  mkState (companies s) (loading s) (error s) (form s) x.

(** The object literal [formData] of [fetchDevice]. *)
Definition formData (deviceData : value) : completion type_error Form.t :=
  type <- member deviceData "type";;
  company_id <- coalesce deviceData "company_id" "companyId";;
  status <- member deviceData "status";;
  location <- member deviceData "location";;
  physical_address <- coalesce deviceData "physical_address" "physicalAddress";;
  payload_schema <- coalesce deviceData "payload_schema" "payloadSchema";;
  push_interval <- coalesce deviceData "push_interval" "pushInterval";;
  enabled <- member deviceData "enabled";;
  Normal (Form.mk type company_id status location physical_address
                  payload_schema push_interval enabled).

(** [deviceSchema], field by field.  [with_default] is zod's [.default]:
    only [undefined] takes the default. *)
Definition string_between (lo hi : nat) (v : value) : option string :=
  match v with
  | VStr s =>
      if ((lo <=? String.length s) && (String.length s <=? hi))%nat
      then Some s else None
  | _ => None
  end.

Definition string_min (lo : nat) (v : value) : option string :=
  match v with
  | VStr s => if (lo <=? String.length s)%nat then Some s else None
  | _ => None
  end.

Definition with_default {A} (d : A) (parse : value -> option A) (v : value)
  : option A :=
  match v with
  | VUndefined => Some d
  | _ => parse v
  end.

Definition parse_status (v : value) : option DeviceStatus :=
  match v with
  | VStr s =>
      if String.eqb s "online" then Some online
      else if String.eqb s "offline" then Some offline
      else if String.eqb s "maintenance" then Some maintenance
      else None
  | _ => None
  end.

Definition parse_record (v : value) : option (list (string * value)) :=
  match v with
  | VObj ps => Some ps
  | _ => None
  end.

Definition parse_positive_int (v : value) : option Z :=
  match v with
  | VNum n => if 0 <? n then Some n else None
  | _ => None
  end.

Definition parse_boolean (v : value) : option bool :=
  match v with
  | VBool b => Some b
  | _ => None
  end.

Definition deviceSchema (f : Form.t) : option DeviceFormData.t :=
  type ← string_between 2 50 (Form.type f);
  company_id ← string_min 1 (Form.company_id f);
  status ← with_default offline parse_status (Form.status f);
  location ← string_between 2 255 (Form.location f);
  physical_address ← string_between 5 1000 (Form.physical_address f);
  payload_schema ← with_default [] parse_record (Form.payload_schema f);
  push_interval ← with_default 60 parse_positive_int (Form.push_interval f);
  enabled ← with_default true parse_boolean (Form.enabled f);
  Some (DeviceFormData.mk type company_id status location physical_address
                          payload_schema push_interval enabled).

(** The JSON object a validated form serialises to. *)
Definition encode (d : DeviceFormData.t) : list (string * value) :=
  [("type", VStr (DeviceFormData.type d));
   ("company_id", VStr (DeviceFormData.company_id d));
   ("status", VStr (DeviceStatus_name (DeviceFormData.status d)));
   ("location", VStr (DeviceFormData.location d));
   ("physical_address", VStr (DeviceFormData.physical_address d));
   ("payload_schema", VObj (DeviceFormData.payload_schema d));
   ("push_interval", VNum (DeviceFormData.push_interval d));
   ("enabled", VBool (DeviceFormData.enabled d))].

Section Handlers.

Variable server : list AxiosRequestConfig -> AxiosRequestConfig -> net_result.
Variable fuel : nat.
(** [router.query.id] *)
Variable id : string.

Definition fetchDevice (s : State) (w : World) : World * State :=
  let '(w1, o) := request server fuel (get_config ("/devices/" +:+ id)) w in
  match await o with
  | None => (w1, s)
  | Some awaited =>
      match (response <- awaited;; lift (formData (data response))) with
      | Normal fd => (w1, setLoading false (reset fd s))
      | Throw _ =>
          (w1, setLoading false
                 (setError (VStr "Failed to fetch device details") s))
      end
  end.

Definition onSubmit (d : DeviceFormData.t) (s : State) (w : World)
  : World * completion type_error State :=
  let s := setLoading true s in
  let '(w1, o) :=
    request server fuel (put_config ("/devices/" +:+ id) (VObj (encode d))) w in
  match await o with
  | None => (w1, Normal s)
  | Some (Normal _) => (w1, Normal (setLoading false (push "/devices" s)))
  | Some (Throw err) =>
      (w1, errorMessage <- handleApiError (failure_value err);;
           Normal (setLoading false (setError errorMessage s)))
  end.

(** [handleSubmit(onSubmit)]: the resolver runs first; the handler is only
    called with what the schema accepts. *)
Definition handleSubmit (s : State) (w : World)
  : World * completion type_error State :=
  match deviceSchema (form s) with
  | Some d => onSubmit d s w
  | None => (w, Normal s)
  end.

End Handlers.
End EditDevice.

(* ===================================================================== *)
(** ** Route protection *)
(* ===================================================================== *)

Module Guard.
Import JS Api.

Inductive NextResponse : Type :=
| next
| redirect (target : string).

(** The part of a [NextRequest] the middleware reads. *)
Record NextRequest : Type := mkRequest {
  pathname : string;
  request_cookies : gmap string string
}.

Fixpoint includes (needle hay : string) : bool :=
  String.prefix needle hay
  || match hay with
     | EmptyString => false
     | String _ rest => includes needle rest
     end.

Definition startsWith (prefix s : string) : bool := String.prefix prefix s.

Definition middleware (request : NextRequest) : NextResponse :=
  if String.eqb (pathname request) "/login"
     || startsWith "/api/" (pathname request)
  then next
  else if startsWith "/_next" (pathname request)
          || includes "." (pathname request)
  then next
  else
    match request_cookies request !! "accessToken" with
    | Some token =>
        if truthy_string token then next else redirect "/login"
    | None => redirect "/login"
    end.

(** [config.matcher]: a slash followed by anything that does not begin with
    [_next/static], [_next/image], [favicon.ico] or [public].  The pattern is
    a regular expression, so the dot of [favicon.ico] stands for any
    character. *)
Definition favicon_ico (rest : string) : bool :=
  startsWith "favicon" rest
  && match String.get 7 rest with
     | Some _ => startsWith "ico" (String.substring 8 3 rest)
     | None => false
     end.

Definition matcher (path : string) : bool :=
  match path with
  | String "/" rest =>
      negb (startsWith "_next/static" rest
            || startsWith "_next/image" rest
            || favicon_ico rest
            || startsWith "public" rest)
  | _ => false
  end.

(** The gate as the framework runs it: the middleware only sees the paths
    the matcher selects. *)
Definition gate (request : NextRequest) : NextResponse :=
  if matcher (pathname request) then middleware request else next.

(** The mount effect of the dashboard: what it does before any fetch.
    [Some target] is [router.replace(target)]. *)
Definition Dashboard_useEffect (w : World) : option string :=
  match Cookies.get "accessToken" (cookies w) with
  | Some token => if truthy_string token then None else Some "/login"
  | None => Some "/login"
  end.

End Guard.

(* ===================================================================== *)
(** ** New-device page *)
(* ===================================================================== *)

Module NewDevice.
Import JS Api Page.

(** The page declares the schema of the edit page again, word for word. *)
Definition deviceSchema := EditDevice.deviceSchema.

(** [defaultValues] of [useForm]. *)
Definition defaultValues : EditDevice.Form.t :=
  EditDevice.Form.mk VUndefined VUndefined (VStr "offline") VUndefined
    VUndefined (VObj []) (VNum 60) (VBool true).

Record State : Type := mkState {
  loading : bool;
  error : value;
  form : EditDevice.Form.t;
  route : string       (* where [router.push] last went *)
}.

Section Handlers.

Variable server : list AxiosRequestConfig -> AxiosRequestConfig -> net_result.
Variable fuel : nat.

Definition onSubmit (d : EditDevice.DeviceFormData.t) (s : State) (w : World)
  : World * completion type_error State :=
  let s := mkState true (error s) (form s) (route s) in
  let '(w1, o) :=
    request server fuel (post_config "/devices" (VObj (EditDevice.encode d))) w in
  match await o with
  | None => (w1, Normal s)
  | Some (Normal _) =>
      (w1, Normal (mkState false (error s) (form s) "/devices"))
  | Some (Throw err) =>
      (w1, errorMessage <- handleApiError (failure_value err);;
           Normal (mkState false errorMessage (form s) (route s)))
  end.

Definition handleSubmit (s : State) (w : World)
  : World * completion type_error State :=
  match deviceSchema (form s) with
  | Some d => onSubmit d s w
  | None => (w, Normal s)
  end.

End Handlers.
End NewDevice.

(* ===================================================================== *)
(** ** Login page *)
(* ===================================================================== *)

Module Login.
Import JS Api Page.

(** [LoginFormData]: what [loginSchema] lets through to [onSubmit]. *)
Record LoginFormData : Type := mkLoginFormData {
  email : string;
  password : string
}.

Record State : Type := mkState {
  loading : bool;
  error : value;
  route : string;                          (* where [router.replace] went *)
  defaults_Authorization : option string   (* [api.defaults.headers.common] *)
}.
(** The default header lives until the next page load and repeats the
    access token of the cookie, which the request interceptor sends
    anyway; the handlers of the other pages are modelled on a client whose
    defaults are those of [axios.create]. *)

Definition encode (d : LoginFormData) : value :=
  VObj [("email", VStr (email d)); ("password", VStr (password d))].

Section Handlers.

Variable server : list AxiosRequestConfig -> AxiosRequestConfig -> net_result.
Variable fuel : nat.
(** The schema's [email()] check. *)
Variable is_email : string -> bool.

(** [loginSchema] on the two values of the form. *)
Definition loginSchema (email password : value) : option LoginFormData :=
  match email, password with
  | VStr e, VStr p =>
      if is_email e && (6 <=? String.length p)%nat
      then Some (mkLoginFormData e p) else None
  | _, _ => None
  end.

Definition onSubmit (d : LoginFormData) (s : State) (w : World)
  : World * completion type_error State :=
  let s := mkState true VNull (route s) (defaults_Authorization s) in
  let '(w1, o) := request server fuel (post_config "/auth/login" (encode d)) w in
  match await o with
  | None => (w1, Normal s)
  | Some awaited =>
      match (response <- awaited;;
             accessToken <- lift (member (data response) "accessToken");;
             refreshToken <- lift (member (data response) "refreshToken");;
             Normal (accessToken, refreshToken)) with
      | Normal (accessToken, refreshToken) =>
          let jar1 :=
            Cookies.set "accessToken" (toString accessToken) 1 (cookies w1) in
          let jar2 :=
            Cookies.set "refreshToken" (toString refreshToken) 7 jar1 in
          (with_cookies jar2 w1,
           Normal (mkState false VNull "/dashboard"
                     (Some ("Bearer " +:+ toString accessToken))))
      | Throw err =>
          (w1, errorMessage <- handleApiError (failure_value err);;
               Normal (mkState false errorMessage (route s)
                         (defaults_Authorization s)))
      end
  end.

Definition handleSubmit (email password : value) (s : State) (w : World)
  : World * completion type_error State :=
  match loginSchema email password with
  | Some d => onSubmit d s w
  | None => (w, Normal s)
  end.

End Handlers.
End Login.

(* ===================================================================== *)
(** ** Dashboard *)
(* ===================================================================== *)

Module Dashboard.
Import JS Api Page.

Record State : Type := mkState {
  stats : value;
  deviceData : value;
  route : string       (* where [router.replace] last went *)
}.

(** [error.response?.status === 401] *)
Definition unauthorized (e : failure) : bool :=
  match e with
  | AxiosError _ response => is_401 response
  | _ => false
  end.

Section Handlers.

Variable server : list AxiosRequestConfig -> AxiosRequestConfig -> net_result.
Variable fuel : nat.

Definition fetchStats (s : State) (w : World) : World * State :=
  let '(w1, o) := request server fuel (get_config "/companies/stats") w in
  match o with
  | Resolved response => (w1, mkState (data response) (deviceData s) (route s))
  | Rejected e =>
      (w1, if unauthorized e
           then mkState (stats s) (deviceData s) "/login" else s)
  | Pending => (w1, s)
  end.

Definition fetchDeviceData (s : State) (w : World) : World * State :=
  let '(w1, o) := request server fuel (get_config "/devices/stats") w in
  match o with
  | Resolved response => (w1, mkState (stats s) (data response) (route s))
  | Rejected e =>
      (w1, if unauthorized e
           then mkState (stats s) (deviceData s) "/login" else s)
  | Pending => (w1, s)
  end.

End Handlers.
End Dashboard.

(* ===================================================================== *)
(** ** Payload-schema page *)
(* ===================================================================== *)

Module DevicePayload.
Import JS Api Page.

(** This page calls [axios] itself, not the client: its requests go
    straight to the transport, with no default header and no interceptor. *)
Definition axios
    (server : list AxiosRequestConfig -> AxiosRequestConfig -> net_result)
    (config : AxiosRequestConfig) (w : World) : World * outcome :=
  match adapter server config w with
  | (w1, inl response) => (w1, Resolved response)
  | (w1, inr error) => (w1, Rejected error)
  end.

Record State : Type := mkState {
  device : value;
  loading : bool;
  error : value;
  success : value;
  schema : value       (* the text in the form *)
}.

Section Handlers.

Variable server : list AxiosRequestConfig -> AxiosRequestConfig -> net_result.
(** [JSON.parse] ([None] when it throws) and [JSON.stringify(_, null, 2)]. *)
Variable JSON_parse : string -> option value.
Variable JSON_stringify : value -> value.
(** [router.query.id] *)
Variable id : string.

Definition fetchDevice (s : State) (w : World) : World * State :=
  let '(w1, o) :=
    axios server (mkConfig GET ("/api/devices/" +:+ id) VUndefined ∅ false) w in
  match o with
  | Resolved response =>
      let s := mkState (data response) (loading s) (error s) (success s)
                       (schema s) in
      match member (data response) "payloadSchema" with
      | Normal payloadSchema =>
          (w1, mkState (device s) false (error s) (success s)
                       (JSON_stringify payloadSchema))
      | Throw _ =>
          (w1, mkState (device s) false
                       (VStr "Failed to fetch device details") (success s)
                       (schema s))
      end
  | _ =>
      (w1, mkState (device s) false (VStr "Failed to fetch device details")
                   (success s) (schema s))
  end.

(** [payloadSchema]: a string that [JSON.parse] accepts. *)
Definition payloadSchema (text : value) : option string :=
  match text with
  | VStr t => match JSON_parse t with
              | Some _ => Some t
              | None => None
              end
  | _ => None
  end.

Definition onSubmit (text : string) (s : State) (w : World) : World * State :=
  match JSON_parse text with
  | Some parsed =>
      let '(w1, o) :=
        axios server
          (mkConfig PATCH ("/api/devices/" +:+ id +:+ "/payload-schema")
                    (VObj [("schema", parsed)]) ∅ false) w in
      match o with
      | Resolved _ =>
          (w1, mkState (device s) (loading s) (error s)
                       (VStr "Payload schema updated successfully") (schema s))
      | _ =>
          (w1, mkState (device s) (loading s)
                       (VStr "Failed to update payload schema") (success s)
                       (schema s))
      end
  | None =>
      (w, mkState (device s) (loading s)
                  (VStr "Failed to update payload schema") (success s)
                  (schema s))
  end.

Definition handleSubmit (s : State) (w : World) : World * State :=
  match payloadSchema (schema s) with
  | Some text => onSubmit text s w
  | None => (w, s)
  end.

End Handlers.
End DevicePayload.

(* ===================================================================== *)
(** ** Concrete servers and browser states used in the examples *)
(* ===================================================================== *)

Module Scenario.
Import JS Api.

Definition jar (access refresh : string) : gmap string cookie :=
  Cookies.set "refreshToken" refresh 7 (Cookies.set "accessToken" access 1 ∅).

(** Logged in with an expired access token. *)
Definition stale_session : World :=
  mkWorld (jar "A1" "R1") "/devices" 0 [].

(** An access token but no refresh token. *)
Definition no_refresh_session : World :=
  mkWorld (Cookies.set "accessToken" "A1" 1 ∅) "/devices" 0 [].

Definition fresh_tokens : value :=
  VObj [("accessToken", VStr "A2"); ("refreshToken", VStr "R2")].

Definition unauthorized : net_result :=
  Answer 401 (VObj [("message", VStr "Unauthorized")]).

Definition bearer (c : AxiosRequestConfig) : option string :=
  headers c !! "Authorization".

(** Accepts only the token [A2]; the refresh endpoint hands it out. *)
Definition healthy_server (history : list AxiosRequestConfig)
    (c : AxiosRequestConfig) : net_result :=
  if is_refresh_call c then Answer 200 fresh_tokens
  else match bearer c with
       | Some "Bearer A2" => Answer 200 (VArr [])
       | _ => unauthorized
       end.

(** As [healthy_server], but the first call to the refresh endpoint is
    answered 401. *)
Definition flaky_refresh_server (history : list AxiosRequestConfig)
    (c : AxiosRequestConfig) : net_result :=
  if is_refresh_call c then
    if existsb is_refresh_call history then Answer 200 fresh_tokens
    else unauthorized
  else match bearer c with
       | Some "Bearer A2" => Answer 200 (VArr [])
       | _ => unauthorized
       end.

(** Answers 401 to everything. *)
Definition always_401 (history : list AxiosRequestConfig)
    (c : AxiosRequestConfig) : net_result :=
  unauthorized.

(** The refresh endpoint is down. *)
Definition broken_refresh_server (history : list AxiosRequestConfig)
    (c : AxiosRequestConfig) : net_result :=
  if is_refresh_call c
  then Answer 500 (VObj [("message", VStr "refresh unavailable")])
  else unauthorized.

(** The refresh endpoint answers 200 with the body [null]. *)
Definition null_refresh_server (history : list AxiosRequestConfig)
    (c : AxiosRequestConfig) : net_result :=
  if is_refresh_call c then Answer 200 VNull else unauthorized.

(** Answers every request 200 with the same body. *)
Definition fixed_body_server (body : value)
    (history : list AxiosRequestConfig) (c : AxiosRequestConfig)
  : net_result :=
  Answer 200 body.

Definition alice : value :=
  VObj [("id", VStr "u1"); ("email", VStr "alice@example.org");
        ("first_name", VStr "Alice"); ("last_name", VStr "Martin");
        ("role", VStr "admin"); ("status", VStr "active");
        ("company_id", VStr "123e4567-e89b-12d3-a456-426614174000");
        ("created_at", VStr "2024-01-01")].

Definition alice_row : Users.User.t :=
  Users.User.mk (VStr "u1") (VStr "alice@example.org") (VStr "Alice")
    (VStr "Martin") (VStr "admin") (VStr "active")
    (VStr "123e4567-e89b-12d3-a456-426614174000") (VStr "2024-01-01")
    VUndefined.

Definition users_start : Users.State :=
  Users.mkState [] true VNull false None [] Users.defaultValues.

Definition logged_in : World :=
  mkWorld (jar "A2" "R2") "/users" 0 [].

(** The users dialog as the edit button leaves it for [alice_row]. *)
Definition editing_alice : Users.State :=
  Users.handleEdit alice_row
    (Users.mkState [alice_row] false VNull false None [] Users.defaultValues).

Definition alice_data : Users.UserFormData.t :=
  Users.UserFormData.mk "alice@example.org" "Alice" "Martin" Users.admin
    Users.active None "123e4567-e89b-12d3-a456-426614174000".

(** Stand-ins for the schema's [email()] and [uuid()] checks. *)
Definition has_at (s : string) : bool :=
  match String.index 0 "@" s with
  | Some _ => true
  | None => false
  end.
Definition is_36_long (s : string) : bool := (String.length s =? 36)%nat.

(** A device as the server sends it, complete and without a payload
    schema. *)
Definition sensor : value :=
  VObj [("id", VStr "d1"); ("type", VStr "sensor");
        ("company_id", VStr "c1"); ("status", VStr "online");
        ("location", VStr "lab"); ("physical_address", VStr "1 Main Street");
        ("payload_schema", VObj [("t", VStr "number")]);
        ("push_interval", VNum 30); ("enabled", VBool false)].

Definition sensor_without_schema : value :=
  VObj [("id", VStr "d1"); ("type", VStr "sensor");
        ("company_id", VStr "c1"); ("status", VStr "online");
        ("location", VStr "lab"); ("physical_address", VStr "1 Main Street");
        ("push_interval", VNum 30); ("enabled", VBool false)].

Definition gateway : value :=
  VObj [("id", VStr "d2"); ("type", VStr "gateway");
        ("status", VStr "offline"); ("location", VStr "roof");
        ("physical_address", VStr "2 Main Street")].

(** The devices page showing two devices. *)
Definition two_devices : Devices.State :=
  Devices.mkState (VArr [sensor; gateway]) (VArr []) false VNull "" 0 10.

Definition edit_start : EditDevice.State :=
  EditDevice.mkState VUndefined true VNull
    (EditDevice.Form.mk VUndefined VUndefined (VStr "offline") VUndefined
       VUndefined VUndefined VUndefined (VBool true))
    "/devices/d1".

(** Nobody is logged in. *)
Definition anonymous : World := mkWorld ∅ "/login" 0 [].

Definition credentials : Login.LoginFormData :=
  Login.mkLoginFormData "a@b.com" "secret1".

Definition login_start : Login.State :=
  Login.mkState false VNull "/login" None.

(** The refresh token has run out: the refresh endpoint answers every
    refresh call with 401; the other endpoints accept the token [A2]
    only. *)
Definition expired_refresh_server (history : list AxiosRequestConfig)
    (c : AxiosRequestConfig) : net_result :=
  if is_refresh_call c
  then Answer 401 (VObj [("message", VStr "Refresh token expired")])
  else match bearer c with
       | Some "Bearer A2" => Answer 200 (VArr [])
       | _ => unauthorized
       end.

(** The refresh endpoint hands out tokens that nothing else accepts. *)
Definition renewing_server (history : list AxiosRequestConfig)
    (c : AxiosRequestConfig) : net_result :=
  if is_refresh_call c then Answer 200 fresh_tokens else unauthorized.

(** Refuses everything with a message. *)
Definition refusing_server (history : list AxiosRequestConfig)
    (c : AxiosRequestConfig) : net_result :=
  Answer 422 (VObj [("message", VStr "Type already in use")]).

(** A role as the server sends it. *)
Definition operator : value :=
  VObj [("id", VStr "r1"); ("name", VStr "operator");
        ("description", VStr "Runs the devices");
        ("permissions",
         VObj [("devices",
                VObj [("view", VBool true); ("create", VBool false);
                      ("edit", VBool true); ("delete", VBool false)]);
               ("companies", Roles.no_capability);
               ("users", Roles.no_capability)]);
        ("created_at", VStr "2024-01-01")].

Definition operator_data : Roles.RoleFormData :=
  Roles.mkRoleFormData "operator" "Runs the devices"
    (Roles.mkPermissions
       (Roles.mkCapabilities true false true false)
       (Roles.mkCapabilities false false false false)
       (Roles.mkCapabilities false false false false)).

Definition roles_start : Roles.State := Roles.mkState [operator] false VNull.

(** The devices page showing one device a page. *)
Definition one_per_page : Devices.State :=
  Devices.mkState (VArr [sensor; gateway]) (VArr []) false VNull "" 0 1.

(** Three devices, one a page. *)
Definition logger : value :=
  VObj [("id", VStr "d3"); ("type", VStr "logger");
        ("status", VStr "online"); ("location", VStr "cellar");
        ("physical_address", VStr "3 Main Street")].

Definition three_pages : Devices.State :=
  Devices.mkState (VArr [sensor; gateway; logger]) (VArr []) false VNull ""
    0 1.

(** A device form filled in by hand. *)
Definition sensor_form : EditDevice.Form.t :=
  EditDevice.Form.mk (VStr "sensor") (VStr "c1") (VStr "offline")
    (VStr "lab") (VStr "1 Main Street") (VObj []) (VNum 60) (VBool true).

Definition sensor_data : EditDevice.DeviceFormData.t :=
  EditDevice.DeviceFormData.mk "sensor" "c1" EditDevice.offline "lab"
    "1 Main Street" [] 60 true.

Definition new_start : NewDevice.State :=
  NewDevice.mkState false VNull sensor_form "/devices/new".

Definition dashboard_start : Dashboard.State :=
  Dashboard.mkState VNull VNull "/dashboard".

End Scenario.

(* ===================================================================== *)
(** ** Vocabulary of the statements *)
(* ===================================================================== *)

Import JS Api.

(** The message the server put in the body of its answer, if the value has
    the shape of an error with an answer: [error.response?.data?.message]. *)
Definition server_message (error : value) : value :=
  opt_member (opt_member (opt_member error "response") "data") "message".

(** The six fields of the users form other than the password. *)
Definition other_fields (d : Users.UserFormData.t) : list (string * value) :=
  [("email", VStr (Users.UserFormData.email d));
   ("firstName", VStr (Users.UserFormData.firstName d));
   ("lastName", VStr (Users.UserFormData.lastName d));
   ("role", VStr (Users.UserRole_name (Users.UserFormData.role d)));
   ("status", VStr (Users.UserStatus_name (Users.UserFormData.status d)));
   ("companyId", VStr (Users.UserFormData.companyId d))].

(** The device form as a JSON object, field for field. *)
Definition device_fields (f : EditDevice.Form.t) : list (string * value) :=
  [("type", EditDevice.Form.type f);
   ("company_id", EditDevice.Form.company_id f);
   ("status", EditDevice.Form.status f);
   ("location", EditDevice.Form.location f);
   ("physical_address", EditDevice.Form.physical_address f);
   ("payload_schema", EditDevice.Form.payload_schema f);
   ("push_interval", EditDevice.Form.push_interval f);
   ("enabled", EditDevice.Form.enabled f)].

Definition or_default (d v : value) : value :=
  match v with
  | VUndefined => d
  | _ => v
  end.

(** The device form with the schema's defaults in place of the fields that
    are [undefined]. *)
Definition defaulted (f : EditDevice.Form.t) : EditDevice.Form.t :=
  EditDevice.Form.mk
    (EditDevice.Form.type f)
    (EditDevice.Form.company_id f)
    (or_default (VStr "offline") (EditDevice.Form.status f))
    (EditDevice.Form.location f)
    (EditDevice.Form.physical_address f)
    (or_default (VObj []) (EditDevice.Form.payload_schema f))
    (or_default (VNum 60) (EditDevice.Form.push_interval f))
    (or_default (VBool true) (EditDevice.Form.enabled f)).

(** The fields of a grid row that the users dialog edits. *)
Definition user_fields (u : Users.User.t) : list (string * value) :=
  [("email", Users.User.email u);
   ("firstName", Users.User.firstName u);
   ("lastName", Users.User.lastName u);
   ("role", Users.User.role u);
   ("status", Users.User.status u);
   ("companyId", Users.User.companyId u)].

(** A page path the gate protects: selected by the matcher, and neither the
    login page, nor an API route, nor what the middleware takes for an
    asset (under [/_next], or with a dot in the path). *)
Definition protected (path : string) : bool :=
  Guard.matcher path
  && negb (String.eqb path "/login")
  && negb (Guard.startsWith "/api/" path)
  && negb (Guard.startsWith "/_next" path)
  && negb (Guard.includes "." path).

(** No usable access cookie comes with the request. *)
Definition no_access_cookie (jar : gmap string string) : bool :=
  match jar !! "accessToken" with
  | Some token => negb (truthy_string token)
  | None => true
  end.

(** [device.id !== id], for a row that is not [null] or [undefined]. *)
Definition other_id (id : string) (device : value) : bool :=
  negb (strict_eq_string (opt_member device "id") id).

(** The cookies the browser sends along with a navigation: the values in
    the jar. *)
Definition sent_cookies (jar : gmap string cookie) : gmap string string :=
  cookie_value <$> jar.

(** A grid row written back as the server would send it, in camelCase and
    in snake_case. *)
Definition camel_user (r : Users.User.t) : value :=
  VObj [("id", Users.User.id r); ("email", Users.User.email r);
        ("firstName", Users.User.firstName r);
        ("lastName", Users.User.lastName r);
        ("role", Users.User.role r); ("status", Users.User.status r);
        ("companyId", Users.User.companyId r);
        ("createdAt", Users.User.createdAt r);
        ("updatedAt", Users.User.updatedAt r)].

Definition snake_user (r : Users.User.t) : value :=
  VObj [("id", Users.User.id r); ("email", Users.User.email r);
        ("first_name", Users.User.firstName r);
        ("last_name", Users.User.lastName r);
        ("role", Users.User.role r); ("status", Users.User.status r);
        ("company_id", Users.User.companyId r);
        ("created_at", Users.User.createdAt r);
        ("updated_at", Users.User.updatedAt r)].

(** The rows of the devices table, none when rendering throws. *)
Definition shown (s : Devices.State) : list value :=
  match Devices.paginatedDevices s with
  | Normal rows => rows
  | Throw _ => []
  end.

(** The twelve leaves of a permission matrix: resource and capability. *)
Definition leaves : list (string * string) :=
  r ← ["devices"; "companies"; "users"];
  c ← ["view"; "create"; "edit"; "delete"];
  [(r, c)].

Definition leaf (permissions : value) (rc : string * string) : value :=
  opt_member (opt_member permissions (fst rc)) (snd rc).

(** The bounds [deviceSchema] puts on a device. *)
Definition within_bounds (d : EditDevice.DeviceFormData.t) : Prop :=
  (2 <= String.length (EditDevice.DeviceFormData.type d) <= 50)%nat
  /\ (1 <= String.length (EditDevice.DeviceFormData.company_id d))%nat
  /\ (2 <= String.length (EditDevice.DeviceFormData.location d) <= 255)%nat
  /\ (5 <= String.length (EditDevice.DeviceFormData.physical_address d)
       <= 1000)%nat
  /\ 0 < EditDevice.DeviceFormData.push_interval d.

(** A value that [||] lets through, or [undefined]. *)
Definition if_truthy (v : value) : value :=
  if truthy v then v else VUndefined.

(** The error the refresh ends with at once, read off the jar and the
    server's answer to the refresh call: no usable refresh token, no
    answer, a refusal other than a 401, or a success without a body.
    [None] when the refresh call is answered with a body (the request is
    resubmitted) or with a 401. *)
Definition refresh_failure
    (server : list AxiosRequestConfig -> AxiosRequestConfig -> net_result)
    (w : World) : option failure :=
  match Cookies.get "refreshToken" (cookies w) with
  | Some rt =>
      if truthy_string rt then
        let refresh := request_interceptor w (refresh_request rt) in
        match server (log w) refresh with
        | NetworkError => Some (AxiosError refresh None)
        | Answer st body =>
            if validateStatus st then
              if is_nullish body then Some ThrownTypeError else None
            else if st =? 401 then None
            else Some (AxiosError refresh (Some (mkResponse st body)))
        end
      else Some (Error "No refresh token available")
  | None => Some (Error "No refresh token available")
  end.

(** The outcome the transport's answer stands for. *)
Definition settled (sent : AxiosRequestConfig) (answer : net_result) : outcome :=
  match answer with
  | Answer st body =>
      if validateStatus st then Resolved (mkResponse st body)
      else Rejected (AxiosError sent (Some (mkResponse st body)))
  | NetworkError => Rejected (AxiosError sent None)
  end.

(* ===================================================================== *)
(** * Properties *)
(* ===================================================================== *)

Lemma lookup_delete_prop_eq k ps : lookup_prop k (delete_prop k ps) = VUndefined.
Proof.
  induction ps as [|[k' v] ps IH]; simpl; [reflexivity|].
  destruct (String.eqb k k') eqn:E; simpl; [exact IH|].
  rewrite E. exact IH.
Qed.

Lemma has_delete_prop_eq k ps : has_prop k (delete_prop k ps) = false.
Proof.
  induction ps as [|[k' v] ps IH]; simpl; [reflexivity|].
  destruct (String.eqb k k') eqn:E; simpl; [exact IH|].
  rewrite E. exact IH.
Qed.

Lemma lookup_delete_prop_ne k j ps :
  j <> k -> lookup_prop j (delete_prop k ps) = lookup_prop j ps.
Proof.
  intros Hne.
  induction ps as [|[k' v] ps IH]; simpl; [reflexivity|].
  destruct (String.eqb k k') eqn:E; simpl.
  - apply String.eqb_eq in E. subst k'.
    destruct (String.eqb j k) eqn:E'; [apply String.eqb_eq in E'; congruence|].
    exact IH.
  - destruct (String.eqb j k'); [reflexivity | exact IH].
Qed.

Lemma has_delete_prop_ne k j ps :
  j <> k -> has_prop j (delete_prop k ps) = has_prop j ps.
Proof.
  intros Hne.
  induction ps as [|[k' v] ps IH]; simpl; [reflexivity|].
  destruct (String.eqb k k') eqn:E; simpl.
  - apply String.eqb_eq in E. subst k'.
    destruct (String.eqb j k) eqn:E'; [apply String.eqb_eq in E'; congruence|].
    exact IH.
  - rewrite IH. reflexivity.
Qed.

Lemma delete_prop_absent k ps : has_prop k ps = false -> delete_prop k ps = ps.
Proof.
  induction ps as [|[k' v] ps IH]; simpl; [reflexivity|].
  destruct (String.eqb k k'); simpl; [discriminate|].
  intros H. rewrite IH; auto.
Qed.

(** ** The client: bookkeeping lemmas *)

Section ClientFacts.

Variable server : list AxiosRequestConfig -> AxiosRequestConfig -> net_result.

Lemma request_interceptor_retry w c :
  _retry (request_interceptor w c) = _retry c.
Proof.
  unfold request_interceptor.
  destruct (Cookies.get "accessToken" (cookies w)) as [t|]; [|reflexivity].
  destruct (truthy_string t); reflexivity.
Qed.

Lemma request_interceptor_target w c :
  method (request_interceptor w c) = method c
  /\ url (request_interceptor w c) = url c
  /\ payload (request_interceptor w c) = payload c.
Proof.
  unfold request_interceptor.
  destruct (Cookies.get "accessToken" (cookies w)) as [t|]; [|auto].
  destruct (truthy_string t); auto.
Qed.

(** The transport puts exactly the given request on the wire and touches
    nothing else. *)
Lemma adapter_world c w :
  fst (adapter server c w) = with_log (log w ++ [c]) w.
Proof.
  unfold adapter.
  destruct (server (log w) c) as [st body|]; [|reflexivity].
  destruct (validateStatus st); reflexivity.
Qed.

(** A request answered 401 reaches the response interceptor as an axios
    error carrying that answer. *)
Lemma adapter_401 c w body :
  server (log w) c = Answer 401 body ->
  adapter server c w
  = (with_log (log w ++ [c]) w,
     inr (AxiosError c (Some (mkResponse 401 body)))).
Proof. intros H. unfold adapter. rewrite H. reflexivity. Qed.

Lemma catch_block_cleared w :
  Cookies.get "accessToken" (cookies (catch_block w)) = None
  /\ Cookies.get "refreshToken" (cookies (catch_block w)) = None
  /\ href (catch_block w) = "/login"
  /\ log (catch_block w) = log w.
Proof.
  unfold catch_block, Cookies.get, Cookies.remove. simpl.
  repeat split.
  - rewrite lookup_delete_ne by discriminate.
    rewrite lookup_delete_eq. reflexivity.
  - rewrite lookup_delete_eq. reflexivity.
Qed.

(** The ways the [try] block can throw: no usable refresh token, the
    refresh call rejected, or a refresh answer whose body cannot be
    destructured.  A failing resubmission is not among them. *)
Lemma try_block_throws api c w w2 e :
  try_block api c w = (w2, Throw e) ->
  (has_token "refreshToken" w = false
   /\ w2 = w /\ e = Error "No refresh token available")
  \/ (exists rt, Cookies.get "refreshToken" (cookies w) = Some rt
                /\ api (refresh_request rt) w = (w2, Rejected e))
  \/ (exists rt r, Cookies.get "refreshToken" (cookies w) = Some rt
                  /\ api (refresh_request rt) w = (w2, Resolved r)
                  /\ is_nullish (data r) = true
                  /\ e = ThrownTypeError).
Proof.
  unfold try_block, has_token.
  destruct (Cookies.get "refreshToken" (cookies w)) as [rt|] eqn:Hrt.
  - destruct (truthy_string rt) eqn:Ht.
    + destruct (api (refresh_request rt) w) as [w1 [r|e1|]] eqn:Hapi.
      * destruct (data r) eqn:Hd; simpl;
          try (match goal with
               | |- context [let (_, _) := ?x in _] => destruct x
               end; intros [= ]; fail).
        -- intros [= <- <-]. right; right. exists rt, r.
           rewrite Hd. auto.
        -- intros [= <- <-]. right; right. exists rt, r.
           rewrite Hd. auto.
      * intros [= <- <-]. right; left. exists rt. auto.
      * intros [= ].
    + intros [= <- <-]. left. auto.
  - intros [= <- <-]. left. auto.
Qed.

(** What the client does with a first 401: the [try] block decides. *)
Lemma request_401 n config w body :
  _retry config = false ->
  server (log w) (request_interceptor w config) = Answer 401 body ->
  request server (S n) config w
  = match try_block (request server n)
            (set_retry true (request_interceptor w config))
            (with_log (log w ++ [request_interceptor w config]) w) with
    | (w', Normal o) => (w', o)
    | (w', Throw refreshError) => (catch_block w', Rejected refreshError)
    end.
Proof.
  intros Hfresh H401.
  cbn [request]. rewrite (adapter_401 _ _ _ H401).
  unfold on_rejected. cbn [is_401 response_status fmap option_fmap option_map status].
  rewrite request_interceptor_retry, Hfresh. reflexivity.
Qed.

(** A request that has been retried already is sent once and its result
    is final, whatever the answer. *)
Lemma request_retried n config w :
  _retry config = true ->
  request server (S n) config w
  = (with_log (log w ++ [request_interceptor w config]) w,
     match server (log w) (request_interceptor w config) with
     | Answer st body =>
         if validateStatus st then Resolved (mkResponse st body)
         else Rejected (AxiosError (request_interceptor w config)
                                   (Some (mkResponse st body)))
     | NetworkError =>
         Rejected (AxiosError (request_interceptor w config) None)
     end).
Proof.
  intros Hretried. cbn [request]. unfold adapter.
  destruct (server (log w) (request_interceptor w config)) as [st body|].
  - destruct (validateStatus st); [reflexivity|].
    unfold on_rejected. rewrite request_interceptor_retry, Hretried.
    rewrite andb_false_r. reflexivity.
  - unfold on_rejected. rewrite request_interceptor_retry, Hretried.
    rewrite andb_false_r. reflexivity.
Qed.

Lemma same_target_refl c : same_target c c = true.
Proof.
  unfold same_target. rewrite String.eqb_refl.
  destruct (method c); reflexivity.
Qed.

Lemma same_target_interceptor w c x :
  same_target x (request_interceptor w c) = same_target x c.
Proof.
  destruct (request_interceptor_target w c) as (Hm & Hu & _).
  unfold same_target. rewrite Hm, Hu. reflexivity.
Qed.

Lemma same_target_refresh x rt :
  same_target x (refresh_request rt) = is_refresh_call x.
Proof. reflexivity. Qed.

(** Everything the client puts on the wire for a request is either that
    request (possibly with new headers and the retry marker) or a call to
    the refresh endpoint; nothing already in the log is touched. *)
Lemma request_log n :
  forall c w,
  exists sent : list AxiosRequestConfig,
    log (fst (request server n c w)) = (log w ++ sent)%list
    /\ Forall (fun x => same_target x c || is_refresh_call x = true) sent.
Proof.
  induction n as [|n IH]; intros c w.
  - exists []. simpl. rewrite app_nil_r. auto.
  - set (c0 := request_interceptor w c).
    assert (Hc0 : same_target c0 c || is_refresh_call c0 = true).
    { unfold c0. destruct (request_interceptor_target w c) as (Hm & Hu & _).
      unfold same_target. rewrite Hm, Hu, String.eqb_refl.
      destruct (method c); reflexivity. }
    cbn [request]. fold c0.
    pose proof (adapter_world c0 w) as Hw.
    destruct (adapter server c0 w) as [w1 [r|err]] eqn:Had; simpl in Hw; subst w1.
    + exists [c0]. simpl. auto.
    + assert (Herr : exists resp, err = AxiosError c0 resp).
      { unfold adapter in Had.
        destruct (server (log w) c0) as [st body|].
        - destruct (validateStatus st); inversion Had; eauto.
        - inversion Had; eauto. }
      destruct Herr as [resp ->]. unfold on_rejected.
      destruct (is_401 resp && negb (_retry c0)); [|exists [c0]; simpl; auto].
      unfold try_block.
      destruct (Cookies.get "refreshToken" (cookies (with_log (log w ++ [c0]) w)))
        as [rt|]; [|exists [c0]; simpl; auto].
      destruct (truthy_string rt); [|exists [c0]; simpl; auto].
      destruct (IH (refresh_request rt) (with_log (log w ++ [c0]) w))
        as (l1 & Hl1 & Hall1).
      destruct (request server n (refresh_request rt) (with_log (log w ++ [c0]) w))
        as [w1 [r|e1|]]; simpl in Hl1.
      * assert (Hall1' :
          Forall (fun x => same_target x c || is_refresh_call x = true) l1).
        { eapply Forall_impl; [exact Hall1|]. simpl. intros x Hx.
          rewrite same_target_refresh, orb_diag in Hx.
          rewrite Hx. apply orb_true_r. }
        destruct (member (data r) "accessToken") as [a|];
          [|exists (c0 :: l1); simpl; rewrite Hl1, <- app_assoc; auto].
        destruct (member (data r) "refreshToken") as [b|];
          [|exists (c0 :: l1); simpl; rewrite Hl1, <- app_assoc; auto].
        match goal with
        | |- context [request server n ?cx ?wx] =>
            destruct (IH cx wx) as (l2 & Hl2 & Hall2);
            destruct (request server n cx wx) as [w3 o3]
        end.
        simpl in Hl2. exists (c0 :: l1 ++ l2). simpl. split.
        -- rewrite Hl2, Hl1. rewrite <- !app_assoc. reflexivity.
        -- constructor; [exact Hc0|]. apply Forall_app. split; [exact Hall1'|].
           eapply Forall_impl; [exact Hall2|]. simpl. intros x Hx.
           unfold c0 in Hx.
           unfold same_target in *. simpl in Hx.
           destruct (request_interceptor_target w c) as (Hm & Hu & _).
           rewrite Hm, Hu in Hx. exact Hx.
      * exists (c0 :: l1). simpl. rewrite Hl1, <- app_assoc. split; [reflexivity|].
        constructor; [exact Hc0|].
        eapply Forall_impl; [exact Hall1|]. simpl. intros x Hx.
        rewrite same_target_refresh, orb_diag in Hx.
        rewrite Hx. apply orb_true_r.
      * exists (c0 :: l1). simpl. rewrite Hl1, <- app_assoc. split; [reflexivity|].
        constructor; [exact Hc0|].
        eapply Forall_impl; [exact Hall1|]. simpl. intros x Hx.
        rewrite same_target_refresh, orb_diag in Hx.
        rewrite Hx. apply orb_true_r.
Qed.

(** In particular a call to the refresh endpoint only ever causes calls to
    the refresh endpoint. *)
Lemma refresh_call_log n rt w :
  exists sent : list AxiosRequestConfig,
    log (fst (request server n (refresh_request rt) w)) = (log w ++ sent)%list
    /\ Forall (fun x => is_refresh_call x = true) sent.
Proof.
  destruct (request_log n (refresh_request rt) w) as (l & Hl & Hall).
  exists l. split; [exact Hl|].
  eapply Forall_impl; [exact Hall|]. simpl. intros x Hx.
  rewrite same_target_refresh, orb_diag in Hx. exact Hx.
Qed.

(** The log only grows. *)
Lemma request_extends n c w :
  exists sent : list AxiosRequestConfig,
    log (fst (request server n c w)) = (log w ++ sent)%list.
Proof. destruct (request_log n c w) as (l & Hl & _). eauto. Qed.

Lemma try_block_extends n c w :
  exists sent : list AxiosRequestConfig,
    log (fst (try_block (request server n) c w)) = (log w ++ sent)%list.
Proof.
  unfold try_block.
  destruct (Cookies.get "refreshToken" (cookies w)) as [rt|];
    [|exists []; simpl; rewrite app_nil_r; reflexivity].
  destruct (truthy_string rt);
    [|exists []; simpl; rewrite app_nil_r; reflexivity].
  destruct (request_extends n (refresh_request rt) w) as (l1 & Hl1).
  destruct (request server n (refresh_request rt) w) as [w1 [r|e|]];
    simpl in Hl1; try (exists l1; exact Hl1).
  destruct (member (data r) "accessToken"); [|exists l1; exact Hl1].
  destruct (member (data r) "refreshToken"); [|exists l1; exact Hl1].
  match goal with
  | |- context [request server n ?cx ?wx] =>
      destruct (request_extends n cx wx) as (l2 & Hl2);
      destruct (request server n cx wx) as [w3 o3]
  end.
  simpl in Hl2. exists (l1 ++ l2)%list. simpl.
  rewrite Hl2, Hl1, app_assoc. reflexivity.
Qed.

(** With fuel left, the first thing the client puts on the wire is the
    request it was given, as the request interceptor leaves it. *)
Lemma request_first_sent n c w :
  exists rest : list AxiosRequestConfig,
    log (fst (request server (S n) c w))
    = (log w ++ request_interceptor w c :: rest)%list.
Proof.
  cbn [request].
  pose proof (adapter_world (request_interceptor w c) w) as Hw.
  destruct (adapter server (request_interceptor w c) w) as [w1 [r|err]];
    simpl in Hw; subst w1.
  - exists []. reflexivity.
  - unfold on_rejected.
    destruct err as [c1 resp| |]; try (exists []; reflexivity).
    destruct (is_401 resp && negb (_retry c1)); [|exists []; reflexivity].
    destruct (try_block_extends n (set_retry true c1)
                (with_log (log w ++ [request_interceptor w c]) w))
      as (l & Hl).
    destruct (try_block (request server n) (set_retry true c1)
                (with_log (log w ++ [request_interceptor w c]) w))
      as [w' [o|e]]; simpl in Hl; exists l; simpl;
      rewrite Hl, <- app_assoc; reflexivity.
Qed.

(** A promise that resolves has not been through the [catch] block: the
    page is where it was. *)
Lemma request_resolved_no_reload n :
  forall c w w' r,
    request server n c w = (w', Resolved r) ->
    href w' = href w /\ page_loads w' = page_loads w.
Proof.
  induction n as [|n IH]; intros c w w' r; [discriminate|].
  cbn [request].
  pose proof (adapter_world (request_interceptor w c) w) as Hw.
  destruct (adapter server (request_interceptor w c) w) as [w1 [r1|err]];
    simpl in Hw; subst w1.
  - intros [= <- _]. auto.
  - unfold on_rejected.
    destruct err as [c1 resp| |]; try discriminate.
    destruct (is_401 resp && negb (_retry c1)); [|discriminate].
    unfold try_block.
    destruct (Cookies.get "refreshToken" (cookies _)) as [rt|]; [|discriminate].
    destruct (truthy_string rt); [|discriminate].
    destruct (request server n (refresh_request rt) _) as [w1 [r1|e1|]] eqn:Href;
      try discriminate.
    apply IH in Href. simpl in Href.
    destruct (member (data r1) "accessToken"); [|discriminate].
    destruct (member (data r1) "refreshToken"); [|discriminate].
    match goal with
    | |- context [request server n ?cx ?wx] =>
        destruct (request server n cx wx) as [w3 o3] eqn:Hagain
    end.
    intros [= -> ->]. apply IH in Hagain. simpl in Hagain.
    destruct Href, Hagain. split; congruence.
Qed.

End ClientFacts.

(** ** The client: the refresh protocol *)

Section RefreshProtocol.

Variable server : list AxiosRequestConfig -> AxiosRequestConfig -> net_result.

(** X4.  When the refresh endpoint answers the refresh call with a success
    status and a body that can be destructured, the client makes exactly
    one refresh call and one resubmission: three requests go on the wire,
    the resubmission carries the retry marker and the new access token,
    both new tokens are stored, and the caller gets whatever the
    resubmission gives. *)
Lemma one_refresh_one_retry n config w body rt st tokens :
  _retry config = false ->
  let sent := request_interceptor w config in
  let w1 := with_log (log w ++ [sent]) w in
  let refresh := request_interceptor w1 (refresh_request rt) in
  server (log w) sent = Answer 401 body ->
  Cookies.get "refreshToken" (cookies w) = Some rt ->
  truthy_string rt = true ->
  server (log w1) refresh = Answer st tokens ->
  validateStatus st = true ->
  is_nullish tokens = false ->
  let access := toString (opt_member tokens "accessToken") in
  let jar :=
    Cookies.set "refreshToken" (toString (opt_member tokens "refreshToken")) 7
      (Cookies.set "accessToken" access 1 (cookies w)) in
  let w2 := with_cookies jar (with_log (log w1 ++ [refresh]) w1) in
  let again :=
    request_interceptor w2
      (set_header "Authorization" ("Bearer " +:+ access) (set_retry true sent)) in
  request server (S (S n)) config w
  = (with_log (log w ++ [sent; refresh; again]) w2,
     match server (log w2) again with
     | Answer st' body' =>
         if validateStatus st' then Resolved (mkResponse st' body')
         else Rejected (AxiosError again (Some (mkResponse st' body')))
     | NetworkError => Rejected (AxiosError again None)
     end)
  /\ _retry again = true
  /\ headers again !! "Authorization" = Some ("Bearer " +:+ access).
Proof.
  intros Hfresh sent w1 refresh H401 Hrt Htruthy Hok Hvalid Hbody
         access jar w2 again.
  split; [|split].
  - rewrite (request_401 server (S n) config w body Hfresh H401).
    fold sent w1. unfold try_block.
    change (cookies w1) with (cookies w). rewrite Hrt, Htruthy.
    cbn [request]. fold refresh. unfold adapter. rewrite Hok, Hvalid.
    cbn [data].
    assert (Hm : forall k, member tokens k = Normal (opt_member tokens k)).
    { intros k. destruct tokens; try reflexivity; discriminate. }
    rewrite !Hm.
    change (request_interceptor
              (with_cookies
                 (Cookies.set "refreshToken"
                    (toString (opt_member tokens "refreshToken")) 7
                    (Cookies.set "accessToken"
                       (toString (opt_member tokens "accessToken")) 1
                       (cookies (with_log (log w1 ++ [refresh]) w1))))
                 (with_log (log w1 ++ [refresh]) w1))
              (set_header "Authorization"
                 ("Bearer " +:+ toString (opt_member tokens "accessToken"))
                 (set_retry true sent)))
      with again.
    change (with_cookies _ (with_log (log w1 ++ [refresh]) w1)) with w2.
    assert (Hretried : _retry again = true).
    { unfold again. rewrite request_interceptor_retry. reflexivity. }
    replace (with_log (log w ++ [sent; refresh; again]) w2)
      with (with_log (log w2 ++ [again]) w2).
    2:{ unfold with_log, w2, w1. simpl. rewrite <- !app_assoc. reflexivity. }
    destruct (server (log w2) again) as [st' body'|].
    + destruct (validateStatus st'); [reflexivity|].
      unfold on_rejected. rewrite Hretried, andb_false_r. reflexivity.
    + unfold on_rejected. rewrite Hretried, andb_false_r. reflexivity.
  - unfold again. rewrite request_interceptor_retry. reflexivity.
  - unfold again, request_interceptor.
    change (cookies w2) with jar.
    unfold Cookies.get, jar, Cookies.set.
    rewrite lookup_insert_ne by discriminate.
    rewrite lookup_insert_eq. cbn [fmap option_fmap option_map cookie_value].
    destruct (truthy_string access).
    + unfold set_header. cbn [headers]. rewrite lookup_insert_eq. reflexivity.
    + unfold set_header. cbn [headers]. rewrite lookup_insert_eq. reflexivity.
Qed.

(** C1, at the input where the code departs from it.  The session holds a
    refresh token; the server answers the first refresh call with 401 and
    every later one with fresh tokens.  The refresh call is itself sent
    through the client and carries no retry marker, so its 401 starts a
    second refresh and a resubmission of the refresh call: three calls to
    the refresh endpoint go on the wire for one logical request, where the
    claim allows one. *)
Theorem refresh_answered_401_refreshes_again :
  let '(w', o) :=
    request Scenario.flaky_refresh_server 3 (get_config "/devices")
            Scenario.stale_session in
  has_token "refreshToken" Scenario.stale_session = true
  /\ List.map (fun c => (method c, url c, _retry c)) (log w')
     = [(GET, "/devices", false);
        (POST, "/auth/refresh", false);
        (POST, "/auth/refresh", false);
        (POST, "/auth/refresh", true);
        (GET, "/devices", true)]
  /\ length (List.filter is_refresh_call (log w')) = 3%nat
  /\ o = Resolved (mkResponse 200 (VArr [])).
Proof. vm_compute. repeat split. Qed.

(** The same defect without a bound: against a server that answers 401 to
    everything, every unit of fuel beyond the first is spent on one more
    call to the refresh endpoint, the promise never settles and the tokens
    are never cleared. *)
Lemma refresh_storm n config w rt :
  _retry config = false ->
  Cookies.get "refreshToken" (cookies w) = Some rt ->
  truthy_string rt = true ->
  let '(w', o) := request Scenario.always_401 (S n) config w in
  o = Pending
  /\ cookies w' = cookies w
  /\ href w' = href w
  /\ exists calls : list AxiosRequestConfig,
       log w' = (log w ++ request_interceptor w config :: calls)%list
       /\ length calls = n
       /\ Forall (fun c => is_refresh_call c = true) calls.
Proof.
  revert config w.
  induction n as [|n IH]; intros config w Hfresh Hrt Htruthy.
  - rewrite (request_401 Scenario.always_401 0 config w _ Hfresh eq_refl).
    unfold try_block.
    change (cookies (with_log _ w)) with (cookies w).
    rewrite Hrt, Htruthy. cbn [request].
    repeat split. exists []. auto.
  - rewrite (request_401 Scenario.always_401 (S n) config w _ Hfresh eq_refl).
    unfold try_block.
    change (cookies (with_log _ w)) with (cookies w).
    rewrite Hrt, Htruthy.
    set (w1 := with_log (log w ++ [request_interceptor w config]) w).
    specialize (IH (refresh_request rt) w1 eq_refl Hrt Htruthy).
    destruct (request Scenario.always_401 (S n) (refresh_request rt) w1)
      as [w' o].
    destruct IH as (-> & Hjar & Hhref & calls & Hlog & Hlen & Hall).
    repeat split; [exact Hjar | exact Hhref |].
    exists (request_interceptor w1 (refresh_request rt) :: calls).
    split; [|split].
    + rewrite Hlog. unfold w1. cbn [log with_log].
      rewrite <- app_assoc. reflexivity.
    + simpl. rewrite Hlen. reflexivity.
    + constructor; [|exact Hall].
      destruct (request_interceptor_target w1 (refresh_request rt))
        as (Hm & Hu & _).
      unfold is_refresh_call. rewrite Hm, Hu. reflexivity.
Qed.

(** A resubmitted request that is answered 401 again is not refreshed a
    second time: the 401 goes to the caller and the session is left as it
    is. *)
Lemma retried_401_is_final n config w body :
  _retry config = true ->
  server (log w) (request_interceptor w config) = Answer 401 body ->
  request server (S n) config w
  = (with_log (log w ++ [request_interceptor w config]) w,
     Rejected (AxiosError (request_interceptor w config)
                          (Some (mkResponse 401 body)))).
Proof.
  intros Hretried H401.
  rewrite (request_retried server n config w Hretried), H401. reflexivity.
Qed.

(** A refresh endpoint that refuses the refresh call with anything but a
    401, or cannot be reached, rejects the promise of the refresh call at
    once. *)
Lemma refresh_refused n rt w :
  match server (log w) (request_interceptor w (refresh_request rt)) with
  | Answer st body =>
      validateStatus st = false -> st <> 401 ->
      request server (S n) (refresh_request rt) w
      = (with_log (log w ++ [request_interceptor w (refresh_request rt)]) w,
         Rejected (AxiosError (request_interceptor w (refresh_request rt))
                              (Some (mkResponse st body))))
  | NetworkError =>
      request server (S n) (refresh_request rt) w
      = (with_log (log w ++ [request_interceptor w (refresh_request rt)]) w,
         Rejected (AxiosError (request_interceptor w (refresh_request rt))
                              None))
  end.
Proof.
  cbn [request]. unfold adapter.
  destruct (server (log w) (request_interceptor w (refresh_request rt)))
    as [st body|]; [|reflexivity].
  intros Hinvalid Hne. rewrite Hinvalid. unfold on_rejected.
  cbn [is_401 response_status fmap option_fmap option_map status].
  destruct (Z.eqb_spec st 401); [contradiction|reflexivity].
Qed.

(** A refresh endpoint that answers every refresh call with 401: the
    refresh call, sent through the client without the retry marker, is
    refreshed in its turn, and so on for as long as there is fuel. *)
Lemma refresh_401_storm n :
  (forall history c, is_refresh_call c = true ->
     exists b, server history c = Answer 401 b) ->
  forall config w body rt,
    _retry config = false ->
    server (log w) (request_interceptor w config) = Answer 401 body ->
    Cookies.get "refreshToken" (cookies w) = Some rt ->
    truthy_string rt = true ->
    let '(w', o) := request server (S n) config w in
    o = Pending
    /\ cookies w' = cookies w
    /\ href w' = href w
    /\ page_loads w' = page_loads w
    /\ exists calls : list AxiosRequestConfig,
         log w' = (log w ++ request_interceptor w config :: calls)%list
         /\ length calls = n
         /\ Forall (fun c => is_refresh_call c = true) calls.
Proof.
  intros Hendpoint.
  induction n as [|n IH]; intros config w body rt Hfresh H401 Hrt Htruthy.
  - rewrite (request_401 server 0 config w body Hfresh H401).
    unfold try_block.
    change (cookies (with_log _ w)) with (cookies w).
    rewrite Hrt, Htruthy. cbn [request].
    repeat split. exists []. auto.
  - rewrite (request_401 server (S n) config w body Hfresh H401).
    unfold try_block.
    change (cookies (with_log _ w)) with (cookies w).
    rewrite Hrt, Htruthy.
    set (w1 := with_log (log w ++ [request_interceptor w config]) w).
    assert (Hcall :
      is_refresh_call (request_interceptor w1 (refresh_request rt)) = true).
    { destruct (request_interceptor_target w1 (refresh_request rt))
        as (Hm & Hu & _).
      unfold is_refresh_call. rewrite Hm, Hu. reflexivity. }
    destruct (Hendpoint (log w1) _ Hcall) as (b & Hb).
    specialize (IH (refresh_request rt) w1 b rt eq_refl Hb Hrt Htruthy).
    destruct (request server (S n) (refresh_request rt) w1) as [w' o].
    destruct IH as (-> & Hjar & Hhref & Hloads & calls & Hlog & Hlen & Hall).
    repeat split; [exact Hjar | exact Hhref | exact Hloads |].
    exists (request_interceptor w1 (refresh_request rt) :: calls).
    split; [|split].
    + rewrite Hlog. unfold w1. cbn [log with_log].
      rewrite <- app_assoc. reflexivity.
    + simpl. rewrite Hlen. reflexivity.
    + constructor; [exact Hcall|exact Hall].
Qed.

(** C2, where the code departs from it.  The refresh call fails the usual
    way: the refresh endpoint answers it, and every refresh call, with
    401.  A request that has not been retried is answered 401 while a
    usable refresh token is stored.  Then, whatever the fuel, the caller's
    promise is not rejected (it has not settled), both cookies are what
    they were, the browser stays where it is, and every unit of fuel has
    gone into one more call to the refresh endpoint.  The claim has the
    tokens removed, the browser at the login page, the promise rejected
    and nothing more attempted. *)
Theorem refresh_answered_401_never_ends_session n config w body rt :
  (forall history c, is_refresh_call c = true ->
     exists b, server history c = Answer 401 b) ->
  _retry config = false ->
  server (log w) (request_interceptor w config) = Answer 401 body ->
  Cookies.get "refreshToken" (cookies w) = Some rt ->
  truthy_string rt = true ->
  let '(w', o) := request server (S n) config w in
  (forall e, o <> Rejected e)
  /\ Cookies.get "refreshToken" (cookies w') = Some rt
  /\ Cookies.get "accessToken" (cookies w')
     = Cookies.get "accessToken" (cookies w)
  /\ href w' = href w
  /\ page_loads w' = page_loads w
  /\ length (List.filter is_refresh_call (log w'))
     = (length (List.filter is_refresh_call
                  (log w ++ [request_interceptor w config])) + n)%nat.
Proof.
  intros Hendpoint Hfresh H401 Hrt Htruthy.
  pose proof (refresh_401_storm n Hendpoint config w body rt
                Hfresh H401 Hrt Htruthy) as H.
  destruct (request server (S n) config w) as [w' o].
  destruct H as (-> & Hjar & Hhref & Hloads & calls & Hlog & Hlen & Hall).
  split; [intros e; discriminate|].
  rewrite Hjar. repeat split; try assumption.
  rewrite Hlog.
  change (request_interceptor w config :: calls)
    with ([request_interceptor w config] ++ calls)%list.
  rewrite app_assoc, List.filter_app, length_app. f_equal.
  rewrite <- Hlen. f_equal. clear Hlog Hlen.
  induction Hall as [|c calls Hc _ IH]; [reflexivity|].
  cbn [List.filter]. rewrite Hc, IH. reflexivity.
Qed.

(** X28.  How the refresh can fail at once, and what follows.  A request
    that has not been retried is answered 401, and the refresh fails for
    a reason that shows in the jar or in the server's answer to the
    refresh call: no usable refresh token is stored, the refresh endpoint
    does not answer, it refuses with a status other than 401, or it
    answers a success with no body.  Then the caller's promise rejects
    with the error of that failure, which is not the error of the 401,
    both cookies are removed, the browser is sent to the login page by
    one page load, and at most the one refresh call went out after the
    request. *)
Theorem refresh_failure_ends_session n config w body e :
  let sent := request_interceptor w config in
  let w1 := with_log (log w ++ [sent]) w in
  _retry config = false ->
  server (log w) sent = Answer 401 body ->
  refresh_failure server w1 = Some e ->
  let '(w', o) := request server (S (S n)) config w in
  o = Rejected e
  /\ e <> AxiosError sent (Some (mkResponse 401 body))
  /\ Cookies.get "accessToken" (cookies w') = None
  /\ Cookies.get "refreshToken" (cookies w') = None
  /\ href w' = "/login"
  /\ page_loads w' = S (page_loads w)
  /\ exists calls : list AxiosRequestConfig,
       log w' = (log w ++ sent :: calls)%list
       /\ (length calls <= 1)%nat
       /\ Forall (fun c => is_refresh_call c = true) calls.
Proof.
  intros sent w1 Hfresh H401 Hfail.
  rewrite (request_401 server (S n) config w body Hfresh H401).
  fold sent w1.
  assert (Hended : forall wx calls,
    log wx = (log w ++ sent :: calls)%list ->
    page_loads wx = page_loads w ->
    (length calls <= 1)%nat ->
    Forall (fun c => is_refresh_call c = true) calls ->
    Cookies.get "accessToken" (cookies (catch_block wx)) = None
    /\ Cookies.get "refreshToken" (cookies (catch_block wx)) = None
    /\ href (catch_block wx) = "/login"
    /\ page_loads (catch_block wx) = S (page_loads w)
    /\ exists calls : list AxiosRequestConfig,
         log (catch_block wx) = (log w ++ sent :: calls)%list
         /\ (length calls <= 1)%nat
         /\ Forall (fun c => is_refresh_call c = true) calls).
  { intros wx calls Hlog Hloads Hlen Hall.
    destruct (catch_block_cleared wx) as (Ha & Hr & Hh & Hl).
    repeat split; try assumption.
    - cbn. rewrite Hloads. reflexivity.
    - exists calls. rewrite Hl. auto. }
  assert (Hw1 : log w1 = (log w ++ sent :: [])%list) by reflexivity.
  unfold refresh_failure in Hfail. unfold try_block.
  destruct (Cookies.get "refreshToken" (cookies w1)) as [rt|].
  2:{ injection Hfail as <-. split; [reflexivity|]. split; [discriminate|].
      apply (Hended w1 []); auto. }
  destruct (truthy_string rt).
  2:{ injection Hfail as <-. split; [reflexivity|]. split; [discriminate|].
      apply (Hended w1 []); auto. }
  set (refresh := request_interceptor w1 (refresh_request rt)) in *.
  assert (Hcall : is_refresh_call refresh = true).
  { destruct (request_interceptor_target w1 (refresh_request rt))
      as (Hm & Hu & _).
    unfold is_refresh_call, refresh. rewrite Hm, Hu. reflexivity. }
  assert (Hw2 : log (with_log (log w1 ++ [refresh]) w1)
                = (log w ++ sent :: [refresh])%list).
  { cbn [log with_log]. rewrite Hw1, <- app_assoc. reflexivity. }
  cbn [request]. fold refresh. unfold adapter.
  destruct (server (log w1) refresh) as [st tokens|].
  - destruct (validateStatus st) eqn:Hvalid.
    + destruct tokens; try discriminate Hfail; injection Hfail as <-;
        (split; [reflexivity|]); (split; [discriminate|]);
        apply (Hended _ [refresh]); auto.
    + unfold on_rejected.
      cbn [is_401 response_status fmap option_fmap option_map status].
      destruct (Z.eqb_spec st 401) as [->|Hne]; [discriminate Hfail|].
      injection Hfail as <-. cbn [andb].
      split; [reflexivity|].
      split; [intros [= _ Hst]; contradiction|].
      apply (Hended _ [refresh]); auto.
  - unfold on_rejected. cbn [is_401 response_status fmap option_fmap
      option_map andb].
    injection Hfail as <-. split; [reflexivity|]. split; [discriminate|].
    apply (Hended _ [refresh]); auto.
Qed.

(** C3.  A request that has not been retried is answered 401 while no
    usable refresh token is stored.  Then, whatever the fuel, the request
    itself is the only thing put on the wire (no call to the refresh
    endpoint), the caller's promise is rejected at once, and no access
    token remains stored. *)
Theorem no_refresh_token_fails_at_once n config w body :
  _retry config = false ->
  server (log w) (request_interceptor w config) = Answer 401 body ->
  has_token "refreshToken" w = false ->
  let '(w', o) := request server (S n) config w in
  o = Rejected (Error "No refresh token available")
  /\ log w' = (log w ++ [request_interceptor w config])%list
  /\ Cookies.get "accessToken" (cookies w') = None
  /\ has_token "accessToken" w' = false.
Proof.
  intros Hfresh H401 Hnone.
  rewrite (request_401 server n config w body Hfresh H401).
  assert (Htry :
    try_block (request server n)
      (set_retry true (request_interceptor w config))
      (with_log (log w ++ [request_interceptor w config]) w)
    = (with_log (log w ++ [request_interceptor w config]) w,
       Throw (Error "No refresh token available"))).
  { unfold try_block. unfold has_token in Hnone.
    change (cookies (with_log _ w)) with (cookies w).
    destruct (Cookies.get "refreshToken" (cookies w)) as [rt|]; [|reflexivity].
    rewrite Hnone. reflexivity. }
  rewrite Htry.
  destruct (catch_block_cleared
              (with_log (log w ++ [request_interceptor w config]) w))
    as (Ha & Hr & Hh & Hl).
  repeat split; try assumption.
  unfold has_token. rewrite Ha. reflexivity.
Qed.

End RefreshProtocol.

Lemma refresh_answered_401_never_ends_session_witness :
  let w := Scenario.stale_session in
  let '(w', o) :=
    request Scenario.always_401 4 (get_config "/devices") w in
  (forall e, o <> Rejected e)
  /\ Cookies.get "refreshToken" (cookies w') = Some "R1"
  /\ Cookies.get "accessToken" (cookies w')
     = Cookies.get "accessToken" (cookies w)
  /\ href w' = href w
  /\ page_loads w' = page_loads w
  /\ length (List.filter is_refresh_call (log w'))
     = (length (List.filter is_refresh_call
                  (log w ++ [request_interceptor w (get_config "/devices")]))
        + 3)%nat.
Proof.
  intros w.
  apply (refresh_answered_401_never_ends_session Scenario.always_401 3
           (get_config "/devices") w
           (VObj [("message", VStr "Unauthorized")]) "R1");
    try reflexivity.
  intros history c _. eexists. reflexivity.
Defined.

Lemma no_refresh_token_fails_at_once_witness :
  let w := Scenario.no_refresh_session in
  let '(w', o) :=
    request Scenario.always_401 1 (get_config "/devices") w in
  o = Rejected (Error "No refresh token available")
  /\ log w' = (log w ++ [request_interceptor w (get_config "/devices")])%list
  /\ Cookies.get "accessToken" (cookies w') = None
  /\ has_token "accessToken" w' = false.
Proof.
  intros w.
  apply (no_refresh_token_fails_at_once Scenario.always_401 0
           (get_config "/devices") w
           (VObj [("message", VStr "Unauthorized")]));
    reflexivity.
Defined.

(** C10, where the code departs from it.  The session holds both tokens
    and the refresh token has run out: the server answers the request and
    every refresh call with 401.  The refresh path has failed, for a
    reason as common as any, yet at every fuel both tokens are still
    stored, the browser has not left the page, no page was loaded and the
    caller's promise has not been rejected: it is still pending, while the
    client calls the refresh endpoint again and again. *)
Theorem expired_refresh_token_keeps_session :
  forall n,
    let w := Scenario.stale_session in
    let '(w', o) :=
      request Scenario.expired_refresh_server (S n) (get_config "/devices") w in
    o = Pending
    /\ has_token "accessToken" w' = true
    /\ has_token "refreshToken" w' = true
    /\ href w' = "/devices"
    /\ page_loads w' = 0%nat
    /\ exists calls : list AxiosRequestConfig,
         log w' = (request_interceptor w (get_config "/devices") :: calls)
         /\ length calls = n
         /\ Forall (fun c => is_refresh_call c = true) calls.
Proof.
  intros n w.
  assert (Hendpoint : forall history c, is_refresh_call c = true ->
            exists b, Scenario.expired_refresh_server history c
                      = Answer 401 b).
  { intros history c Hc. unfold Scenario.expired_refresh_server.
    rewrite Hc. eexists. reflexivity. }
  pose proof (refresh_401_storm Scenario.expired_refresh_server n Hendpoint
                (get_config "/devices") w
                (VObj [("message", VStr "Unauthorized")]) "R1"
                eq_refl eq_refl eq_refl eq_refl) as H.
  destruct (request Scenario.expired_refresh_server (S n)
              (get_config "/devices") w) as [w' o].
  destruct H as (Ho & Hjar & Hhref & Hloads & calls & Hlog & Hlen & Hall).
  unfold has_token. rewrite Hjar, Hhref, Hloads.
  repeat split; try assumption.
  exists calls. auto.
Qed.

Lemma refresh_failure_ends_session_witness :
  let w := Scenario.no_refresh_session in
  let sent := request_interceptor w (get_config "/devices") in
  (let '(w', o) := request Scenario.always_401 2 (get_config "/devices") w in
   o = Rejected (Error "No refresh token available")
   /\ Error "No refresh token available"
      <> AxiosError sent
           (Some (mkResponse 401 (VObj [("message", VStr "Unauthorized")])))
   /\ Cookies.get "accessToken" (cookies w') = None
   /\ Cookies.get "refreshToken" (cookies w') = None
   /\ href w' = "/login"
   /\ page_loads w' = S (page_loads w)
   /\ exists calls : list AxiosRequestConfig,
        log w' = (log w ++ sent :: calls)%list
        /\ (length calls <= 1)%nat
        /\ Forall (fun c => is_refresh_call c = true) calls)
  /\ let '(w', o) :=
       request Scenario.null_refresh_server 2 (get_config "/devices")
               Scenario.stale_session in
     o = Rejected ThrownTypeError
     /\ Cookies.get "accessToken" (cookies w') = None
     /\ Cookies.get "refreshToken" (cookies w') = None
     /\ href w' = "/login".
Proof.
  intros w sent. split.
  - apply (refresh_failure_ends_session Scenario.always_401 0
             (get_config "/devices") w
             (VObj [("message", VStr "Unauthorized")])
             (Error "No refresh token available"));
      reflexivity.
  - pose proof (refresh_failure_ends_session Scenario.null_refresh_server 0
                  (get_config "/devices") Scenario.stale_session
                  (VObj [("message", VStr "Unauthorized")])
                  ThrownTypeError eq_refl eq_refl eq_refl) as H.
    cbv zeta in H.
    destruct (request Scenario.null_refresh_server 2 (get_config "/devices")
                Scenario.stale_session) as [w' o].
    destruct H as (Ho & _ & Ha & Hr & Hh & _). auto.
Defined.

(** ** Error message extraction *)

(** An axios error is an object, so reading its [response] cannot throw. *)
Lemma isAxiosError_object error :
  isAxiosError error = true -> exists props, error = VObj props.
Proof. destruct error; try discriminate. eauto. Qed.

(** C4, as the code has it.  For every value, [handleApiError] returns
    normally (it never throws); for an axios error the result is the
    message of the server's answer when that message is truthy and the
    fixed string [An error occurred] otherwise; for every value that is
    not an axios error it is the other fixed string, [An unexpected error
    occurred]. *)
Theorem handleApiError_spec (error : value) :
  handleApiError error
  = Normal
      (if isAxiosError error then
         if truthy (server_message error) then server_message error
         else VStr "An error occurred"
       else VStr "An unexpected error occurred").
Proof.
  unfold handleApiError, server_message.
  destruct (isAxiosError error) eqn:Hax; [|reflexivity].
  destruct (isAxiosError_object error Hax) as [props ->].
  cbn [member bind opt_member]. unfold JS.or. reflexivity.
Qed.

(** C4 as stated fails: there is no single fallback.  Neither a network
    failure (an axios error without an answer) nor a thrown [Error] carries
    a server message, and the two get different strings.  And a value that
    does carry an answer with a message, without being an axios error, gets
    the fallback and not the message. *)
Lemma handleApiError_two_fallbacks :
  let network_failure := failure_value (AxiosError (get_config "/users") None) in
  let thrown := failure_value (Error "boom") in
  let foreign :=
    VObj [("response",
           VObj [("status", VNum 429);
                 ("data", VObj [("message", VStr "Quota exceeded")])])] in
  server_message network_failure = VUndefined
  /\ server_message thrown = VUndefined
  /\ handleApiError network_failure = Normal (VStr "An error occurred")
  /\ handleApiError thrown = Normal (VStr "An unexpected error occurred")
  /\ handleApiError network_failure <> handleApiError thrown
  /\ server_message foreign = VStr "Quota exceeded"
  /\ handleApiError foreign = Normal (VStr "An unexpected error occurred").
Proof. repeat split. discriminate. Qed.

(** With a non-empty message in the answer, that message is what the
    caller of the client sees. *)
Lemma handleApiError_server_message config st body msg :
  opt_member body "message" = VStr msg ->
  msg <> "" ->
  handleApiError (failure_value (AxiosError config (Some (mkResponse st body))))
  = Normal (VStr msg).
Proof.
  intros Hmsg Hne. unfold handleApiError. cbn. rewrite Hmsg.
  unfold JS.or. cbn.
  destruct (String.eqb_spec msg ""); [contradiction|reflexivity].
Qed.

(** ** List fetches and the shape of the response body *)

Section ListFetch.
Import Page.

Variable server : list AxiosRequestConfig -> AxiosRequestConfig -> net_result.
Variable fuel : nat.

Lemma handleApiError_thrown message :
  handleApiError (failure_value (Error message))
  = Normal (VStr "An unexpected error occurred").
Proof. reflexivity. Qed.

(** What [fetchUsers] makes of a resolved request. *)
Lemma fetchUsers_resolved s w w1 r :
  request server fuel (get_config "/users") w = (w1, Resolved r) ->
  Users.fetchUsers server fuel s w
  = (w1,
     match Users.usersWithIds r with
     | Normal rows =>
         Normal (Users.setLoading false (Users.setError VNull
                   (Users.setUsers rows (Users.setLoading true s))))
     | Throw err =>
         errorMessage <- handleApiError (failure_value err);;
         Normal (Users.setLoading false (Users.setUsers []
                   (Users.setError errorMessage (Users.setLoading true s))))
     end).
Proof.
  intros H. unfold Users.fetchUsers, Users.api. rewrite H.
  cbn [await bind]. destruct (Users.usersWithIds r); reflexivity.
Qed.

(** C5, as the code has it.  The same successful answer, either in the
    envelope ([wrapped = true]) or as a bare array, is given to each list
    fetch.  The users and roles fetches take the envelope and refuse the
    bare array (list emptied, error message set); the company lookup of the
    users page takes the bare array and refuses the envelope; the
    companies and devices pages store the body as it is, so that only the
    bare array leaves a collection in the view state. *)
Theorem list_fetch_accepts_one_shape
    (wrapped : bool) (items : list value) st su sr sc sd w wu wr wc wd :
  let body := list_body wrapped items in
  let refused := VStr "An unexpected error occurred" in
  request server fuel (get_config "/users") w
    = (wu, Resolved (mkResponse st body)) ->
  request server fuel (get_config "/roles") w
    = (wr, Resolved (mkResponse st body)) ->
  request server fuel (get_config "/companies") w
    = (wc, Resolved (mkResponse st body)) ->
  request server fuel (get_config "/devices") w
    = (wd, Resolved (mkResponse st body)) ->
  (exists s', Users.fetchUsers server fuel su w = (wu, Normal s')
     /\ if wrapped then
          match map_throwing Users.normalize items with
          | Normal rows => Users.users s' = rows /\ Users.error s' = VNull
          | Throw _ => Users.users s' = [] /\ Users.error s' = refused
          end
        else Users.users s' = [] /\ Users.error s' = refused)
  /\ (exists s', Roles.fetchRoles server fuel sr w = (wr, Normal s')
       /\ if wrapped
          then Roles.roles s' = items /\ Roles.error s' = VNull
          else Roles.roles s' = [] /\ Roles.error s' = refused)
  /\ (exists s', Users.fetchCompanies server fuel su w = (wc, Normal s')
       /\ if wrapped
          then Users.companies s' = Users.companies su
               /\ Users.error s' = refused
          else
            match Users.formattedCompanies (mkResponse st (VArr items)) with
            | Normal cs => Users.companies s' = cs
            | Throw _ => Users.companies s' = Users.companies su
                         /\ Users.error s' = refused
            end)
  /\ (exists s', Companies.fetchCompanies server fuel sc w = (wc, s')
       /\ Companies.companies s' = body
       /\ isArray (Companies.companies s') = negb wrapped)
  /\ (exists s', Devices.fetchDevices server fuel sd w = (wd, Normal s')
       /\ Devices.devices s' = body
       /\ isArray (Devices.devices s') = negb wrapped).
Proof.
  intros body refused Hu Hr Hc Hd.
  split; [|split; [|split; [|split]]].
  - rewrite (fetchUsers_resolved _ _ _ _ Hu).
    unfold body. destruct wrapped.
    + change (Users.usersWithIds (mkResponse st (list_body true items)))
        with (lift (map_throwing Users.normalize items)).
      destruct (map_throwing Users.normalize items) as [rows|[]];
        eexists; split; try reflexivity; split; reflexivity.
    + eexists. split; [reflexivity|]. split; reflexivity.
  - unfold Roles.fetchRoles. rewrite Hr. unfold body.
    destruct wrapped; eexists; (split; [reflexivity|]); split; reflexivity.
  - unfold Users.fetchCompanies, Users.api. rewrite Hc. unfold body.
    destruct wrapped.
    + eexists. split; [reflexivity|]. split; reflexivity.
    + cbn [await bind list_body].
      destruct (Users.formattedCompanies (mkResponse st (VArr items)))
        as [cs|err] eqn:Hfc.
      * eexists. split; reflexivity.
      * assert (err = ThrownTypeError) as ->.
        { revert Hfc. unfold Users.formattedCompanies. cbn [data].
          destruct (map_throwing _ items) as [?|[]]; simpl; congruence. }
        eexists. split; [reflexivity|]. split; reflexivity.
  - unfold Companies.fetchCompanies. rewrite Hc.
    eexists. split; [reflexivity|]. unfold body.
    destruct wrapped; split; reflexivity.
  - unfold Devices.fetchDevices. rewrite Hd.
    eexists. split; [reflexivity|]. unfold body.
    destruct wrapped; split; reflexivity.
Qed.

End ListFetch.

Lemma list_fetch_accepts_one_shape_witness :
  let srv := Scenario.fixed_body_server (VArr [Scenario.alice]) in
  let w := Scenario.logged_in in
  let refused := VStr "An unexpected error occurred" in
  (exists s', Users.fetchUsers srv 1 Scenario.users_start w
              = (fst (request srv 1 (get_config "/users") w), Normal s')
     /\ Users.users s' = [] /\ Users.error s' = refused)
  /\ (exists s', Roles.fetchRoles srv 1 (Roles.mkState [] true VNull) w
                = (fst (request srv 1 (get_config "/roles") w), Normal s')
       /\ Roles.roles s' = [] /\ Roles.error s' = refused)
  /\ (exists s', Users.fetchCompanies srv 1 Scenario.users_start w
                = (fst (request srv 1 (get_config "/companies") w), Normal s')
       /\ Users.companies s' = [VObj [("id", VStr "u1"); ("name", VUndefined)]])
  /\ (exists s', Companies.fetchCompanies srv 1
                  (Companies.mkState VUndefined false true) w
                = (fst (request srv 1 (get_config "/companies") w), s')
       /\ Companies.companies s' = VArr [Scenario.alice]
       /\ isArray (Companies.companies s') = true)
  /\ (exists s', Devices.fetchDevices srv 1
                  (Devices.mkState VUndefined VUndefined true VNull "" 0 10) w
                = (fst (request srv 1 (get_config "/devices") w), Normal s')
       /\ Devices.devices s' = VArr [Scenario.alice]
       /\ isArray (Devices.devices s') = true).
Proof.
  intros srv w refused.
  apply (list_fetch_accepts_one_shape srv 1 false [Scenario.alice] 200
           Scenario.users_start (Roles.mkState [] true VNull)
           (Companies.mkState VUndefined false true)
           (Devices.mkState VUndefined VUndefined true VNull "" 0 10)
           w); reflexivity.
Defined.

(** C5 as stated fails on the users page: the very answer that is accepted
    inside the envelope is refused as a bare array; the grid is emptied and
    an error is shown. *)
Lemma fetchUsers_refuses_bare_array :
  let w := Scenario.logged_in in
  let s := Scenario.users_start in
  let bare := Scenario.fixed_body_server (VArr [Scenario.alice]) in
  let wrapped := Scenario.fixed_body_server (Page.envelope [Scenario.alice]) in
  (exists s', snd (Users.fetchUsers wrapped 1 s w) = Normal s'
              /\ Users.users s' = [Scenario.alice_row]
              /\ Users.error s' = VNull)
  /\ (exists s', snd (Users.fetchUsers bare 1 s w) = Normal s'
                /\ Users.users s' = []
                /\ Users.error s' = VStr "An unexpected error occurred")
  /\ snd (request bare 1 (get_config "/users") w)
     = Resolved (mkResponse 200 (VArr [Scenario.alice])).
Proof.
  repeat split; eexists; (split; [reflexivity|]); split; reflexivity.
Qed.

(** ** Users page: the password on update and on create *)

Section UsersSubmit.
Import Page.

Variable server : list AxiosRequestConfig -> AxiosRequestConfig -> net_result.

Lemma updateData_blank d :
  Users.blank (Users.UserFormData.password d) = true ->
  Users.updateData d = other_fields d.
Proof.
  unfold Users.updateData, Users.encode. intros Hblank. rewrite Hblank.
  destruct (Users.UserFormData.password d); reflexivity.
Qed.

(** Whatever the password, the update payload agrees with the form on
    every other property; with a blank password it has no [password]
    property. *)
Lemma updateData_other d k :
  k <> "password" ->
  lookup_prop k (Users.updateData d) = lookup_prop k (Users.encode d).
Proof.
  intros Hk. unfold Users.updateData.
  destruct (Users.blank _); [|reflexivity].
  apply lookup_delete_prop_ne. exact Hk.
Qed.

Lemma updateData_no_password d :
  Users.blank (Users.UserFormData.password d) = true ->
  has_prop "password" (Users.updateData d) = false.
Proof.
  intros Hblank. unfold Users.updateData. rewrite Hblank.
  apply has_delete_prop_eq.
Qed.

Lemma fetchUsers_extends fuel s w :
  exists sent : list AxiosRequestConfig,
    log (fst (Users.fetchUsers server fuel s w)) = (log w ++ sent)%list.
Proof.
  unfold Users.fetchUsers, Users.api.
  destruct (request_extends server fuel (get_config "/users") w) as (l & Hl).
  destruct (request server fuel (get_config "/users") w) as [w1 o].
  simpl in Hl. exists l.
  destruct (await o) as [[r|e]|]; simpl; try exact Hl.
  - destruct (Users.usersWithIds r); exact Hl.
Qed.

(** C6.  The form is submitted with a blank password (absent or empty).
    On an update, a PUT to the user's URL is the first thing sent, and its
    payload is exactly the six other fields of the form: no [password]
    property.  On a create, nothing is sent at all, and the page shows
    [Password is required for new users]. *)
Theorem users_submit_blank_password fuel d s w :
  Users.blank (Users.UserFormData.password d) = true ->
  match Users.selectedUser s with
  | Some u =>
      let put :=
        request_interceptor w
          (put_config ("/users/" +:+ toString (Users.User.id u))
                      (VObj (other_fields d))) in
      (exists rest : list AxiosRequestConfig,
         log (fst (Users.onSubmit server (S fuel) d s w))
         = (log w ++ put :: rest)%list)
      /\ method put = PUT
      /\ payload put = VObj (other_fields d)
      /\ has_prop "password" (other_fields d) = false
  | None =>
      Users.onSubmit server fuel d s w
      = (w, Normal (Users.setError
                      (VStr "Password is required for new users") s))
  end.
Proof.
  intros Hblank.
  destruct (Users.selectedUser s) as [u|] eqn:Hsel.
  - destruct (request_interceptor_target w
                (put_config ("/users/" +:+ toString (Users.User.id u))
                            (VObj (other_fields d))))
      as (Hm & _ & Hp).
    split; [|split; [exact Hm | split; [exact Hp | reflexivity]]].
    unfold Users.onSubmit, Users.api. rewrite Hsel.
    rewrite (updateData_blank d Hblank).
    set (c := put_config _ _).
    destruct (request_first_sent server fuel c w) as (l & Hl).
    destruct (request server (S fuel) c w) as [w1 o]. simpl in Hl.
    destruct (await o) as [[r|e]|]; simpl.
    + match goal with
      | |- context [Users.fetchUsers server (S fuel) ?sx w1] =>
          destruct (fetchUsers_extends (S fuel) sx w1) as (l2 & Hl2)
      end.
      exists (l ++ l2)%list. rewrite Hl2, Hl, <- app_assoc. reflexivity.
    + exists l. exact Hl.
    + exists l. exact Hl.
  - unfold Users.onSubmit. rewrite Hsel, Hblank. reflexivity.
Qed.

(** Through the form, too: with no user selected and the password field
    untouched or empty, submitting sends nothing, whether the schema lets
    the form through or not. *)
Lemma users_create_blank_sends_nothing fuel is_email is_uuid s w :
  Users.selectedUser s = None ->
  Users.Form.password (Users.form s) = VUndefined
  \/ Users.Form.password (Users.form s) = VStr "" ->
  fst (Users.handleSubmit server fuel is_email is_uuid s w) = w.
Proof.
  intros Hsel Hpw. unfold Users.handleSubmit.
  destruct (Users.userSchema is_email is_uuid (Users.form s)) as [d|] eqn:Hd;
    [|reflexivity].
  assert (Hblank : Users.blank (Users.UserFormData.password d) = true).
  { revert Hd. unfold Users.userSchema.
    destruct (match Users.Form.email _ with VStr _ => _ | _ => _ end);
      cbn; [|discriminate].
    destruct (Users.string_min 2 (Users.Form.firstName _)); cbn; [|discriminate].
    destruct (Users.string_min 2 (Users.Form.lastName _)); cbn; [|discriminate].
    destruct (Users.parse_role _); cbn; [|discriminate].
    destruct (Users.parse_status _); cbn; [|discriminate].
    destruct Hpw as [-> | ->]; cbn; [|discriminate].
    destruct (match Users.Form.companyId _ with VStr _ => _ | _ => _ end);
      cbn; [|discriminate].
    intros [= <-]. reflexivity. }
  unfold Users.onSubmit. rewrite Hsel, Hblank. reflexivity.
Qed.

End UsersSubmit.

Lemma users_submit_blank_password_witness :
  let srv := Scenario.fixed_body_server (Page.envelope [Scenario.alice]) in
  let d := Scenario.alice_data in
  let s := Scenario.editing_alice in
  let w := Scenario.logged_in in
  let put :=
    request_interceptor w (put_config "/users/u1" (VObj (other_fields d))) in
  Users.blank (Users.UserFormData.password d) = true
  /\ (exists rest : list AxiosRequestConfig,
        log (fst (Users.onSubmit srv 1 d s w)) = (log w ++ put :: rest)%list)
  /\ method put = PUT
  /\ payload put = VObj (other_fields d)
  /\ has_prop "password" (other_fields d) = false.
Proof.
  intros srv d s w put. split; [reflexivity|].
  exact (users_submit_blank_password srv 0 d s w eq_refl).
Defined.

(** With a password, a create does go out, password included. *)
Lemma users_create_with_password server fuel d s w p :
  Users.selectedUser s = None ->
  Users.UserFormData.password d = Some p ->
  p <> "" ->
  exists rest : list AxiosRequestConfig,
    log (fst (Users.onSubmit server (S fuel) d s w))
    = (log w ++ request_interceptor w
                  (post_config "/users" (VObj (Users.encode d))) :: rest)%list
    /\ lookup_prop "password" (Users.encode d) = VStr p.
Proof.
  intros Hsel Hp Hne. unfold Users.onSubmit, Users.api. rewrite Hsel, Hp.
  assert (Hblank : Users.blank (Some p) = false).
  { unfold Users.blank, truthy_string.
    destruct (String.eqb_spec p ""); [contradiction|reflexivity]. }
  rewrite Hblank.
  set (c := post_config _ _).
  destruct (request_first_sent server fuel c w) as (l & Hl).
  destruct (request server (S fuel) c w) as [w1 o]. simpl in Hl.
  assert (Hpw : lookup_prop "password" (Users.encode d) = VStr p).
  { unfold Users.encode. rewrite Hp. reflexivity. }
  destruct (Page.await o) as [[r|e]|]; simpl.
  - match goal with
    | |- context [Users.fetchUsers server (S fuel) ?sx w1] =>
        destruct (fetchUsers_extends server (S fuel) sx w1) as (l2 & Hl2)
    end.
    exists (l ++ l2)%list. rewrite Hl2, Hl, <- app_assoc. auto.
  - exists l. auto.
  - exists l. auto.
Qed.

(** ** Edit forms: from the fetched entity to the update payload *)

Section RoundTrip.
Import Page.

Variable server : list AxiosRequestConfig -> AxiosRequestConfig -> net_result.

Lemma string_between_inv lo hi v s :
  EditDevice.string_between lo hi v = Some s -> v = VStr s.
Proof.
  destruct v; simpl; try discriminate.
  destruct (_ && _); [|discriminate]. congruence.
Qed.

Lemma device_string_min_inv lo v s :
  EditDevice.string_min lo v = Some s -> v = VStr s.
Proof.
  destruct v; simpl; try discriminate.
  destruct (_ <=? _)%nat; [|discriminate]. congruence.
Qed.

Lemma parse_device_status_inv v st :
  EditDevice.parse_status v = Some st ->
  v = VStr (EditDevice.DeviceStatus_name st).
Proof.
  destruct v; simpl; try discriminate.
  destruct (String.eqb_spec s "online");
    [intros [= <-]; subst; reflexivity|].
  destruct (String.eqb_spec s "offline");
    [intros [= <-]; subst; reflexivity|].
  destruct (String.eqb_spec s "maintenance");
    [intros [= <-]; subst; reflexivity|].
  discriminate.
Qed.

Lemma with_default_inv {A} (d : A) parse (inject : A -> value) v x :
  (forall v' x', parse v' = Some x' -> v' = inject x') ->
  EditDevice.with_default d parse v = Some x ->
  or_default (inject d) v = inject x.
Proof.
  intros Hinv. unfold EditDevice.with_default.
  destruct v; simpl; intros H; try (apply Hinv in H; exact H).
  congruence.
Qed.

(** What the schema lets through is the form itself, with the defaults
    where a field was [undefined] and nothing else changed. *)
Lemma deviceSchema_encode f d :
  EditDevice.deviceSchema f = Some d ->
  EditDevice.encode d = device_fields (defaulted f).
Proof.
  unfold EditDevice.deviceSchema. intros H.
  destruct (EditDevice.string_between 2 50 _) as [ty|] eqn:H1;
    [|discriminate].
  destruct (EditDevice.string_min 1 _) as [co|] eqn:H2; [|discriminate].
  destruct (EditDevice.with_default EditDevice.offline _ _) as [st|] eqn:H3;
    [|discriminate].
  destruct (EditDevice.string_between 2 255 _) as [lo|] eqn:H4;
    [|discriminate].
  destruct (EditDevice.string_between 5 1000 _) as [pa|] eqn:H5;
    [|discriminate].
  destruct (EditDevice.with_default [] _ _) as [ps|] eqn:H6; [|discriminate].
  destruct (EditDevice.with_default 60 _ _) as [pu|] eqn:H7; [|discriminate].
  destruct (EditDevice.with_default true _ _) as [en|] eqn:H8; [|discriminate].
  simpl in H. injection H as <-.
  apply string_between_inv in H1, H4, H5. apply device_string_min_inv in H2.
  apply (with_default_inv _ _ (fun s => VStr (EditDevice.DeviceStatus_name s)))
    in H3; [|exact parse_device_status_inv].
  apply (with_default_inv _ _ VObj) in H6.
  2:{ intros [] ?; simpl; congruence. }
  apply (with_default_inv _ _ VNum) in H7.
  2:{ intros [] ?; simpl; try discriminate.
      destruct (0 <? n); congruence. }
  apply (with_default_inv _ _ VBool) in H8.
  2:{ intros [] ?; simpl; congruence. }
  change (VStr (EditDevice.DeviceStatus_name EditDevice.offline))
    with (VStr "offline") in H3.
  unfold EditDevice.encode, device_fields, defaulted. cbn -[or_default].
  rewrite H1, H2, H3, H4, H5, H6, H7, H8. reflexivity.
Qed.

Lemma user_string_min_inv lo v s :
  Users.string_min lo v = Some s -> v = VStr s.
Proof.
  destruct v; simpl; try discriminate.
  destruct (_ <=? _)%nat; [|discriminate]. congruence.
Qed.

Lemma parse_role_inv v r :
  Users.parse_role v = Some r -> v = VStr (Users.UserRole_name r).
Proof.
  destruct v; simpl; try discriminate.
  destruct (String.eqb_spec s "admin"); [intros [= <-]; subst; reflexivity|].
  destruct (String.eqb_spec s "manager"); [intros [= <-]; subst; reflexivity|].
  destruct (String.eqb_spec s "viewer"); [intros [= <-]; subst; reflexivity|].
  discriminate.
Qed.

Lemma parse_user_status_inv v st :
  Users.parse_status v = Some st -> v = VStr (Users.UserStatus_name st).
Proof.
  destruct v; simpl; try discriminate.
  destruct (String.eqb_spec s "active"); [intros [= <-]; subst; reflexivity|].
  destruct (String.eqb_spec s "inactive"); [intros [= <-]; subst; reflexivity|].
  discriminate.
Qed.

(** The users dialog after [handleEdit]: when the schema accepts the form
    and no password was typed, the update payload is the six edited fields
    of the row, as they were fetched. *)
Lemma userSchema_updateData is_email is_uuid user s d :
  Users.Form.password (Users.form s) = VUndefined ->
  Users.userSchema is_email is_uuid (Users.form (Users.handleEdit user s))
  = Some d ->
  Users.updateData d = user_fields user.
Proof.
  intros Hpw. unfold Users.userSchema, Users.handleEdit. cbn.
  rewrite Hpw.
  destruct (Users.User.email user) as [| | | |em| |] eqn:H1;
    cbn; try discriminate.
  destruct (is_email em); cbn; [|discriminate].
  destruct (Users.string_min 2 (Users.User.firstName user)) as [fn|] eqn:H2;
    cbn; [|discriminate].
  destruct (Users.string_min 2 (Users.User.lastName user)) as [ln|] eqn:H3;
    cbn; [|discriminate].
  destruct (Users.parse_role (Users.User.role user)) as [ro|] eqn:H4;
    cbn; [|discriminate].
  destruct (Users.parse_status (Users.User.status user)) as [st|] eqn:H5;
    cbn; [|discriminate].
  destruct (Users.User.companyId user) as [| | | |co| |] eqn:H6;
    cbn; try discriminate.
  destruct (is_uuid co); cbn; [|discriminate].
  intros [= <-].
  apply user_string_min_inv in H2, H3.
  apply parse_role_inv in H4. apply parse_user_status_inv in H5.
  unfold Users.updateData, Users.encode, user_fields. cbn.
  rewrite H1, H2, H3, H4, H5, H6. reflexivity.
Qed.

(** C7, as the code has it.  A device is fetched and normalized into the
    edit form; a grid row of the users page is put into the dialog by the
    edit button, no password being typed.  Both forms are submitted as they
    are.  If the schema accepts the form and none of its defaults applies
    (no normalized field is [undefined]), the first request sent is a PUT
    to the entity's URL whose payload is, field for field, what was
    fetched: the eight device fields, and the six user fields without any
    password. *)
Theorem edit_form_round_trip
    fuel id is_email is_uuid st deviceData fd d s0 w0 w user su du wu :
  request server (S fuel) (get_config ("/devices/" +:+ id)) w0
    = (w, Resolved (mkResponse st deviceData)) ->
  EditDevice.formData deviceData = Normal fd ->
  defaulted fd = fd ->
  EditDevice.deviceSchema fd = Some d ->
  Users.Form.password (Users.form su) = VUndefined ->
  Users.userSchema is_email is_uuid (Users.form (Users.handleEdit user su))
    = Some du ->
  let sd := snd (EditDevice.fetchDevice server (S fuel) id s0 w0) in
  EditDevice.form sd = fd
  /\ (exists rest : list AxiosRequestConfig,
        log (fst (EditDevice.handleSubmit server (S fuel) id sd w))
        = (log w
           ++ request_interceptor w
                (put_config ("/devices/" +:+ id) (VObj (device_fields fd)))
           :: rest)%list)
  /\ (exists rest : list AxiosRequestConfig,
        log (fst (Users.handleSubmit server (S fuel) is_email is_uuid
                    (Users.handleEdit user su) wu))
        = (log wu
           ++ request_interceptor wu
                (put_config ("/users/" +:+ toString (Users.User.id user))
                            (VObj (user_fields user)))
           :: rest)%list)
  /\ has_prop "password" (user_fields user) = false.
Proof.
  intros Hget Hfd Hdef Hschema Hpw Huser sd.
  assert (Hform : EditDevice.form sd = fd).
  { unfold sd, EditDevice.fetchDevice. rewrite Hget.
    cbn [await bind data]. rewrite Hfd. reflexivity. }
  split; [exact Hform|]. split; [|split; [|reflexivity]].
  - unfold EditDevice.handleSubmit. rewrite Hform, Hschema.
    unfold EditDevice.onSubmit.
    rewrite (deviceSchema_encode fd d Hschema), Hdef.
    set (c := put_config _ _).
    destruct (request_first_sent server fuel c w) as (l & Hl).
    destruct (request server (S fuel) c w) as [w1 o]. simpl in Hl.
    exists l. destruct (await o) as [[r|e]|]; exact Hl.
  - unfold Users.handleSubmit. rewrite Huser.
    unfold Users.onSubmit, Users.api.
    change (Users.selectedUser (Users.handleEdit user su)) with (Some user).
    rewrite (userSchema_updateData is_email is_uuid user su du Hpw Huser).
    set (c := put_config _ _).
    destruct (request_first_sent server fuel c wu) as (l & Hl).
    destruct (request server (S fuel) c wu) as [w1 o]. simpl in Hl.
    destruct (await o) as [[r|e]|]; simpl.
    + match goal with
      | |- context [Users.fetchUsers server (S fuel) ?sx w1] =>
          destruct (fetchUsers_extends server (S fuel) sx w1) as (l2 & Hl2)
      end.
      exists (l ++ l2)%list. rewrite Hl2, Hl, <- app_assoc. reflexivity.
    + exists l. exact Hl.
    + exists l. exact Hl.
Qed.

(** A form the schema refuses is not submitted at all. *)
Lemma invalid_form_not_submitted fuel id s w :
  EditDevice.deviceSchema (EditDevice.form s) = None ->
  EditDevice.handleSubmit server fuel id s w = (w, Normal s).
Proof. intros H. unfold EditDevice.handleSubmit. rewrite H. reflexivity. Qed.

End RoundTrip.

Lemma edit_form_round_trip_witness :
  let srv := Scenario.fixed_body_server Scenario.sensor in
  let w0 := Scenario.logged_in in
  let w := fst (request srv 1 (get_config "/devices/d1") w0) in
  let fd :=
    EditDevice.Form.mk (VStr "sensor") (VStr "c1") (VStr "online") (VStr "lab")
      (VStr "1 Main Street") (VObj [("t", VStr "number")]) (VNum 30)
      (VBool false) in
  let sd := snd (EditDevice.fetchDevice srv 1 "d1" Scenario.edit_start w0) in
  EditDevice.form sd = fd
  /\ (exists rest : list AxiosRequestConfig,
        log (fst (EditDevice.handleSubmit srv 1 "d1" sd w))
        = (log w
           ++ request_interceptor w
                (put_config "/devices/d1" (VObj (device_fields fd)))
           :: rest)%list)
  /\ (exists rest : list AxiosRequestConfig,
        log (fst (Users.handleSubmit srv 1 Scenario.has_at Scenario.is_36_long
                    Scenario.editing_alice w0))
        = (log w0
           ++ request_interceptor w0
                (put_config "/users/u1" (VObj (user_fields Scenario.alice_row)))
           :: rest)%list)
  /\ has_prop "password" (user_fields Scenario.alice_row) = false.
Proof.
  intros srv w0 w fd sd.
  apply (edit_form_round_trip srv 0 "d1" Scenario.has_at Scenario.is_36_long
           200 Scenario.sensor fd
           (EditDevice.DeviceFormData.mk "sensor" "c1" EditDevice.online "lab"
              "1 Main Street" [("t", VStr "number")] 30 false)
           Scenario.edit_start w0 w Scenario.alice_row
           (Users.mkState [Scenario.alice_row] false VNull false None []
              Users.defaultValues)
           Scenario.alice_data w0);
    reflexivity.
Defined.

(** C7 as stated fails.  The server sends a device without a payload
    schema; the normalized field is [undefined]; the unchanged form passes
    the schema, and the PUT carries [payload_schema: {}], the schema's
    default, which is not what was fetched. *)
Lemma edit_device_default_breaks_round_trip :
  let srv := Scenario.fixed_body_server Scenario.sensor_without_schema in
  let '(w1, s1) :=
    EditDevice.fetchDevice srv 1 "d1" Scenario.edit_start Scenario.logged_in in
  let '(w2, _) := EditDevice.handleSubmit srv 1 "d1" s1 w1 in
  EditDevice.Form.payload_schema (EditDevice.form s1) = VUndefined
  /\ List.map (fun c => (method c, url c)) (log w2)
     = [(GET, "/devices/d1"); (PUT, "/devices/d1")]
  /\ List.map (fun c => opt_member (payload c) "payload_schema") (log w2)
     = [VUndefined; VObj []]
  /\ VObj [] <> EditDevice.Form.payload_schema (EditDevice.form s1).
Proof. vm_compute. repeat split. discriminate. Qed.

(** ** Route protection *)

Section RouteGuard.

(** The pages of the application are protected paths; the login page and
    the assets are not. *)
Lemma pages_are_protected :
  Forall (fun path => protected path = true)
    ["/"; "/dashboard"; "/users"; "/roles"; "/companies"; "/devices";
     "/devices/new"; "/devices/d1"; "/devices/d1/payload"]
  /\ Forall (fun path => protected path = false)
       ["/login"; "/api/devices"; "/_next/static/chunk.js"; "/favicon.ico";
        "/logo.png"; "/public/logo"].
Proof. split; repeat constructor. Qed.

(** C8.  A navigation to a protected path that comes without a usable
    access cookie is answered with a redirect to the login page, and the
    dashboard, mounted without one, replaces the route by the login page
    before fetching anything.  The gate does not look into the token: with
    any non-empty cookie value whatever, the same navigation passes. *)
Theorem route_guard path jar w :
  protected path = true ->
  no_access_cookie jar = true ->
  has_token "accessToken" w = false ->
  Guard.gate (Guard.mkRequest path jar) = Guard.redirect "/login"
  /\ Guard.Dashboard_useEffect w = Some "/login"
  /\ forall token, token <> "" ->
       Guard.gate (Guard.mkRequest path (<["accessToken" := token]> jar))
       = Guard.next.
Proof.
  unfold protected, no_access_cookie, has_token.
  intros Hprot Hjar Hw.
  repeat (apply andb_prop in Hprot; destruct Hprot as [Hprot ?]).
  repeat match goal with
         | H : negb _ = true |- _ => apply negb_true_iff in H
         end.
  assert (Hmw : forall jar',
    Guard.middleware (Guard.mkRequest path jar')
    = match jar' !! "accessToken" with
      | Some token =>
          if truthy_string token then Guard.next else Guard.redirect "/login"
      | None => Guard.redirect "/login"
      end).
  { intros jar'. unfold Guard.middleware. cbn [Guard.pathname Guard.request_cookies].
    repeat match goal with
           | H : _ = false |- _ => rewrite H
           end.
    reflexivity. }
  split; [|split].
  - unfold Guard.gate. cbn [Guard.pathname]. rewrite Hprot, Hmw.
    destruct (jar !! "accessToken") as [token|]; [|reflexivity].
    apply negb_true_iff in Hjar. rewrite Hjar. reflexivity.
  - unfold Guard.Dashboard_useEffect.
    destruct (Cookies.get "accessToken" (cookies w)) as [token|];
      [|reflexivity].
    rewrite Hw. reflexivity.
  - intros token Hne. unfold Guard.gate. cbn [Guard.pathname].
    rewrite Hprot, Hmw, lookup_insert_eq.
    unfold truthy_string.
    destruct (String.eqb_spec token ""); [contradiction|reflexivity].
Qed.

End RouteGuard.

Lemma route_guard_witness :
  let w := mkWorld ∅ "/dashboard" 0 [] in
  (protected "/dashboard" = true
   /\ no_access_cookie ∅ = true
   /\ has_token "accessToken" w = false)
  /\ Guard.gate (Guard.mkRequest "/dashboard" ∅) = Guard.redirect "/login"
  /\ Guard.Dashboard_useEffect w = Some "/login"
  /\ forall token, token <> "" ->
       Guard.gate (Guard.mkRequest "/dashboard" (<["accessToken" := token]> ∅))
       = Guard.next.
Proof.
  intros w. split; [repeat split|].
  apply (route_guard "/dashboard" ∅ w); reflexivity.
Defined.

(** ** Devices page: delete *)

Section DevicesDelete.
Import Page.

Variable server : list AxiosRequestConfig -> AxiosRequestConfig -> net_result.
Variable fuel : nat.

Lemma without_id_filter id items :
  Forall (fun device => is_nullish device = false) items ->
  Devices.without_id id (VArr items)
  = Normal (List.filter (other_id id) items).
Proof.
  unfold Devices.without_id.
  induction 1 as [|device items Hdev _ IH]; [reflexivity|].
  cbn [filter_throwing]. rewrite IH.
  destruct device; try discriminate Hdev; reflexivity.
Qed.

Lemma filter_throwing_filter {E A} (keep : A -> completion E bool)
    (p : A -> bool) items rows :
  filter_throwing keep items = Normal rows ->
  filter_throwing keep (List.filter p items) = Normal (List.filter p rows).
Proof.
  revert rows. induction items as [|x items IH]; intros rows.
  - intros [= <-]. reflexivity.
  - cbn [filter_throwing].
    destruct (keep x) as [b|] eqn:Hk; [|discriminate]. cbn [bind].
    destruct (filter_throwing keep items) as [ys|]; [|discriminate].
    cbn [bind]. intros [= <-]. specialize (IH ys eq_refl).
    cbn [List.filter]. destruct (p x) eqn:Hp.
    + cbn [filter_throwing]. rewrite Hk, IH. cbn [bind].
      destruct b; cbn [List.filter]; rewrite ?Hp; reflexivity.
    + rewrite IH. destruct b; cbn [List.filter]; rewrite ?Hp; reflexivity.
Qed.

(** Requests caused by a DELETE are that DELETE or refresh traffic: the
    list is not fetched again. *)
Lemma delete_log id w :
  exists sent : list AxiosRequestConfig,
    log (fst (request server fuel (delete_config ("/devices/" +:+ id)) w))
    = (log w ++ sent)%list
    /\ Forall (fun c => method c = DELETE \/ is_refresh_call c = true) sent.
Proof.
  destruct (request_log server fuel (delete_config ("/devices/" +:+ id)) w)
    as (l & Hl & Hall).
  exists l. split; [exact Hl|].
  eapply Forall_impl; [exact Hall|]. simpl. intros c Hc.
  apply orb_prop in Hc. destruct Hc as [Hc|Hc]; [left|right; exact Hc].
  unfold same_target in Hc. apply andb_prop in Hc. destruct Hc as [Hc _].
  simpl in Hc. destruct (method c); try discriminate; reflexivity.
Qed.

(** C9.  Declining the confirmation sends nothing and leaves the page as
    it is, whatever its state.  When the user confirms and the DELETE for
    identifier [id] succeeds, the list in the view state is the previous
    list (an array of rows) without the rows whose [id] is [id], the others
    unchanged and in order, and so are the rows left by the current
    search.  What is rendered is the current page of those rows: no row
    with that [id] is among them and each is a row of before; they are the
    rows rendered before without those of that [id] when the rows under
    the search fit on the first page, and otherwise rows of the following
    page move up.  The error banner is cleared; the page is not reloaded,
    and nothing but the DELETE (and token refresh, if needed) went on the
    wire. *)
Theorem devices_delete id s w w1 r items :
  Devices.devices s = VArr items ->
  Forall (fun device => is_nullish device = false) items ->
  request server fuel (delete_config ("/devices/" +:+ id)) w
    = (w1, Resolved r) ->
  (forall s0 w0, Devices.handleDelete server fuel false id s0 w0
                 = (w0, Normal s0))
  /\ (exists s',
        Devices.handleDelete server fuel true id s w = (w1, Normal s')
        /\ Devices.devices s' = VArr (List.filter (other_id id) items)
        /\ (forall rows, Devices.filteredDevices s = Normal rows ->
              Devices.filteredDevices s'
              = Normal (List.filter (other_id id) rows)
              /\ shown s'
                 = take (Devices.rowsPerPage s)
                     (drop (Devices.page s * Devices.rowsPerPage s)
                        (List.filter (other_id id) rows))
              /\ Forall (fun device =>
                           other_id id device = true /\ In device rows)
                        (shown s')
              /\ (Devices.page s = 0%nat ->
                  (length rows <= Devices.rowsPerPage s)%nat ->
                  shown s' = List.filter (other_id id) (shown s)))
        /\ Devices.error s' = VNull)
  /\ href w1 = href w
  /\ page_loads w1 = page_loads w
  /\ exists rest : list AxiosRequestConfig,
       log w1
       = (log w
          ++ request_interceptor w (delete_config ("/devices/" +:+ id))
          :: rest)%list
       /\ Forall (fun c => method c = DELETE \/ is_refresh_call c = true) rest.
Proof.
  intros Hdev Hrows Hdel.
  split; [reflexivity|]. split; [|split; [|split]].
  - unfold Devices.handleDelete. cbn [negb]. rewrite Hdel.
    cbn [await bind]. rewrite Hdev, (without_id_filter id items Hrows).
    cbn [lift]. eexists. split; [reflexivity|].
    split; [reflexivity|]. split; [|reflexivity].
    intros rows Hfiltered.
    assert (Hafter :
      Devices.filteredDevices
        (Devices.setError VNull
           (Devices.setDevices (VArr (List.filter (other_id id) items)) s))
      = Normal (List.filter (other_id id) rows)).
    { revert Hfiltered. unfold Devices.filteredDevices. rewrite Hdev.
      cbn [Devices.devices Devices.setDevices Devices.setError
           Devices.searchTerm].
      apply filter_throwing_filter. }
    assert (Hshown :
      shown (Devices.setError VNull
               (Devices.setDevices (VArr (List.filter (other_id id) items)) s))
      = take (Devices.rowsPerPage s)
          (drop (Devices.page s * Devices.rowsPerPage s)
             (List.filter (other_id id) rows))).
    { unfold shown, Devices.paginatedDevices. rewrite Hafter. reflexivity. }
    split; [exact Hafter|]. split; [exact Hshown|]. split.
    + rewrite Hshown. apply Forall_take, Forall_drop.
      apply List.Forall_forall. intros device Hin.
      apply List.filter_In in Hin. destruct Hin as [Hin Hother]. auto.
    + intros Hpage Hfit. rewrite Hshown.
      unfold shown, Devices.paginatedDevices. rewrite Hfiltered.
      cbn [bind]. rewrite Hpage. cbn [Nat.mul drop].
      rewrite (take_ge rows) by exact Hfit.
      apply take_ge.
      etransitivity; [apply List.filter_length_le|exact Hfit].
  - apply (request_resolved_no_reload server fuel _ _ _ _ Hdel).
  - apply (request_resolved_no_reload server fuel _ _ _ _ Hdel).
  - destruct (delete_log id w) as (l & Hl & Hall).
    rewrite Hdel in Hl. cbn [fst] in Hl.
    destruct fuel as [|n]; [discriminate Hdel|].
    destruct (request_first_sent server n
                (delete_config ("/devices/" +:+ id)) w) as (rest & Hrest).
    rewrite Hdel in Hrest. cbn [fst] in Hrest.
    rewrite Hrest in Hl. apply app_inv_head in Hl. subst l.
    exists rest. split; [exact Hrest|].
    inversion Hall; assumption.
Qed.

End DevicesDelete.

Lemma devices_delete_witness :
  let srv := Scenario.fixed_body_server VNull in
  let s := Scenario.two_devices in
  let w := Scenario.logged_in in
  let w1 := fst (request srv 1 (delete_config "/devices/d1") w) in
  (forall s0 w0, Devices.handleDelete srv 1 false "d1" s0 w0 = (w0, Normal s0))
  /\ (exists s',
        Devices.handleDelete srv 1 true "d1" s w = (w1, Normal s')
        /\ Devices.devices s'
           = VArr (List.filter (other_id "d1") [Scenario.sensor; Scenario.gateway])
        /\ (forall rows, Devices.filteredDevices s = Normal rows ->
              Devices.filteredDevices s'
              = Normal (List.filter (other_id "d1") rows)
              /\ shown s'
                 = take (Devices.rowsPerPage s)
                     (drop (Devices.page s * Devices.rowsPerPage s)
                        (List.filter (other_id "d1") rows))
              /\ Forall (fun device =>
                           other_id "d1" device = true /\ In device rows)
                        (shown s')
              /\ (Devices.page s = 0%nat ->
                  (length rows <= Devices.rowsPerPage s)%nat ->
                  shown s' = List.filter (other_id "d1") (shown s)))
        /\ Devices.error s' = VNull)
  /\ href w1 = href w
  /\ page_loads w1 = page_loads w
  /\ exists rest : list AxiosRequestConfig,
       log w1
       = (log w ++ request_interceptor w (delete_config "/devices/d1") :: rest)%list
       /\ Forall (fun c => method c = DELETE \/ is_refresh_call c = true) rest.
Proof.
  intros srv s w w1.
  apply (devices_delete srv 1 "d1" s w w1 (mkResponse 200 VNull)
           [Scenario.sensor; Scenario.gateway]).
  - reflexivity.
  - repeat constructor.
  - reflexivity.
Defined.

(** C9 as it is written fails when the rows do not fit on one page.  The
    table shows one row a page and holds the sensor [d1], the gateway [d2]
    and the logger [d3]; the first page shows the sensor.  The DELETE of
    [d1] succeeds.  The rows rendered before, without those of id [d1],
    are none, and the list of before without them is the gateway and the
    logger; the table now shows the gateway alone, which has moved up
    from the second page. *)
Lemma devices_delete_next_row_moves_up :
  let srv := Scenario.fixed_body_server VNull in
  let s := Scenario.three_pages in
  let w := Scenario.logged_in in
  snd (request srv 1 (delete_config "/devices/d1") w)
  = Resolved (mkResponse 200 VNull)
  /\ shown s = [Scenario.sensor]
  /\ List.filter (other_id "d1") (shown s) = []
  /\ List.filter (other_id "d1")
       [Scenario.sensor; Scenario.gateway; Scenario.logger]
     = [Scenario.gateway; Scenario.logger]
  /\ match snd (Devices.handleDelete srv 1 true "d1" s w) with
     | Normal s' =>
         shown s' = [Scenario.gateway]
         /\ shown s' <> List.filter (other_id "d1") (shown s)
         /\ shown s'
            <> List.filter (other_id "d1")
                 [Scenario.sensor; Scenario.gateway; Scenario.logger]
     | Throw _ => False
     end.
Proof.
  vm_compute. repeat split; discriminate.
Qed.

(** On the concrete page: the sensor is gone, the gateway stays. *)
Lemma devices_delete_example :
  List.filter (other_id "d1") [Scenario.sensor; Scenario.gateway]
  = [Scenario.gateway].
Proof. reflexivity. Qed.

(* ===================================================================== *)
(** * Further properties of the client *)
(* ===================================================================== *)

Section ClientMore.

Variable server : list AxiosRequestConfig -> AxiosRequestConfig -> net_result.

(** X1.  What the request interceptor does to a request, seen on the wire: with
    fuel left the first thing sent is the caller's request with the stored
    access token as bearer credential, every other header, the method, the
    URL, the body and the retry marker being the caller's; without a usable
    access token the request goes out exactly as the caller gave it. *)
Theorem first_request_carries_token n config w :
  let sent := request_interceptor w config in
  (exists rest : list AxiosRequestConfig,
     log (fst (request server (S n) config w)) = (log w ++ sent :: rest)%list)
  /\ method sent = method config
  /\ url sent = url config
  /\ payload sent = payload config
  /\ _retry sent = _retry config
  /\ match Cookies.get "accessToken" (cookies w) with
     | Some token =>
         if truthy_string token then
           headers sent !! "Authorization" = Some ("Bearer " +:+ token)
           /\ forall k, k <> "Authorization" ->
                headers sent !! k = headers config !! k
         else sent = config
     | None => sent = config
     end.
Proof.
  intros sent.
  destruct (request_interceptor_target w config) as (Hm & Hu & Hp).
  split; [apply request_first_sent|].
  repeat split; try assumption.
  - apply request_interceptor_retry.
  - unfold sent, request_interceptor.
    destruct (Cookies.get "accessToken" (cookies w)) as [token|];
      [|reflexivity].
    destruct (truthy_string token); [|reflexivity].
    unfold set_header. cbn [headers]. split.
    + apply lookup_insert_eq.
    + intros k Hk. apply lookup_insert_ne. congruence.
Qed.

(** X2.  Only a first 401 sets the refresh protocol going.  Whatever else the
    server answers -- success, any other status, no answer at all, or a 401
    to a request that carries the retry marker -- the promise settles at
    once with that answer, one request has gone on the wire, and the
    cookies and the location are untouched. *)
Theorem settles_at_once n config w :
  let sent := request_interceptor w config in
  match server (log w) sent with
  | Answer st _ => st <> 401 \/ _retry config = true
  | NetworkError => True
  end ->
  request server (S n) config w
  = (with_log (log w ++ [sent]) w, settled sent (server (log w) sent)).
Proof.
  intros sent H. cbn [request]. fold sent. unfold adapter, settled.
  destruct (server (log w) sent) as [st body|]; [|reflexivity].
  destruct (validateStatus st); [reflexivity|].
  unfold on_rejected.
  cbn [is_401 response_status fmap option_fmap option_map status].
  destruct H as [Hne | Hretried].
  - destruct (Z.eqb_spec st 401); [contradiction|reflexivity].
  - unfold sent at 1. rewrite request_interceptor_retry, Hretried.
    rewrite andb_false_r. reflexivity.
Qed.

(** X3.  The client sends the browser to the login page only together with a
    rejection, and never without having removed both tokens: after any
    call, either no page load was caused, or the promise is rejected, the
    location is the login page and neither cookie is left. *)
Theorem redirect_only_with_cleared_session n :
  forall config w,
    let '(w', o) := request server n config w in
    page_loads w' = page_loads w
    \/ ((exists e, o = Rejected e)
        /\ href w' = "/login"
        /\ Cookies.get "accessToken" (cookies w') = None
        /\ Cookies.get "refreshToken" (cookies w') = None).
Proof.
  induction n as [|n IH]; intros config w; [left; reflexivity|].
  cbn [request].
  pose proof (adapter_world server (request_interceptor w config) w) as Hw.
  destruct (adapter server (request_interceptor w config) w)
    as [w1 [r|err]]; simpl in Hw; subst w1; [left; reflexivity|].
  unfold on_rejected.
  destruct err as [c1 resp| |]; try (left; reflexivity).
  destruct (is_401 resp && negb (_retry c1)); [|left; reflexivity].
  set (w1 := with_log _ w).
  assert (Hcatch : forall wx e,
    let wy := catch_block wx in
    page_loads wy = page_loads w
    \/ ((exists e', Rejected e = Rejected e')
        /\ href wy = "/login"
        /\ Cookies.get "accessToken" (cookies wy) = None
        /\ Cookies.get "refreshToken" (cookies wy) = None)).
  { intros wx e wy. right.
    destruct (catch_block_cleared wx) as (Ha & Hr & Hh & _).
    split; [eauto|]. auto. }
  unfold try_block.
  destruct (Cookies.get "refreshToken" (cookies w1)) as [rt|];
    [|apply Hcatch].
  destruct (truthy_string rt); [|apply Hcatch].
  specialize (IH (refresh_request rt) w1) as IHr.
  destruct (request server n (refresh_request rt) w1) as [w2 [r|e|]].
  - destruct IHr as [Hsame | ((e & He) & _)]; [|discriminate He].
    destruct (member (data r) "accessToken"); [|apply Hcatch].
    destruct (member (data r) "refreshToken"); [|apply Hcatch].
    match goal with
    | |- context [request server n ?cx ?wx] =>
        specialize (IH cx wx); destruct (request server n cx wx) as [w3 o3]
    end.
    destruct IH as [Hsame3 | Hred]; [left|right; exact Hred].
    rewrite Hsame3. exact Hsame.
  - apply Hcatch.
  - destruct IHr as [Hsame | ((e & He) & _)]; [|discriminate He].
    left. exact Hsame.
Qed.

End ClientMore.

Lemma settles_at_once_witness :
  let w := Scenario.stale_session in
  request Scenario.broken_refresh_server 1 (refresh_request "R1") w
  = (with_log (log w ++ [request_interceptor w (refresh_request "R1")]) w,
     settled (request_interceptor w (refresh_request "R1"))
       (Scenario.broken_refresh_server (log w)
          (request_interceptor w (refresh_request "R1")))).
Proof.
  intros w.
  apply (settles_at_once Scenario.broken_refresh_server 0
           (refresh_request "R1") w).
  left. discriminate.
Defined.

Lemma one_refresh_one_retry_witness :
  let w := Scenario.stale_session in
  let '(w', o) :=
    request Scenario.healthy_server 2 (get_config "/devices") w in
  o = Resolved (mkResponse 200 (VArr []))
  /\ List.map (fun c => (method c, url c, _retry c)) (log w')
     = [(GET, "/devices", false); (POST, "/auth/refresh", false);
        (GET, "/devices", true)]
  /\ cookies w' !! "accessToken" = Some (mkCookie "A2" 1)
  /\ cookies w' !! "refreshToken" = Some (mkCookie "R2" 7).
Proof.
  intros w.
  pose proof (one_refresh_one_retry Scenario.healthy_server 0
                (get_config "/devices") w
                (VObj [("message", VStr "Unauthorized")]) "R1" 200
                Scenario.fresh_tokens eq_refl eq_refl eq_refl eq_refl
                eq_refl eq_refl eq_refl) as (H & _ & _).
  cbv zeta in H. rewrite H. vm_compute. repeat split.
Defined.


(* ===================================================================== *)
(** * Login *)
(* ===================================================================== *)

Section LoginFacts.
Import Page.

Variable server : list AxiosRequestConfig -> AxiosRequestConfig -> net_result.

(** A first 401 with no usable refresh token: the [catch] block runs on the
    spot. *)
Lemma request_401_no_token n config w body :
  _retry config = false ->
  server (log w) (request_interceptor w config) = Answer 401 body ->
  has_token "refreshToken" w = false ->
  request server (S n) config w
  = (catch_block (with_log (log w ++ [request_interceptor w config]) w),
     Rejected (Error "No refresh token available")).
Proof.
  intros Hfresh H401 Hnone.
  rewrite (request_401 server n config w body Hfresh H401).
  unfold try_block. unfold has_token in Hnone.
  change (cookies (with_log _ w)) with (cookies w).
  destruct (Cookies.get "refreshToken" (cookies w)) as [rt|]; [|reflexivity].
  rewrite Hnone. reflexivity.
Qed.

Lemma login_resolved fuel d s w w1 r :
  request server fuel (post_config "/auth/login" (Login.encode d)) w
  = (w1, Resolved r) ->
  is_nullish (data r) = false ->
  let access := toString (opt_member (data r) "accessToken") in
  let refresh := toString (opt_member (data r) "refreshToken") in
  Login.onSubmit server fuel d s w
  = (with_cookies
       (Cookies.set "refreshToken" refresh 7
          (Cookies.set "accessToken" access 1 (cookies w1))) w1,
     Normal (Login.mkState false VNull "/dashboard"
               (Some ("Bearer " +:+ access)))).
Proof.
  intros Hr Hbody access refresh. unfold Login.onSubmit. rewrite Hr.
  cbn [await bind].
  assert (Hm : forall k, member (data r) k = Normal (opt_member (data r) k)).
  { intros k. destruct (data r); try reflexivity; discriminate. }
  rewrite !Hm. reflexivity.
Qed.

(** X6.  A login that the server answers with success and a body that is not
    [null]: both tokens are stored, the access token for one day and the
    refresh token for seven, as the text of whatever the body holds under
    [accessToken] and [refreshToken]; the default bearer header is set, the
    route becomes the dashboard, the spinner is off and no error is shown;
    nothing more is sent and the page is not reloaded. *)
Theorem login_stores_session fuel d s w w1 r :
  request server fuel (post_config "/auth/login" (Login.encode d)) w
  = (w1, Resolved r) ->
  is_nullish (data r) = false ->
  let access := toString (opt_member (data r) "accessToken") in
  let refresh := toString (opt_member (data r) "refreshToken") in
  let '(w', result) := Login.onSubmit server fuel d s w in
  result = Normal (Login.mkState false VNull "/dashboard"
                     (Some ("Bearer " +:+ access)))
  /\ cookies w' !! "accessToken" = Some (mkCookie access 1)
  /\ cookies w' !! "refreshToken" = Some (mkCookie refresh 7)
  /\ log w' = log w1
  /\ href w' = href w
  /\ page_loads w' = page_loads w.
Proof.
  intros Hr Hbody access refresh.
  rewrite (login_resolved fuel d s w w1 r Hr Hbody).
  destruct (request_resolved_no_reload server fuel _ _ _ _ Hr) as (Hh & Hp).
  cbn [cookies with_cookies log href page_loads]. unfold Cookies.set.
  split; [reflexivity|]. split; [|split; [|split; [reflexivity|split]]].
  - rewrite lookup_insert_ne by discriminate. apply lookup_insert_eq.
  - apply lookup_insert_eq.
  - exact Hh.
  - exact Hp.
Qed.

(** X7.  After such a login, whenever the text stored as access token is not
    empty, a navigation to a protected page with the cookies of the jar is
    let through, and the dashboard's mount check passes.  The token need
    not be one: a body without [accessToken] stores the text [undefined],
    which passes as well. *)
Theorem login_then_protected_page fuel d s w w1 r path :
  request server fuel (post_config "/auth/login" (Login.encode d)) w
  = (w1, Resolved r) ->
  is_nullish (data r) = false ->
  toString (opt_member (data r) "accessToken") <> "" ->
  protected path = true ->
  let w' := fst (Login.onSubmit server fuel d s w) in
  Guard.gate (Guard.mkRequest path (sent_cookies (cookies w'))) = Guard.next
  /\ Guard.Dashboard_useEffect w' = None.
Proof.
  intros Hr Hbody Hne Hprot w'.
  unfold w'. rewrite (login_resolved fuel d s w w1 r Hr Hbody).
  cbn [fst cookies with_cookies].
  set (access := toString (opt_member (data r) "accessToken")) in *.
  assert (Htruthy : truthy_string access = true).
  { unfold truthy_string. destruct (String.eqb_spec access "");
      [contradiction|reflexivity]. }
  split.
  - unfold protected in Hprot.
    repeat (apply andb_prop in Hprot; destruct Hprot as [Hprot ?]).
    repeat match goal with
           | H : negb _ = true |- _ => apply negb_true_iff in H
           end.
    unfold Guard.gate, Guard.middleware.
    cbn [Guard.pathname Guard.request_cookies].
    rewrite Hprot.
    repeat match goal with
           | H : _ = false |- _ => rewrite H
           end.
    cbn [orb]. unfold sent_cookies, Cookies.set.
    rewrite lookup_fmap, lookup_insert_ne by discriminate.
    rewrite lookup_insert_eq. cbn. rewrite Htruthy. reflexivity.
  - unfold Guard.Dashboard_useEffect, Cookies.get, Cookies.set.
    cbn [cookies with_cookies].
    rewrite lookup_insert_ne by discriminate.
    rewrite lookup_insert_eq. cbn. rewrite Htruthy. reflexivity.
Qed.

(** X8.  Wrong credentials.  The login request is answered 401 and, as is usual
    on the login page, no refresh token is stored.  The 401 is handled like
    any other: the browser is sent to the login page by a full page load,
    and what the form shows is not the server's message but [An unexpected
    error occurred]; nothing is stored and the route is not changed. *)
Theorem login_401_reloads_login_page n d s w body :
  server (log w)
    (request_interceptor w (post_config "/auth/login" (Login.encode d)))
  = Answer 401 body ->
  has_token "refreshToken" w = false ->
  let '(w', result) := Login.onSubmit server (S n) d s w in
  result = Normal (Login.mkState false (VStr "An unexpected error occurred")
                     (Login.route s) (Login.defaults_Authorization s))
  /\ href w' = "/login"
  /\ page_loads w' = S (page_loads w)
  /\ Cookies.get "accessToken" (cookies w') = None
  /\ Cookies.get "refreshToken" (cookies w') = None
  /\ log w'
     = (log w ++ [request_interceptor w
                    (post_config "/auth/login" (Login.encode d))])%list.
Proof.
  intros H401 Hnone. unfold Login.onSubmit.
  rewrite (request_401_no_token n
             (post_config "/auth/login" (Login.encode d)) w body
             eq_refl H401 Hnone).
  cbn [await bind].
  destruct (catch_block_cleared
              (with_log (log w ++ [request_interceptor w
                 (post_config "/auth/login" (Login.encode d))]) w))
    as (Ha & Hr & Hh & Hl).
  repeat split; assumption.
Qed.

(** A form the schema refuses -- an address that is no e-mail address, a
    password of fewer than six characters, a missing value -- is not sent. *)
Lemma login_invalid_not_sent fuel is_email email password s w :
  Login.loginSchema is_email email password = None ->
  Login.handleSubmit server fuel is_email email password s w = (w, Normal s).
Proof. intros H. unfold Login.handleSubmit. rewrite H. reflexivity. Qed.

End LoginFacts.

Lemma login_stores_session_witness :
  let srv := Scenario.fixed_body_server Scenario.fresh_tokens in
  let w := Scenario.anonymous in
  let '(w', result) :=
    Login.onSubmit srv 1 Scenario.credentials Scenario.login_start w in
  result = Normal (Login.mkState false VNull "/dashboard" (Some "Bearer A2"))
  /\ cookies w' !! "accessToken" = Some (mkCookie "A2" 1)
  /\ cookies w' !! "refreshToken" = Some (mkCookie "R2" 7)
  /\ log w'
     = log (fst (request srv 1
                   (post_config "/auth/login"
                      (Login.encode Scenario.credentials)) w))
  /\ href w' = href w
  /\ page_loads w' = page_loads w.
Proof.
  intros srv w.
  apply (login_stores_session srv 1 Scenario.credentials Scenario.login_start
           w
           (fst (request srv 1
                   (post_config "/auth/login"
                      (Login.encode Scenario.credentials)) w))
           (mkResponse 200 Scenario.fresh_tokens)); reflexivity.
Defined.

Lemma login_then_protected_page_witness :
  let srv := Scenario.fixed_body_server Scenario.fresh_tokens in
  let w' :=
    fst (Login.onSubmit srv 1 Scenario.credentials Scenario.login_start
           Scenario.anonymous) in
  Guard.gate (Guard.mkRequest "/dashboard" (sent_cookies (cookies w')))
  = Guard.next
  /\ Guard.Dashboard_useEffect w' = None.
Proof.
  intros srv.
  apply (login_then_protected_page srv 1 Scenario.credentials
           Scenario.login_start Scenario.anonymous
           (fst (request srv 1
                   (post_config "/auth/login"
                      (Login.encode Scenario.credentials))
                   Scenario.anonymous))
           (mkResponse 200 Scenario.fresh_tokens) "/dashboard");
    try reflexivity.
  discriminate.
Defined.

Lemma login_401_reloads_login_page_witness :
  let w := Scenario.anonymous in
  let '(w', result) :=
    Login.onSubmit Scenario.always_401 1 Scenario.credentials
      Scenario.login_start w in
  result = Normal (Login.mkState false (VStr "An unexpected error occurred")
                     "/login" None)
  /\ href w' = "/login"
  /\ page_loads w' = 1%nat
  /\ Cookies.get "accessToken" (cookies w') = None
  /\ Cookies.get "refreshToken" (cookies w') = None
  /\ log w'
     = (log w ++ [request_interceptor w
                    (post_config "/auth/login"
                       (Login.encode Scenario.credentials))])%list.
Proof.
  intros w.
  apply (login_401_reloads_login_page Scenario.always_401 0
           Scenario.credentials Scenario.login_start w
           (VObj [("message", VStr "Unauthorized")])); reflexivity.
Defined.

(* ===================================================================== *)
(** * Users page, further *)
(* ===================================================================== *)

Section UsersMore.
Import Page.

Variable server : list AxiosRequestConfig -> AxiosRequestConfig -> net_result.

Lemma handleApiError_truthy (error : value) :
  exists message,
    handleApiError error = Normal message /\ truthy message = true.
Proof.
  unfold handleApiError.
  destruct (isAxiosError error) eqn:Hax; [|eexists; split; reflexivity].
  destruct (isAxiosError_object error Hax) as [props ->].
  cbn [member bind]. unfold JS.or.
  destruct (truthy (opt_member (opt_member (lookup_prop "response" props)
                                  "data") "message")) eqn:Ht;
    eexists; (split; [reflexivity|]); [exact Ht | reflexivity].
Qed.

(** X5.  Whatever it is given, [handleApiError] hands back something truthy,
    never the empty string, [null] or [undefined]: a page that shows its
    error state when it is truthy shows a banner for every failure. *)
Theorem handleApiError_never_blank (error : value) :
  exists message,
    handleApiError error = Normal message
    /\ truthy message = true
    /\ message <> VStr "" /\ message <> VNull /\ message <> VUndefined.
Proof.
  destruct (handleApiError_truthy error) as (m & Hm & Ht).
  exists m. repeat split; try assumption; intros ->; discriminate Ht.
Qed.

(** X9.  The two naming conventions are not treated alike.  A row sent back in
    camelCase is read as it is, but for an [id] that is falsy; in a row
    sent in snake_case every falsy value of a renamed field ([""], [0],
    [false], [null]) is lost and read as [undefined]. *)
Theorem normalize_conventions (r : Users.User.t) :
  Users.normalize (camel_user r)
  = Normal (Users.User.mk (if_truthy (Users.User.id r)) (Users.User.email r)
              (Users.User.firstName r) (Users.User.lastName r)
              (Users.User.role r) (Users.User.status r)
              (Users.User.companyId r) (Users.User.createdAt r)
              (Users.User.updatedAt r))
  /\ Users.normalize (snake_user r)
     = Normal (Users.User.mk (if_truthy (Users.User.id r)) (Users.User.email r)
                 (if_truthy (Users.User.firstName r))
                 (if_truthy (Users.User.lastName r))
                 (Users.User.role r) (Users.User.status r)
                 (if_truthy (Users.User.companyId r))
                 (if_truthy (Users.User.createdAt r))
                 (if_truthy (Users.User.updatedAt r))).
Proof.
  destruct r as [id email fn ln role status co cr up].
  unfold Users.normalize, camel_user, snake_user, coalesce, if_truthy.
  cbn [Users.User.id Users.User.email Users.User.firstName
       Users.User.lastName Users.User.role Users.User.status
       Users.User.companyId Users.User.createdAt Users.User.updatedAt].
  split.
  - cbn. destruct (truthy id); reflexivity.
  - cbn. destruct (truthy id), (truthy fn), (truthy ln), (truthy co),
      (truthy cr), (truthy up); reflexivity.
Qed.

(** X10.  [fetchUsers] never throws, and leaves the page in one of three ways:
    still loading, untouched, while the request is pending; rows and no
    error; or no rows and an error that shows.  Rows and an error never
    come out of it together, and the spinner is off once the request has
    settled. *)
Theorem fetchUsers_outcomes fuel s w :
  let '(w', result) := Users.fetchUsers server fuel s w in
  exists s',
    result = Normal s'
    /\ w' = fst (request server fuel (get_config "/users") w)
    /\ match snd (request server fuel (get_config "/users") w) with
       | Pending =>
           Users.loading s' = true
           /\ Users.users s' = Users.users s
           /\ Users.error s' = Users.error s
       | _ =>
           Users.loading s' = false
           /\ (Users.error s' = VNull
               \/ (Users.users s' = [] /\ truthy (Users.error s') = true))
       end.
Proof.
  unfold Users.fetchUsers, Users.api.
  destruct (request server fuel (get_config "/users") w) as [w1 [r|e|]];
    cbn [await bind fst snd].
  - destruct (Users.usersWithIds r) as [rows|err].
    + eexists. split; [reflexivity|]. split; [reflexivity|].
      split; [reflexivity|]. left. reflexivity.
    + destruct (handleApiError_truthy (failure_value err))
        as (m & -> & Hm).
      eexists. split; [reflexivity|]. split; [reflexivity|].
      split; [reflexivity|]. right. split; [reflexivity|exact Hm].
  - destruct (handleApiError_truthy (failure_value e)) as (m & -> & Hm).
    eexists. split; [reflexivity|]. split; [reflexivity|].
    split; [reflexivity|]. right. split; [reflexivity|exact Hm].
  - eexists. split; [reflexivity|]. split; [reflexivity|].
    repeat split.
Qed.

(** X11.  Deleting a user.  Declined: nothing is sent, nothing changes.
    Confirmed: the DELETE for the row's [id] is the first thing sent; if it
    succeeds the list is fetched again from the server (the next request
    is the GET of the list), and if it fails the rows stay as they are and
    an error shows. *)
Theorem users_delete n id s w :
  Users.handleDelete server (S n) false id s w = (w, Normal s)
  /\ (exists rest : list AxiosRequestConfig,
        log (fst (Users.handleDelete server (S n) true id s w))
        = (log w
           ++ request_interceptor w
                (delete_config ("/users/" +:+ toString id))
           :: rest)%list)
  /\ match request server (S n) (delete_config ("/users/" +:+ toString id)) w
     with
     | (w1, Resolved _) =>
         Users.handleDelete server (S n) true id s w
         = Users.fetchUsers server (S n) s w1
         /\ exists rest : list AxiosRequestConfig,
              log (fst (Users.handleDelete server (S n) true id s w))
              = (log w1 ++ request_interceptor w1 (get_config "/users")
                 :: rest)%list
     | (w1, Rejected e) =>
         exists message,
           Users.handleDelete server (S n) true id s w
           = (w1, Normal (Users.setError message s))
           /\ truthy message = true
     | (w1, Pending) =>
         Users.handleDelete server (S n) true id s w = (w1, Normal s)
     end.
Proof.
  split; [reflexivity|].
  unfold Users.handleDelete, Users.api. cbn [negb].
  destruct (request_first_sent server n
              (delete_config ("/users/" +:+ toString id)) w) as (l & Hl).
  destruct (request server (S n) (delete_config ("/users/" +:+ toString id)) w)
    as [w1 [r|e|]]; cbn [await fst] in *.
  - assert (Hget : exists rest : list AxiosRequestConfig,
      log (fst (Users.fetchUsers server (S n) s w1))
      = (log w1 ++ request_interceptor w1 (get_config "/users") :: rest)%list).
    { unfold Users.fetchUsers, Users.api.
      destruct (request_first_sent server n (get_config "/users") w1)
        as (l2 & Hl2).
      destruct (request server (S n) (get_config "/users") w1) as [w2 o].
      cbn [fst] in Hl2. exists l2.
      destruct (await o) as [[r2|e2]|]; cbn [bind]; try exact Hl2.
      destruct (Users.usersWithIds r2); exact Hl2. }
    split; [|split; [reflexivity|exact Hget]].
    destruct Hget as (l2 & Hl2). exists (l ++ request_interceptor w1
      (get_config "/users") :: l2)%list.
    rewrite Hl2, Hl, <- app_assoc. reflexivity.
  - destruct (handleApiError_truthy (failure_value e)) as (m & Hm & Ht).
    rewrite Hm. cbn [bind fst]. split; [exists l; exact Hl|].
    exists m. split; [reflexivity|exact Ht].
  - split; [exists l; exact Hl|reflexivity].
Qed.

End UsersMore.

(* ===================================================================== *)
(** * Roles page *)
(* ===================================================================== *)

Section RolesFacts.
Import Page.

Variable server : list AxiosRequestConfig -> AxiosRequestConfig -> net_result.

Lemma parse_capabilities_leaves v c k :
  Roles.parse_capabilities v = Some c ->
  In k ["view"; "create"; "edit"; "delete"] ->
  opt_member v k = opt_member (Roles.encode_capabilities c) k.
Proof.
  destruct v as [| | | | | |ps]; try discriminate. cbn [Roles.parse_capabilities].
  destruct (lookup_prop "view" ps) as [| |a| | | |] eqn:Ha; try discriminate.
  destruct (lookup_prop "create" ps) as [| |b| | | |] eqn:Hb; try discriminate.
  destruct (lookup_prop "edit" ps) as [| |e| | | |] eqn:He; try discriminate.
  destruct (lookup_prop "delete" ps) as [| |f| | | |] eqn:Hf; try discriminate.
  cbn. intros [= <-] Hk. cbn [opt_member].
  destruct Hk as [<-|[<-|[<-|[<-|[]]]]]; assumption.
Qed.

Lemma parse_permissions_leaves v p rc :
  Roles.parse_permissions v = Some p ->
  In rc leaves ->
  leaf v rc = leaf (Roles.encode_permissions p) rc.
Proof.
  destruct v as [| | | | | |ps]; try discriminate. cbn [Roles.parse_permissions].
  destruct (Roles.parse_capabilities (lookup_prop "devices" ps))
    as [a|] eqn:Ha; [|discriminate].
  destruct (Roles.parse_capabilities (lookup_prop "companies" ps))
    as [b|] eqn:Hb; [|discriminate].
  destruct (Roles.parse_capabilities (lookup_prop "users" ps))
    as [c|] eqn:Hc; [|discriminate].
  cbn. intros [= <-] Hrc. unfold leaf.
  assert (Hcases :
    (fst rc = "devices" \/ fst rc = "companies" \/ fst rc = "users")
    /\ In (snd rc) ["view"; "create"; "edit"; "delete"]).
  { unfold leaves in Hrc. cbn in Hrc.
    repeat (destruct Hrc as [<-|Hrc]; [cbn; auto 10|]). destruct Hrc. }
  destruct Hcases as ([Hr | [Hr | Hr]] & Hcap); rewrite Hr.
  - exact (parse_capabilities_leaves _ _ _ Ha Hcap).
  - exact (parse_capabilities_leaves _ _ _ Hb Hcap).
  - exact (parse_capabilities_leaves _ _ _ Hc Hcap).
Qed.

(** X12.  Editing a role.  The dialog is opened on a role of the list and the
    form is submitted as it is.  If the schema accepts it, the first
    request sent is a PUT to the role's URL and its payload is the role's
    name, its description and its permission matrix: each of the twelve
    leaves is a boolean and is the one of the role as fetched.  Nothing
    else of the role is sent. *)
Theorem role_edit_round_trip n role s d w data :
  truthy role = true ->
  Roles.roleSchema (Roles.form (Roles.handleOpen role d)) = Some data ->
  (exists rest : list AxiosRequestConfig,
     log (fst (Roles.handleSubmit server (S n) s (Roles.handleOpen role d) w))
     = (log w
        ++ request_interceptor w
             (put_config ("/roles/" +:+ toString (opt_member role "id"))
                         (Roles.encode data))
        :: rest)%list)
  /\ opt_member role "name" = VStr (Roles.name data)
  /\ opt_member role "description" = VStr (Roles.description data)
  /\ Forall (fun rc =>
               leaf (opt_member role "permissions") rc
               = leaf (Roles.encode_permissions (Roles.permissions data)) rc
               /\ exists b,
                    leaf (Roles.encode_permissions (Roles.permissions data)) rc
                    = VBool b)
            leaves.
Proof.
  intros Hrole Hschema.
  assert (Hform : Roles.form (Roles.handleOpen role d)
                  = VObj [("name", opt_member role "name");
                          ("description", opt_member role "description");
                          ("permissions", opt_member role "permissions")]).
  { unfold Roles.handleOpen. rewrite Hrole. reflexivity. }
  assert (Hediting : Roles.editingRole (Roles.handleOpen role d) = role).
  { unfold Roles.handleOpen. rewrite Hrole. reflexivity. }
  split.
  - unfold Roles.handleSubmit. rewrite Hschema.
    unfold Roles.onSubmit. rewrite Hediting, Hrole.
    set (c := put_config _ _).
    destruct (request_first_sent server n c w) as (l & Hl).
    destruct (request server (S n) c w) as [w1 o]. cbn [fst] in Hl.
    destruct (await o) as [[r|e]|].
    + destruct (request_extends server (S n) (get_config "/roles") w1)
        as (l2 & Hl2).
      unfold Roles.fetchRoles.
      destruct (request server (S n) (get_config "/roles") w1) as [w2 o2].
      cbn [fst] in Hl2. exists (l ++ l2)%list.
      destruct (await o2) as [[r2|e2]|]; cbn [bind fst];
        try destruct (Roles.checked_roles r2);
        cbn [fst]; rewrite Hl2, Hl, <- app_assoc; reflexivity.
    + exists l. exact Hl.
    + exists l. exact Hl.
  - rewrite Hform in Hschema. cbn [Roles.roleSchema lookup_prop String.eqb
      Ascii.eqb Bool.eqb] in Hschema. cbn in Hschema.
    destruct (Roles.string_min 1 (opt_member role "name")) as [nm|] eqn:Hn;
      [|discriminate].
    destruct (Roles.string_min 1 (opt_member role "description"))
      as [ds|] eqn:Hd; [|discriminate].
    destruct (Roles.parse_permissions (opt_member role "permissions"))
      as [pm|] eqn:Hp; [|discriminate].
    cbn in Hschema. injection Hschema as <-. cbn [Roles.name
      Roles.description Roles.permissions].
    split; [|split].
    + revert Hn. unfold Roles.string_min.
      destruct (opt_member role "name"); try discriminate.
      destruct (_ <=? _)%nat; congruence.
    + revert Hd. unfold Roles.string_min.
      destruct (opt_member role "description"); try discriminate.
      destruct (_ <=? _)%nat; congruence.
    + apply Forall_forall. intros rc Hrc. apply list_elem_of_In in Hrc.
      split; [exact (parse_permissions_leaves _ _ _ Hp Hrc)|].
      unfold leaves in Hrc. cbn in Hrc.
      repeat (destruct Hrc as [<-|Hrc]; [cbn; eauto|]). destruct Hrc.
Qed.

End RolesFacts.

Lemma role_edit_round_trip_witness :
  let server := Scenario.fixed_body_server (VObj []) in
  let w := Scenario.logged_in in
  let role := Scenario.operator in
  let data := Scenario.operator_data in
  (exists rest : list AxiosRequestConfig,
     log (fst (Roles.handleSubmit server 1 Scenario.roles_start
                 (Roles.handleOpen role Roles.closed) w))
     = (log w
        ++ request_interceptor w
             (put_config ("/roles/" +:+ toString (opt_member role "id"))
                         (Roles.encode data))
        :: rest)%list)
  /\ opt_member role "name" = VStr (Roles.name data)
  /\ opt_member role "description" = VStr (Roles.description data)
  /\ Forall (fun rc =>
               leaf (opt_member role "permissions") rc
               = leaf (Roles.encode_permissions (Roles.permissions data)) rc
               /\ exists b,
                    leaf (Roles.encode_permissions (Roles.permissions data)) rc
                    = VBool b)
            leaves.
Proof.
  intros server w role data.
  apply (role_edit_round_trip server 0 role Scenario.roles_start Roles.closed
           w data); reflexivity.
Defined.

(* ===================================================================== *)
(** * Devices page: the table *)
(* ===================================================================== *)

Section DevicesTable.
Import Page.

Variable server : list AxiosRequestConfig -> AxiosRequestConfig -> net_result.

Lemma lower_char_idem (c : ascii) :
  let lower c :=
    let n := Ascii.nat_of_ascii c in
    if ((65 <=? n) && (n <=? 90))%nat then Ascii.ascii_of_nat (n + 32) else c in
  lower (lower c) = lower c.
Proof.
  cbv beta zeta.
  destruct ((65 <=? nat_of_ascii c) && (nat_of_ascii c <=? 90))%nat eqn:Hup;
    [|rewrite Hup; reflexivity].
  apply andb_prop in Hup. destruct Hup as [Hlo Hhi].
  apply Nat.leb_le in Hlo, Hhi.
  rewrite nat_ascii_embedding by lia.
  replace (nat_of_ascii c + 32 <=? 90)%nat with false
    by (symmetry; apply Nat.leb_gt; lia).
  rewrite andb_false_r. reflexivity.
Qed.

Lemma toLowerCase_idem (s : string) :
  Devices.toLowerCase (Devices.toLowerCase s) = Devices.toLowerCase s.
Proof.
  induction s as [|c s IH]; [reflexivity|].
  cbn [Devices.toLowerCase]. rewrite IH. f_equal. apply lower_char_idem.
Qed.

Lemma includes_empty (hay : string) : Devices.includes "" hay = true.
Proof. destruct hay; reflexivity. Qed.

(** X13.  The search does not tell upper from lower case in what is typed: a
    term and its lower-case form select the same rows, and fail on the
    same tables. *)
Theorem search_ignores_case (term : string) (s : Devices.State) :
  Devices.filteredDevices (Devices.setSearchTerm term s)
  = Devices.filteredDevices
      (Devices.setSearchTerm (Devices.toLowerCase term) s).
Proof.
  unfold Devices.filteredDevices, Devices.setSearchTerm.
  cbn [Devices.devices Devices.searchTerm].
  destruct (Devices.devices s); try reflexivity.
  assert (Hm : forall d,
    Devices.matches term d = Devices.matches (Devices.toLowerCase term) d).
  { intros d. unfold Devices.matches, Devices.field_includes.
    rewrite toLowerCase_idem. reflexivity. }
  induction items as [|d items IH]; [reflexivity|].
  cbn [filter_throwing]. rewrite Hm, IH. reflexivity.
Qed.

(** X14.  With nothing typed in the search field, every device whose [type] is a
    string is shown, whatever its other fields are: the table is the
    list. *)
Theorem empty_search_shows_all (s : Devices.State) (items : list value) :
  Devices.devices s = VArr items ->
  Devices.searchTerm s = "" ->
  Forall (fun d => exists t, member d "type" = Normal (VStr t)) items ->
  Devices.filteredDevices s = Normal items.
Proof.
  intros Hdev Hterm Htypes. unfold Devices.filteredDevices.
  rewrite Hdev, Hterm. clear Hdev.
  induction Htypes as [|d items (t & Ht) _ IH]; [reflexivity|].
  cbn [filter_throwing]. rewrite IH.
  unfold Devices.matches, Devices.field_includes. rewrite Ht.
  cbn [bind Devices.toLowerCase]. rewrite includes_empty. reflexivity.
Qed.

Lemma pages_concat {A} (rows : list A) (size k : nat) :
  concat (List.map (fun p => take size (drop (p * size) rows)) (seq 0 k))
  = take (k * size) rows.
Proof.
  induction k as [|k IH]; [reflexivity|].
  rewrite seq_S, map_app, concat_app, IH. cbn [List.map concat plus].
  rewrite app_nil_r.
  replace (S k * size)%nat with (k * size + size)%nat by lia.
  rewrite <- (take_drop (k * size) (take (k * size + size) rows)).
  rewrite take_take, Nat.min_l by lia.
  rewrite <- take_drop_commute by lia.
  replace (k * size + size - k * size)%nat with size by lia.
  reflexivity.
Qed.

(** X15.  Paging shows everything once.  When the rows under the current search
    can be computed, every page shows at most [rowsPerPage] of them, and
    the pages [0 .. k-1] put one after the other are the first
    [k * rowsPerPage] rows, in order: all of them as soon as that covers
    the list.  Nothing is shown twice and nothing is skipped. *)
Theorem pages_partition (s : Devices.State) (rows : list value) (k : nat) :
  Devices.filteredDevices s = Normal rows ->
  Forall (fun p =>
            (length (shown (Devices.handleChangePage p s))
             <= Devices.rowsPerPage s)%nat)
         (seq 0 k)
  /\ concat (List.map (fun p => shown (Devices.handleChangePage p s))
                      (seq 0 k))
     = take (k * Devices.rowsPerPage s) rows
  /\ ((length rows <= k * Devices.rowsPerPage s)%nat ->
      concat (List.map (fun p => shown (Devices.handleChangePage p s))
                       (seq 0 k))
      = rows).
Proof.
  intros Hrows.
  assert (Hshown : forall p,
    shown (Devices.handleChangePage p s)
    = take (Devices.rowsPerPage s) (drop (p * Devices.rowsPerPage s) rows)).
  { intros p. unfold shown, Devices.paginatedDevices.
    change (Devices.filteredDevices (Devices.handleChangePage p s))
      with (Devices.filteredDevices s).
    rewrite Hrows. reflexivity. }
  assert (Hconcat :
    concat (List.map (fun p => shown (Devices.handleChangePage p s)) (seq 0 k))
    = take (k * Devices.rowsPerPage s) rows).
  { rewrite <- pages_concat. f_equal. apply map_ext. exact Hshown. }
  split; [|split].
  - apply Forall_forall. intros p _. rewrite Hshown.
    rewrite length_take. lia.
  - exact Hconcat.
  - intros Hcover. rewrite Hconcat. apply take_ge. exact Hcover.
Qed.

(** A page index past the end shows an empty table, whatever is in the
    list. *)
Lemma page_past_end (s : Devices.State) (rows : list value) :
  Devices.filteredDevices s = Normal rows ->
  (length rows <= Devices.page s * Devices.rowsPerPage s)%nat ->
  Devices.paginatedDevices s = Normal [].
Proof.
  intros Hrows Hpast. unfold Devices.paginatedDevices. rewrite Hrows.
  cbn [bind]. rewrite drop_ge by exact Hpast. rewrite take_nil. reflexivity.
Qed.

(** X16.  A delete never throws and leaves the page index, the page size, the
    search term, the companies and the spinner as they were, whatever the
    answer.  The page index is therefore not brought back when the last
    row of the last page goes: if the rows left under the search no longer
    reach the current page, the table is empty although rows remain on
    the pages before. *)
Theorem delete_keeps_page fuel confirmed id s w :
  let '(w', result) := Devices.handleDelete server fuel confirmed id s w in
  exists s',
    result = Normal s'
    /\ Devices.page s' = Devices.page s
    /\ Devices.rowsPerPage s' = Devices.rowsPerPage s
    /\ Devices.searchTerm s' = Devices.searchTerm s
    /\ Devices.companies s' = Devices.companies s
    /\ Devices.loading s' = Devices.loading s
    /\ forall rows,
         Devices.filteredDevices s' = Normal rows ->
         (length rows <= Devices.page s * Devices.rowsPerPage s)%nat ->
         Devices.paginatedDevices s' = Normal [].
Proof.
  assert (Hframe : forall s',
    Devices.page s' = Devices.page s ->
    Devices.rowsPerPage s' = Devices.rowsPerPage s ->
    forall rows,
      Devices.filteredDevices s' = Normal rows ->
      (length rows <= Devices.page s * Devices.rowsPerPage s)%nat ->
      Devices.paginatedDevices s' = Normal []).
  { intros s' Hp Hr rows Hrows Hpast. apply (page_past_end s' rows Hrows).
    rewrite Hp, Hr. exact Hpast. }
  unfold Devices.handleDelete.
  destruct confirmed; cbn [negb].
  2:{ exists s. repeat split. apply Hframe; reflexivity. }
  destruct (request server fuel (delete_config ("/devices/" +:+ id)) w)
    as [w1 [r|e|]]; cbn [await bind].
  - destruct (Devices.without_id id (Devices.devices s)) as [rest|[]];
      cbn [lift].
    + eexists. split; [reflexivity|]. repeat split.
      apply Hframe; reflexivity.
    + destruct (handleApiError_truthy (failure_value ThrownTypeError))
        as (m & -> & _).
      eexists. split; [reflexivity|]. repeat split.
      apply Hframe; reflexivity.
  - destruct (handleApiError_truthy (failure_value e)) as (m & -> & _).
    eexists. split; [reflexivity|]. repeat split.
    apply Hframe; reflexivity.
  - exists s. repeat split. apply Hframe; reflexivity.
Qed.

(** X17.  A fetch that is answered 401 when no refresh token is stored: the list
    on the page is kept, the banner shows [An unexpected error occurred]
    (the message of the 401 is not used), the spinner is off, and the
    client has sent the browser to the login page with both cookies gone.
    The one request is all that was sent. *)
Theorem fetchDevices_without_refresh_token n s w body :
  server (log w) (request_interceptor w (get_config "/devices"))
  = Answer 401 body ->
  has_token "refreshToken" w = false ->
  let '(w', result) := Devices.fetchDevices server (S n) s w in
  result = Normal (Devices.setLoading false
                     (Devices.setError (VStr "An unexpected error occurred") s))
  /\ href w' = "/login"
  /\ page_loads w' = S (page_loads w)
  /\ Cookies.get "accessToken" (cookies w') = None
  /\ Cookies.get "refreshToken" (cookies w') = None
  /\ log w' = (log w ++ [request_interceptor w (get_config "/devices")])%list.
Proof.
  intros H401 Hnone. unfold Devices.fetchDevices.
  rewrite (request_401_no_token server n (get_config "/devices") w body
             eq_refl H401 Hnone).
  destruct (catch_block_cleared
              (with_log (log w ++ [request_interceptor w
                 (get_config "/devices")]) w)) as (Ha & Hr & Hh & Hl).
  repeat split; assumption.
Qed.

End DevicesTable.

Lemma empty_search_shows_all_witness :
  Devices.filteredDevices Scenario.two_devices
  = Normal [Scenario.sensor; Scenario.gateway].
Proof.
  apply (empty_search_shows_all Scenario.two_devices
           [Scenario.sensor; Scenario.gateway]); try reflexivity.
  repeat constructor; eexists; reflexivity.
Defined.

Lemma pages_partition_witness :
  let s := Scenario.one_per_page in
  let rows := [Scenario.sensor; Scenario.gateway] in
  Forall (fun p =>
            (length (shown (Devices.handleChangePage p s))
             <= Devices.rowsPerPage s)%nat)
         (seq 0 2)
  /\ concat (List.map (fun p => shown (Devices.handleChangePage p s))
                      (seq 0 2))
     = take (2 * Devices.rowsPerPage s) rows
  /\ ((length rows <= 2 * Devices.rowsPerPage s)%nat ->
      concat (List.map (fun p => shown (Devices.handleChangePage p s))
                       (seq 0 2))
      = rows).
Proof.
  intros s rows. apply (pages_partition s rows 2). reflexivity.
Defined.

Lemma fetchDevices_without_refresh_token_witness :
  let w := Scenario.no_refresh_session in
  let s := Scenario.two_devices in
  let '(w', result) := Devices.fetchDevices Scenario.always_401 1 s w in
  result = Normal (Devices.setLoading false
                     (Devices.setError (VStr "An unexpected error occurred") s))
  /\ href w' = "/login"
  /\ page_loads w' = S (page_loads w)
  /\ Cookies.get "accessToken" (cookies w') = None
  /\ Cookies.get "refreshToken" (cookies w') = None
  /\ log w' = (log w ++ [request_interceptor w (get_config "/devices")])%list.
Proof.
  intros w s.
  apply (fetchDevices_without_refresh_token Scenario.always_401 0 s w
           (VObj [("message", VStr "Unauthorized")])); reflexivity.
Defined.

(* ===================================================================== *)
(** * Device forms *)
(* ===================================================================== *)

Section DeviceForms.
Import Page.

Variable server : list AxiosRequestConfig -> AxiosRequestConfig -> net_result.

(** A refusal that is not a 401 rejects the promise at once and leaves the
    session alone. *)
Lemma request_refused n config w st body :
  server (log w) (request_interceptor w config) = Answer st body ->
  validateStatus st = false ->
  st <> 401 ->
  request server (S n) config w
  = (with_log (log w ++ [request_interceptor w config]) w,
     Rejected (AxiosError (request_interceptor w config)
                          (Some (mkResponse st body)))).
Proof.
  intros Hanswer Hinvalid Hne. cbn [request]. unfold adapter.
  rewrite Hanswer, Hinvalid. unfold on_rejected.
  cbn [is_401 response_status fmap option_fmap option_map status].
  destruct (Z.eqb_spec st 401); [contradiction|reflexivity].
Qed.

Lemma string_between_bounds lo hi v s :
  EditDevice.string_between lo hi v = Some s ->
  (lo <= String.length s <= hi)%nat.
Proof.
  destruct v; simpl; try discriminate.
  destruct (_ && _) eqn:H; [|discriminate]. intros [= <-].
  apply andb_prop in H. destruct H as [H1 H2].
  apply Nat.leb_le in H1, H2. lia.
Qed.

Lemma deviceSchema_bounds f d :
  EditDevice.deviceSchema f = Some d -> within_bounds d.
Proof.
  unfold EditDevice.deviceSchema. intros H.
  destruct (EditDevice.string_between 2 50 _) as [ty|] eqn:H1;
    [|discriminate].
  destruct (EditDevice.string_min 1 _) as [co|] eqn:H2; [|discriminate].
  destruct (EditDevice.with_default EditDevice.offline _ _) as [st|];
    [|discriminate].
  destruct (EditDevice.string_between 2 255 _) as [lo|] eqn:H4;
    [|discriminate].
  destruct (EditDevice.string_between 5 1000 _) as [pa|] eqn:H5;
    [|discriminate].
  destruct (EditDevice.with_default [] _ _) as [ps|]; [|discriminate].
  destruct (EditDevice.with_default 60 _ _) as [pu|] eqn:H7; [|discriminate].
  destruct (EditDevice.with_default true _ _) as [en|]; [|discriminate].
  simpl in H. injection H as <-.
  apply string_between_bounds in H1, H4, H5.
  unfold within_bounds. cbn.
  repeat split; try lia.
  - revert H2. unfold EditDevice.string_min.
    destruct (EditDevice.Form.company_id f); try discriminate.
    destruct (1 <=? String.length s)%nat eqn:Hlen; [|discriminate].
    intros [= <-]. apply Nat.leb_le in Hlen. exact Hlen.
  - revert H7. unfold EditDevice.with_default, EditDevice.parse_positive_int.
    destruct (EditDevice.Form.push_interval f); try discriminate.
    + intros [= <-]. reflexivity.
    + destruct (0 <? n) eqn:Hpos; [|discriminate].
      intros [= <-]. apply Z.ltb_lt in Hpos. exact Hpos.
Qed.

(** X18.  What the two device forms put on the wire is within the schema's
    bounds.  Submitting either sends nothing when the schema refuses the
    form; otherwise the first request is the PUT to the device's URL
    (edit) or the POST to the collection (create), and the device in its
    payload has a type of 2 to 50 characters, a company, a location of 2
    to 255 characters, an address of 5 to 1000 characters and a push
    interval above zero. *)
Theorem device_forms_send_within_bounds n id (f : EditDevice.Form.t) se sn w :
  EditDevice.form se = f ->
  NewDevice.form sn = f ->
  match EditDevice.deviceSchema f with
  | None =>
      EditDevice.handleSubmit server (S n) id se w = (w, Normal se)
      /\ NewDevice.handleSubmit server (S n) sn w = (w, Normal sn)
  | Some d =>
      within_bounds d
      /\ (exists rest : list AxiosRequestConfig,
            log (fst (EditDevice.handleSubmit server (S n) id se w))
            = (log w
               ++ request_interceptor w
                    (put_config ("/devices/" +:+ id)
                                (VObj (EditDevice.encode d)))
               :: rest)%list)
      /\ (exists rest : list AxiosRequestConfig,
            log (fst (NewDevice.handleSubmit server (S n) sn w))
            = (log w
               ++ request_interceptor w
                    (post_config "/devices" (VObj (EditDevice.encode d)))
               :: rest)%list)
  end.
Proof.
  intros He Hn.
  unfold EditDevice.handleSubmit, NewDevice.handleSubmit,
    NewDevice.deviceSchema. rewrite He, Hn.
  destruct (EditDevice.deviceSchema f) as [d|] eqn:Hd; [|split; reflexivity].
  split; [exact (deviceSchema_bounds f d Hd)|]. split.
  - unfold EditDevice.onSubmit. set (c := put_config _ _).
    destruct (request_first_sent server n c w) as (l & Hl).
    destruct (request server (S n) c w) as [w1 o]. cbn [fst] in Hl.
    exists l. destruct (await o) as [[r|e]|]; exact Hl.
  - unfold NewDevice.onSubmit. set (c := post_config _ _).
    destruct (request_first_sent server n c w) as (l & Hl).
    destruct (request server (S n) c w) as [w1 o]. cbn [fst] in Hl.
    exists l. destruct (await o) as [[r|e]|]; exact Hl.
Qed.

(** X19.  Creating a device with the defaults untouched.  The user types a type,
    a company, a location and an address that the schema accepts; the
    request sent is a POST to [/devices] whose payload has status
    [offline], an empty payload schema, a push interval of 60 and
    [enabled: true].  On success the page goes to the device list; on a
    failure it stays, shows a message and the spinner is off. *)
Theorem new_device_defaults n ty co lo pa s w :
  NewDevice.form s
  = EditDevice.Form.mk (VStr ty) (VStr co) (VStr "offline") (VStr lo)
      (VStr pa) (VObj []) (VNum 60) (VBool true) ->
  (2 <= String.length ty <= 50)%nat ->
  (1 <= String.length co)%nat ->
  (2 <= String.length lo <= 255)%nat ->
  (5 <= String.length pa <= 1000)%nat ->
  let call :=
    post_config "/devices"
      (VObj [("type", VStr ty); ("company_id", VStr co);
             ("status", VStr "offline"); ("location", VStr lo);
             ("physical_address", VStr pa); ("payload_schema", VObj []);
             ("push_interval", VNum 60); ("enabled", VBool true)]) in
  let '(w', result) := NewDevice.handleSubmit server (S n) s w in
  (exists rest : list AxiosRequestConfig,
     log w' = (log w ++ request_interceptor w call :: rest)%list)
  /\ match snd (request server (S n) call w) with
     | Resolved _ =>
         result = Normal (NewDevice.mkState false (NewDevice.error s)
                            (NewDevice.form s) "/devices")
     | Rejected e =>
         exists message,
           result = Normal (NewDevice.mkState false message
                              (NewDevice.form s) (NewDevice.route s))
           /\ truthy message = true
     | Pending =>
         result = Normal (NewDevice.mkState true (NewDevice.error s)
                            (NewDevice.form s) (NewDevice.route s))
     end.
Proof.
  intros Hform Hty Hco Hlo Hpa call.
  assert (Hschema : EditDevice.deviceSchema (NewDevice.form s)
    = Some (EditDevice.DeviceFormData.mk ty co EditDevice.offline lo pa []
              60 true)).
  { rewrite Hform. unfold EditDevice.deviceSchema,
      EditDevice.string_between, EditDevice.string_min.
    cbn [EditDevice.Form.type EditDevice.Form.company_id
         EditDevice.Form.status EditDevice.Form.location
         EditDevice.Form.physical_address EditDevice.Form.payload_schema
         EditDevice.Form.push_interval EditDevice.Form.enabled].
    repeat match goal with
           | |- context [(?a <=? ?b)%nat] =>
               replace (a <=? b)%nat with true
                 by (symmetry; apply Nat.leb_le; lia)
           end.
    reflexivity. }
  unfold NewDevice.handleSubmit, NewDevice.deviceSchema. rewrite Hschema.
  unfold NewDevice.onSubmit.
  change (post_config "/devices" (VObj (EditDevice.encode _))) with call.
  destruct (request_first_sent server n call w) as (l & Hl).
  destruct (request server (S n) call w) as [w1 [r|e|]];
    cbn [fst snd await bind] in *.
  - split; [exists l; exact Hl|reflexivity].
  - destruct (handleApiError_truthy (failure_value e)) as (m & -> & Hm).
    cbn [bind]. split; [exists l; exact Hl|]. exists m. auto.
  - split; [exists l; exact Hl|reflexivity].
Qed.

(** X20.  A refusal with a message reaches the user word for word.  When the
    server answers the update with a status that is neither a success nor
    401 and a body whose [message] is a non-empty string, the edit page
    shows exactly that message, stays where it is with the spinner off,
    and the session is untouched: one request, same cookies, no reload. *)
Theorem edit_device_shows_server_message n id d s w st body msg :
  let call := put_config ("/devices/" +:+ id) (VObj (EditDevice.encode d)) in
  server (log w) (request_interceptor w call) = Answer st body ->
  validateStatus st = false ->
  st <> 401 ->
  opt_member body "message" = VStr msg ->
  msg <> "" ->
  EditDevice.onSubmit server (S n) id d s w
  = (with_log (log w ++ [request_interceptor w call]) w,
     Normal (EditDevice.setLoading false
               (EditDevice.setError (VStr msg)
                  (EditDevice.setLoading true s)))).
Proof.
  intros call Hanswer Hinvalid Hne Hmsg Hnonempty.
  unfold EditDevice.onSubmit. fold call.
  rewrite (request_refused n call w st body Hanswer Hinvalid Hne).
  cbn [await]. unfold handleApiError. cbn. rewrite Hmsg.
  unfold JS.or. cbn.
  destruct (String.eqb_spec msg ""); [contradiction|reflexivity].
Qed.

End DeviceForms.

Lemma device_forms_send_within_bounds_witness :
  let server := Scenario.fixed_body_server (VObj []) in
  let w := Scenario.logged_in in
  let se :=
    EditDevice.mkState Scenario.sensor false VNull Scenario.sensor_form
      "/devices/d1" in
  let sn := Scenario.new_start in
  match EditDevice.deviceSchema Scenario.sensor_form with
  | None =>
      EditDevice.handleSubmit server 1 "d1" se w = (w, Normal se)
      /\ NewDevice.handleSubmit server 1 sn w = (w, Normal sn)
  | Some d =>
      within_bounds d
      /\ (exists rest : list AxiosRequestConfig,
            log (fst (EditDevice.handleSubmit server 1 "d1" se w))
            = (log w
               ++ request_interceptor w
                    (put_config ("/devices/" +:+ "d1")
                                (VObj (EditDevice.encode d)))
               :: rest)%list)
      /\ (exists rest : list AxiosRequestConfig,
            log (fst (NewDevice.handleSubmit server 1 sn w))
            = (log w
               ++ request_interceptor w
                    (post_config "/devices" (VObj (EditDevice.encode d)))
               :: rest)%list)
  end.
Proof.
  intros server w se sn.
  apply (device_forms_send_within_bounds server 0 "d1" Scenario.sensor_form
           se sn w); reflexivity.
Defined.

Lemma new_device_defaults_witness :
  let server := Scenario.fixed_body_server (VObj []) in
  let w := Scenario.logged_in in
  let s := Scenario.new_start in
  let call :=
    post_config "/devices"
      (VObj [("type", VStr "sensor"); ("company_id", VStr "c1");
             ("status", VStr "offline"); ("location", VStr "lab");
             ("physical_address", VStr "1 Main Street");
             ("payload_schema", VObj []);
             ("push_interval", VNum 60); ("enabled", VBool true)]) in
  let '(w', result) := NewDevice.handleSubmit server 1 s w in
  (exists rest : list AxiosRequestConfig,
     log w' = (log w ++ request_interceptor w call :: rest)%list)
  /\ match snd (request server 1 call w) with
     | Resolved _ =>
         result = Normal (NewDevice.mkState false (NewDevice.error s)
                            (NewDevice.form s) "/devices")
     | Rejected e =>
         exists message,
           result = Normal (NewDevice.mkState false message
                              (NewDevice.form s) (NewDevice.route s))
           /\ truthy message = true
     | Pending =>
         result = Normal (NewDevice.mkState true (NewDevice.error s)
                            (NewDevice.form s) (NewDevice.route s))
     end.
Proof.
  intros server w s.
  apply (new_device_defaults server 0 "sensor" "c1" "lab" "1 Main Street"
           s w); [reflexivity|cbn; lia..].
Defined.

Lemma edit_device_shows_server_message_witness :
  let w := Scenario.logged_in in
  let s := Scenario.edit_start in
  let d := Scenario.sensor_data in
  let call := put_config ("/devices/" +:+ "d1") (VObj (EditDevice.encode d)) in
  EditDevice.onSubmit Scenario.refusing_server 1 "d1" d s w
  = (with_log (log w ++ [request_interceptor w call]) w,
     Normal (EditDevice.setLoading false
               (EditDevice.setError (VStr "Type already in use")
                  (EditDevice.setLoading true s)))).
Proof.
  intros w s d.
  apply (edit_device_shows_server_message Scenario.refusing_server 0 "d1" d s
           w 422 (VObj [("message", VStr "Type already in use")])
           "Type already in use");
    try reflexivity; discriminate.
Defined.

(* ===================================================================== *)
(** * Route guard: the whole decision *)
(* ===================================================================== *)

(** X21.  The gate answers a navigation in one of two ways only: it lets it
    pass, or it redirects to the login page.  The login page itself always
    passes, whatever cookies come with the request, so a redirect is never
    answered by another one; and a path that is not protected passes with
    or without a cookie. *)
Theorem gate_never_loops path jar :
  (Guard.gate (Guard.mkRequest path jar) = Guard.next
   \/ Guard.gate (Guard.mkRequest path jar) = Guard.redirect "/login")
  /\ (forall jar', Guard.gate (Guard.mkRequest "/login" jar') = Guard.next)
  /\ (protected path = false ->
      Guard.gate (Guard.mkRequest path jar) = Guard.next).
Proof.
  split; [|split].
  - unfold Guard.gate, Guard.middleware.
    cbn [Guard.pathname Guard.request_cookies].
    destruct (Guard.matcher path); [|left; reflexivity].
    destruct (_ || _); [left; reflexivity|].
    destruct (_ || _); [left; reflexivity|].
    destruct (jar !! "accessToken") as [token|]; [|right; reflexivity].
    destruct (truthy_string token); [left|right]; reflexivity.
  - intros jar'. reflexivity.
  - unfold protected, Guard.gate, Guard.middleware.
    cbn [Guard.pathname Guard.request_cookies].
    destruct (Guard.matcher path); [|reflexivity].
    destruct (String.eqb path "/login"); [reflexivity|].
    destruct (Guard.startsWith "/api/" path); [reflexivity|].
    destruct (Guard.startsWith "/_next" path); [reflexivity|].
    destruct (Guard.includes "." path); [reflexivity|].
    cbn. discriminate.
Qed.

(* ===================================================================== *)
(** * Dashboard *)
(* ===================================================================== *)

Section DashboardFacts.

Variable server : list AxiosRequestConfig -> AxiosRequestConfig -> net_result.

(** After a refresh that succeeded, the call is the resubmission. *)
Lemma request_refreshed n config w body rt st tokens :
  _retry config = false ->
  let sent := request_interceptor w config in
  let w1 := with_log (log w ++ [sent]) w in
  let refresh := request_interceptor w1 (refresh_request rt) in
  server (log w) sent = Answer 401 body ->
  Cookies.get "refreshToken" (cookies w) = Some rt ->
  truthy_string rt = true ->
  server (log w1) refresh = Answer st tokens ->
  validateStatus st = true ->
  is_nullish tokens = false ->
  let access := toString (opt_member tokens "accessToken") in
  let jar :=
    Cookies.set "refreshToken" (toString (opt_member tokens "refreshToken")) 7
      (Cookies.set "accessToken" access 1 (cookies w)) in
  let w2 := with_cookies jar (with_log (log w1 ++ [refresh]) w1) in
  request server (S (S n)) config w
  = request server (S n)
      (set_header "Authorization" ("Bearer " +:+ access) (set_retry true sent))
      w2.
Proof.
  intros Hfresh sent w1 refresh H401 Hrt Htruthy Hok Hvalid Hbody
         access jar w2.
  rewrite (request_401 server (S n) config w body Hfresh H401).
  fold sent w1. unfold try_block.
  change (cookies w1) with (cookies w). rewrite Hrt, Htruthy.
  assert (Hrefresh : request server (S n) (refresh_request rt) w1
                     = (with_log (log w1 ++ [refresh]) w1,
                        Resolved (mkResponse st tokens))).
  { cbn [request]. fold refresh. unfold adapter. rewrite Hok, Hvalid.
    reflexivity. }
  rewrite Hrefresh. cbn [data].
  assert (Hm : forall k, member tokens k = Normal (opt_member tokens k)).
  { intros k. destruct tokens; try reflexivity; discriminate. }
  rewrite !Hm. fold access.
  change (with_cookies _ (with_log (log w1 ++ [refresh]) w1)) with w2.
  destruct (request server (S n) _ w2) as [w3 o]. reflexivity.
Qed.

(** X22.  The dashboard with a session that cannot be renewed.  Either fetch is
    answered 401 and no refresh token is stored: the page keeps its data
    and does not call the router -- the rejection carries no response, so
    the page's own test for a 401 fails -- while the client has removed
    the tokens and loaded the login page. *)
Theorem dashboard_expired_session n (first : bool) s w body :
  let endpoint := if first then "/companies/stats" else "/devices/stats" in
  server (log w) (request_interceptor w (get_config endpoint))
  = Answer 401 body ->
  has_token "refreshToken" w = false ->
  let '(w', s') :=
    (if first then Dashboard.fetchStats else Dashboard.fetchDeviceData)
      server (S n) s w in
  s' = s
  /\ href w' = "/login"
  /\ page_loads w' = S (page_loads w)
  /\ Cookies.get "accessToken" (cookies w') = None
  /\ Cookies.get "refreshToken" (cookies w') = None.
Proof.
  intros endpoint H401 Hnone.
  pose proof (request_401_no_token server n (get_config endpoint) w body
                eq_refl H401 Hnone) as Hreq.
  destruct (catch_block_cleared
              (with_log (log w ++ [request_interceptor w
                 (get_config endpoint)]) w)) as (Ha & Hr & Hh & _).
  destruct first; unfold Dashboard.fetchStats, Dashboard.fetchDeviceData;
    unfold endpoint in *; rewrite Hreq; cbn [Dashboard.unauthorized];
    repeat split; assumption.
Qed.

(** X23.  The dashboard's own redirect.  The session is renewed but the
    resubmitted fetch is answered 401 again: the client leaves it at that,
    and the page replaces the route by the login page through the router,
    keeping its data.  No page is loaded and the tokens just stored stay
    in the jar. *)
Theorem dashboard_soft_redirect n (first : bool) s w body rt st tokens body' :
  let config :=
    get_config (if first then "/companies/stats" else "/devices/stats") in
  let sent := request_interceptor w config in
  let w1 := with_log (log w ++ [sent]) w in
  let refresh := request_interceptor w1 (refresh_request rt) in
  let access := toString (opt_member tokens "accessToken") in
  let jar :=
    Cookies.set "refreshToken" (toString (opt_member tokens "refreshToken")) 7
      (Cookies.set "accessToken" access 1 (cookies w)) in
  let w2 := with_cookies jar (with_log (log w1 ++ [refresh]) w1) in
  let again :=
    request_interceptor w2
      (set_header "Authorization" ("Bearer " +:+ access) (set_retry true sent)) in
  server (log w) sent = Answer 401 body ->
  Cookies.get "refreshToken" (cookies w) = Some rt ->
  truthy_string rt = true ->
  server (log w1) refresh = Answer st tokens ->
  validateStatus st = true ->
  is_nullish tokens = false ->
  server (log w2) again = Answer 401 body' ->
  let '(w', s') :=
    (if first then Dashboard.fetchStats else Dashboard.fetchDeviceData)
      server (S (S n)) s w in
  s' = Dashboard.mkState (Dashboard.stats s) (Dashboard.deviceData s) "/login"
  /\ page_loads w' = page_loads w
  /\ href w' = href w
  /\ cookies w' = jar
  /\ log w' = (log w ++ [sent; refresh; again])%list.
Proof.
  intros config sent w1 refresh access jar w2 again
         H401 Hrt Htruthy Hok Hvalid Hbody Hagain.
  pose proof (request_refreshed n config w body rt st tokens eq_refl
                H401 Hrt Htruthy Hok Hvalid Hbody) as Hreq.
  cbv zeta in Hreq. fold sent w1 refresh access jar w2 in Hreq.
  rewrite (retried_401_is_final server n
             (set_header "Authorization" ("Bearer " +:+ access)
                (set_retry true sent))
             w2 body' eq_refl Hagain) in Hreq.
  fold again in Hreq.
  assert (Hlog : log (with_log (log w2 ++ [again]) w2)
                 = (log w ++ [sent; refresh; again])%list).
  { unfold w2, w1. simpl. rewrite <- !app_assoc. reflexivity. }
  destruct first; unfold Dashboard.fetchStats, Dashboard.fetchDeviceData;
    unfold config in Hreq; rewrite Hreq;
    cbn [Dashboard.unauthorized is_401 response_status fmap option_fmap
         option_map status Z.eqb Pos.eqb];
    repeat split; exact Hlog.
Qed.

End DashboardFacts.

Lemma dashboard_expired_session_witness :
  let w := Scenario.no_refresh_session in
  let s := Scenario.dashboard_start in
  let '(w', s') := Dashboard.fetchStats Scenario.always_401 1 s w in
  s' = s
  /\ href w' = "/login"
  /\ page_loads w' = S (page_loads w)
  /\ Cookies.get "accessToken" (cookies w') = None
  /\ Cookies.get "refreshToken" (cookies w') = None.
Proof.
  intros w s.
  apply (dashboard_expired_session Scenario.always_401 0 true s w
           (VObj [("message", VStr "Unauthorized")])); reflexivity.
Defined.

Lemma dashboard_soft_redirect_witness :
  let w := Scenario.stale_session in
  let s := Scenario.dashboard_start in
  let '(w', s') := Dashboard.fetchDeviceData Scenario.renewing_server 2 s w in
  s' = Dashboard.mkState VNull VNull "/login"
  /\ page_loads w' = 0%nat
  /\ href w' = "/devices"
  /\ cookies w' = Scenario.jar "A2" "R2"
  /\ List.map (fun c => (method c, url c, _retry c)) (log w')
     = [(GET, "/devices/stats", false); (POST, "/auth/refresh", false);
        (GET, "/devices/stats", true)].
Proof.
  intros w s.
  pose proof (dashboard_soft_redirect Scenario.renewing_server 0 false s w
                (VObj [("message", VStr "Unauthorized")]) "R1" 200
                Scenario.fresh_tokens
                (VObj [("message", VStr "Unauthorized")])
                eq_refl eq_refl eq_refl eq_refl eq_refl eq_refl eq_refl) as H.
  cbv zeta in H.
  destruct (Dashboard.fetchDeviceData Scenario.renewing_server 2 s w)
    as [w' s'].
  destruct H as (Hs & Hp & Hh & Hc & Hl).
  rewrite Hs, Hp, Hh, Hc, Hl. vm_compute. repeat split.
Defined.

(* ===================================================================== *)
(** * Companies page *)
(* ===================================================================== *)

Section CompaniesFacts.

Variable server : list AxiosRequestConfig -> AxiosRequestConfig -> net_result.

(** X24.  Creating a company.  The first request is the POST of the four fields
    of the form.  If it resolves, the dialog is closed and the list is
    asked for again, right after it; if it does not, the page is exactly
    as it was: the dialog stays open and nothing tells the user. *)
Theorem companies_create n d s w :
  let call := post_config "/companies" (Companies.encode d) in
  let '(w', s') := Companies.onSubmit server (S n) d s w in
  (exists rest : list AxiosRequestConfig,
     log w' = (log w ++ request_interceptor w call :: rest)%list)
  /\ match request server (S n) call w with
     | (w1, Resolved _) =>
         Companies.open s' = false
         /\ exists rest : list AxiosRequestConfig,
              log w'
              = (log w1 ++ request_interceptor w1 (get_config "/companies")
                 :: rest)%list
     | (w1, _) => w' = w1 /\ s' = s
     end.
Proof.
  intros call. unfold Companies.onSubmit. fold call.
  destruct (request_first_sent server n call w) as (l & Hl).
  destruct (request server (S n) call w) as [w1 [r|e|]]; cbn [fst] in Hl.
  - unfold Companies.fetchCompanies.
    destruct (request_first_sent server n (get_config "/companies") w1)
      as (l2 & Hl2).
    destruct (request server (S n) (get_config "/companies") w1) as [w2 o2].
    cbn [fst] in Hl2.
    assert (Hboth : exists rest : list AxiosRequestConfig,
              log w2 = (log w ++ request_interceptor w call :: rest)%list).
    { eexists. rewrite Hl2, Hl, <- app_assoc. reflexivity. }
    destruct o2; (split; [exact Hboth|split; [reflexivity|eauto]]).
  - split; [eauto|split; reflexivity].
  - split; [eauto|split; reflexivity].
Qed.

End CompaniesFacts.

(* ===================================================================== *)
(** * Payload schema page *)
(* ===================================================================== *)

Section PayloadFacts.

Variable server : list AxiosRequestConfig -> AxiosRequestConfig -> net_result.
Variable JSON_parse : string -> option value.
Variable JSON_stringify : value -> value.
Variable id : string.

(** X25.  The payload page talks to the server past the client.  Its fetch sends
    one GET under [/api/devices/] with no header at all -- no bearer token
    even when one is stored -- and, whatever the answer, a 401 included,
    it neither touches the cookies nor leaves the page; the spinner is
    off afterwards.  The middleware lets the URL through without a
    cookie. *)
Theorem payload_fetch_bypasses_client s w :
  let call := mkConfig GET ("/api/devices/" +:+ id) VUndefined ∅ false in
  let '(w', s') := DevicePayload.fetchDevice server JSON_stringify id s w in
  log w' = (log w ++ [call])%list
  /\ cookies w' = cookies w
  /\ href w' = href w
  /\ page_loads w' = page_loads w
  /\ DevicePayload.loading s' = false
  /\ forall jar, Guard.gate (Guard.mkRequest (url call) jar) = Guard.next.
Proof.
  intros call.
  assert (Hgate : forall jar,
    Guard.gate (Guard.mkRequest (url call) jar) = Guard.next).
  { intros jar. unfold Guard.gate. cbn [Guard.pathname url call].
    destruct (Guard.matcher _); reflexivity. }
  unfold DevicePayload.fetchDevice, DevicePayload.axios.
  fold call.
  pose proof (adapter_world server call w) as Hw.
  destruct (adapter server call w) as [w1 [r|e]]; cbn [fst] in Hw; subst w1.
  - destruct (member (data r) "payloadSchema");
      repeat split; try exact (Hgate _).
  - repeat split; try exact (Hgate _).
Qed.

(** X26.  Saving the payload schema.  The text of the form is sent only if
    [JSON.parse] accepts it, and then as the parsed value, in one PATCH to
    the device's [payload-schema] URL with no header; the page then shows
    the success message if the answer is a success and the failure message
    otherwise.  A text that does not parse, or no text, sends nothing and
    leaves the page as it is: the failure message is only ever shown after
    a request.  The session is never touched. *)
Theorem payload_submit s w :
  let '(w', s') := DevicePayload.handleSubmit server JSON_parse id s w in
  cookies w' = cookies w
  /\ href w' = href w
  /\ page_loads w' = page_loads w
  /\ DevicePayload.schema s' = DevicePayload.schema s
  /\ match DevicePayload.schema s with
     | VStr text =>
         match JSON_parse text with
         | Some parsed =>
             let call :=
               mkConfig PATCH ("/api/devices/" +:+ id +:+ "/payload-schema")
                        (VObj [("schema", parsed)]) ∅ false in
             log w' = (log w ++ [call])%list
             /\ match server (log w) call with
                | Answer st _ =>
                    if validateStatus st
                    then DevicePayload.success s'
                         = VStr "Payload schema updated successfully"
                         /\ DevicePayload.error s' = DevicePayload.error s
                    else DevicePayload.error s'
                         = VStr "Failed to update payload schema"
                         /\ DevicePayload.success s' = DevicePayload.success s
                | NetworkError =>
                    DevicePayload.error s'
                    = VStr "Failed to update payload schema"
                    /\ DevicePayload.success s' = DevicePayload.success s
                end
         | None => w' = w /\ s' = s
         end
     | _ => w' = w /\ s' = s
     end.
Proof.
  unfold DevicePayload.handleSubmit, DevicePayload.payloadSchema.
  destruct (DevicePayload.schema s) as [| | | |text| |] eqn:Hschema;
    try (rewrite Hschema; repeat split; reflexivity).
  destruct (JSON_parse text) as [parsed|] eqn:Hparse;
    [|rewrite Hschema; repeat split; reflexivity].
  unfold DevicePayload.onSubmit. rewrite Hparse.
  unfold DevicePayload.axios, adapter.
  destruct (server (log w) _) as [st body|].
  - destruct (validateStatus st); cbn; rewrite Hschema; repeat split.
  - cbn. rewrite Hschema. repeat split.
Qed.

End PayloadFacts.

(* ===================================================================== *)
(** * Users page: creating a user *)
(* ===================================================================== *)

(** X27.  Creating a user needs a password.  With no user selected, data
    whose password is missing or empty is not sent: the only effect is the
    message [Password is required for new users].  Data with a password
    goes out as a POST to [/users], first of all, with every field of the
    form and the password among them. *)
Theorem users_create_needs_password server fuel d s w :
  Users.selectedUser s = None ->
  match Users.UserFormData.password d with
  | Some p =>
      if String.eqb p "" then
        Users.onSubmit server (S fuel) d s w
        = (w, Normal (Users.setError
                        (VStr "Password is required for new users") s))
      else
        (exists rest : list AxiosRequestConfig,
           log (fst (Users.onSubmit server (S fuel) d s w))
           = (log w
              ++ request_interceptor w
                   (post_config "/users" (VObj (Users.encode d)))
              :: rest)%list)
        /\ lookup_prop "password" (Users.encode d) = VStr p
        /\ Forall (fun k => has_prop k (Users.encode d) = true)
             ["email"; "firstName"; "lastName"; "role"; "status";
              "companyId"]
  | None =>
      Users.onSubmit server (S fuel) d s w
      = (w, Normal (Users.setError
                      (VStr "Password is required for new users") s))
  end.
Proof.
  intros Hsel.
  destruct (Users.UserFormData.password d) as [p|] eqn:Hp.
  - destruct (String.eqb_spec p "") as [->|Hne].
    + unfold Users.onSubmit. rewrite Hsel, Hp. reflexivity.
    + destruct (users_create_with_password server fuel d s w p Hsel Hp Hne)
        as (rest & Hlog & Hpw).
      split; [exists rest; exact Hlog|]. split; [exact Hpw|].
      unfold Users.encode. rewrite Hp. repeat constructor.
  - unfold Users.onSubmit. rewrite Hsel, Hp. reflexivity.
Qed.

Lemma users_create_needs_password_witness :
  let server := Scenario.fixed_body_server (VObj []) in
  let d :=
    Users.UserFormData.mk "bob@example.org" "Bob" "Durand" Users.viewer
      Users.active (Some "correct horse")
      "123e4567-e89b-12d3-a456-426614174000" in
  let s := Scenario.users_start in
  let w := Scenario.logged_in in
  (exists rest : list AxiosRequestConfig,
     log (fst (Users.onSubmit server 1 d s w))
     = (log w
        ++ request_interceptor w
             (post_config "/users" (VObj (Users.encode d)))
        :: rest)%list)
  /\ lookup_prop "password" (Users.encode d) = VStr "correct horse"
  /\ Forall (fun k => has_prop k (Users.encode d) = true)
       ["email"; "firstName"; "lastName"; "role"; "status"; "companyId"].
Proof.
  intros server d s w.
  exact (users_create_needs_password server 0 d s w eq_refl).
Defined.
